(** * py_prisma: the status classification and count-derivation engine

    A shallow embedding of [src/py_prisma/loader.py], the module the package
    exports, and of the aggregation path of the monolithic
    [src/py_prisma/py_prisma.py], with the properties the specification
    states about them.

    Conventions of the embedding.
    - A Python [str] is a [string]; a character is a code point in 0..255
      (the Latin-1 range), on which [str.lower], [str.strip], [repr] and
      [int] behave as CPython does.  Code points above 255 are outside the
      model.
    - A Python [int] is a [Z].  CPython refuses to convert between integers
      and texts of more than 4300 digits: [int] of such a text is a
      ValueError here as there ([Py.int_of_str]), and so is [str] of such
      an integer in [Py.str_int].  Where a value is written into a text
      ([Py.str], the lines of a box) an integer is written by its decimal
      text, which is what CPython gives within that limit.
    - A value is [None], a [bool], an [int], a [str], a [list] or a [dict]
      with string keys; floats and other objects are outside the model.
    - A [dict] whose order of iteration cannot be observed in the result is
      a [gmap]: the fields of a record, the bucket counters, the parsed
      criteria and the reason tally (two Python dicts are equal when they
      hold the same items, in any order).  The record collection, whose
      iteration order one property is about, is a list of items in
      iteration order; a mapping handed to [normalize_reasons] is a list of
      items too, as the first value that fails decides the exception.
    - A Python exception is the [Raise] case of [result]. *)

From Stdlib Require Import ZArith Ascii String List Permutation Lia.
From Stdlib Require Import DecimalString Sorted.
From Stdlib Require DecimalPos.
From stdpp Require Import base option list gmap strings fin_maps.

Local Open Scope string_scope.
Local Open Scope Z_scope.

(** ** Characters and strings *)

Module Str.

Definition code (c : ascii) : N := N_of_ascii c.

Definition between (lo hi : N) (c : ascii) : bool :=
  ((lo <=? code c) && (code c <=? hi))%N.

(** [str.isspace] on one character. *)
Definition isspace (c : ascii) : bool :=
  between 9 13 c || between 28 32 c || (code c =? 133)%N || (code c =? 160)%N.

(** The characters [int] skips around a literal: [isspace] without the four
    separators 28..31. *)
Definition int_space (c : ascii) : bool :=
  between 9 13 c || (code c =? 32)%N || (code c =? 133)%N || (code c =? 160)%N.

(** [str.lower] on one character: A-Z and the Latin-1 capitals (192..222
    without the multiplication sign 215) move up by 32. *)
Definition lower_char (c : ascii) : ascii :=
  if between 65 90 c || between 192 214 c || between 216 222 c
  then ascii_of_N (code c + 32)
  else c.

Fixpoint map_chars (f : ascii -> ascii) (s : string) : string :=
  match s with
  | EmptyString => EmptyString
  | String c s' => String (f c) (map_chars f s')
  end.

(** [s.lower()] *)
Definition lower (s : string) : string := map_chars lower_char s.

Fixpoint lstrip_by (p : ascii -> bool) (s : string) : string :=
  match s with
  | EmptyString => EmptyString
  | String c s' => if p c then lstrip_by p s' else s
  end.

Fixpoint rstrip_by (p : ascii -> bool) (s : string) : string :=
  match s with
  | EmptyString => EmptyString
  | String c s' =>
      match rstrip_by p s' with
      | EmptyString => if p c then EmptyString else String c EmptyString
      | r => String c r
      end
  end.

Definition strip_by (p : ascii -> bool) (s : string) : string :=
  rstrip_by p (lstrip_by p s).

(** [s.strip()] *)
Definition strip (s : string) : string := strip_by isspace s.

Fixpoint mem_char (c : ascii) (chars : string) : bool :=
  match chars with
  | EmptyString => false
  | String d chars' => Ascii.eqb c d || mem_char c chars'
  end.

(** [s.strip(chars)] and [s.rstrip(chars)] *)
Definition strip_chars (chars s : string) : string :=
  strip_by (fun c => mem_char c chars) s.
Definition rstrip_chars (chars s : string) : string :=
  rstrip_by (fun c => mem_char c chars) s.

(** [s.startswith(p)] *)
Fixpoint startswith (p s : string) : bool :=
  match p, s with
  | EmptyString, _ => true
  | String _ _, EmptyString => false
  | String a p', String b s' => Ascii.eqb a b && startswith p' s'
  end.

(** [s.endswith(p)], used by the monolithic module only. *)
Fixpoint endswith (p s : string) : bool :=
  String.eqb p s ||
  match s with
  | EmptyString => false
  | String _ s' => endswith p s'
  end.

(** [x in s] for strings. *)
Fixpoint contains (x s : string) : bool :=
  startswith x s ||
  match s with
  | EmptyString => false
  | String _ s' => contains x s'
  end.

(** [any(x in s for x in xs)] *)
Definition contains_any (xs : list string) (s : string) : bool :=
  existsb (fun x => contains x s) xs.

(** [s.split(sep)] for a one-character separator. *)
Fixpoint split (sep : ascii) (s : string) : list string :=
  match s with
  | EmptyString => [EmptyString]
  | String c s' =>
      if Ascii.eqb c sep then EmptyString :: split sep s'
      else match split sep s' with
           | h :: t => String c h :: t
           | [] => [String c EmptyString]
           end
  end.

(** [s.split(sep, 1)] when [sep in s]: the text before and after the first
    separator; [None] when the separator does not occur. *)
Fixpoint split1 (sep : ascii) (s : string) : option (string * string) :=
  match s with
  | EmptyString => None
  | String c s' =>
      if Ascii.eqb c sep then Some (EmptyString, s')
      else match split1 sep s' with
           | Some (k, v) => Some (String c k, v)
           | None => None
           end
  end.

(** [s.replace(a, b)] for one-character [a] and [b]. *)
Definition replace (a b : ascii) (s : string) : string :=
  map_chars (fun c => if Ascii.eqb c a then b else c) s.

(** [sep.join(parts)] *)
Fixpoint join (sep : string) (parts : list string) : string :=
  match parts with
  | [] => EmptyString
  | [p] => p
  | p :: rest => p ++ sep ++ join sep rest
  end.

Definition nonempty (s : string) : bool :=
  match s with EmptyString => false | _ => true end.

End Str.

(** ** Python values *)

(** The values a record field or a reasons argument can hold: [None], a
    [bool], an [int], a [str], a [list], and a [dict] with string keys (in
    insertion order). *)
#[warnings="-register-all"] Inductive PyVal : Type :=
  | PNone
  | PBool (b : bool)
  | PInt (z : Z)
  | PStr (s : string)
  | PList (l : list PyVal)
  | PDict (d : list (string * PyVal)).

Inductive exn : Type := KeyError | TypeError | ValueError.

Inductive result (A : Type) : Type :=
  | Ok (a : A)
  | Raise (e : exn).
Arguments Ok {A} a.
Arguments Raise {A} e.

#[global] Instance result_ret : MRet result := fun A a => Ok a.
#[global] Instance result_bind : MBind result := fun A B f m =>
  match m with
  | Ok a => f a
  | Raise e => Raise e
  end.

Definition raises {A} (m : result A) : bool :=
  match m with Ok _ => false | Raise _ => true end.

Module Py.

(** [bool(v)]: the truth value an [if v:] tests. *)
Definition truthy (v : PyVal) : bool :=
  match v with
  | PNone => false
  | PBool b => b
  | PInt z => negb (z =? 0)
  | PStr s => Str.nonempty s
  | PList l => match l with [] => false | _ => true end
  | PDict d => match d with [] => false | _ => true end
  end.

(** [a or b] *)
Definition or_else (a b : PyVal) : PyVal := if truthy a then a else b.

Definition dq : ascii := "034"%char.
Definition sq : ascii := "'"%char.
Definition backslash : ascii := "\"%char.

Definition hex_digit (n : N) : ascii :=
  if (n <? 10)%N then ascii_of_N (48 + n) else ascii_of_N (87 + n).

(** [isprintable] fails on the control characters, on 127..160 and on the
    soft hyphen 173. *)
Definition printable (c : ascii) : bool :=
  negb (Str.between 0 31 c || Str.between 127 160 c || (Str.code c =? 173)%N).

Definition escape_char (q c : ascii) : string :=
  if Ascii.eqb c q || Ascii.eqb c backslash then String backslash (String c EmptyString)
  else if (Str.code c =? 9)%N then "\t"
  else if (Str.code c =? 10)%N then "\n"
  else if (Str.code c =? 13)%N then "\r"
  else if printable c then String c EmptyString
  else String backslash
         (String "x" (String (hex_digit (Str.code c / 16))
                        (String (hex_digit (Str.code c mod 16)) EmptyString))).

Fixpoint escape (q : ascii) (s : string) : string :=
  match s with
  | EmptyString => EmptyString
  | String c s' => escape_char q c ++ escape q s'
  end.

(** [repr(s)] of a string: single quotes unless the text has a single quote
    and no double quote. *)
Definition repr_str (s : string) : string :=
  let q := if Str.mem_char sq s && negb (Str.mem_char dq s) then dq else sq in
  String q (escape q s ++ String q EmptyString).

(** The interpreter's limit on conversions between integers and text,
    [sys.int_max_str_digits], by default 4300: [int] of a text with more
    digits, and [str] of an integer with more digits, is a [ValueError]. *)
Definition int_max_str_digits : Z := 4300.

(** The decimal text of an integer. *)
Definition str_of_Z (z : Z) : string := NilZero.string_of_int (Z.to_int z).

(** The number of decimal digits of an integer, its sign apart. *)
Definition digits_of (z : Z) : nat := String.length (str_of_Z (Z.abs z)).

(** [str(z)] of an integer: its decimal text, within the limit. *)
Definition str_int (z : Z) : result string :=
  if int_max_str_digits <? Z.of_nat (digits_of z) then Raise ValueError
  else Ok (str_of_Z z).

(** [repr(v)] *)
Fixpoint repr (v : PyVal) : string :=
  match v with
  | PNone => "None"
  | PBool true => "True"
  | PBool false => "False"
  | PInt z => str_of_Z z
  | PStr s => repr_str s
  | PList l => "[" ++ Str.join ", " (map repr l) ++ "]"
  | PDict d =>
      "{" ++ Str.join ", "
               (map (fun kv => match kv with
                               | (k, x) => repr_str k ++ ": " ++ repr x
                               end) d) ++ "}"
  end.

(** [str(v)] *)
Definition str (v : PyVal) : string :=
  match v with
  | PStr s => s
  | _ => repr v
  end.

Definition digit_val (c : ascii) : option Z :=
  if Str.between 48 57 c then Some (Z.of_N (Str.code c) - 48) else None.

(** The digits of an integer literal: at least one digit, single underscores
    only between digits. *)
Fixpoint digits (acc : Z) (after_digit : bool) (s : string) : option Z :=
  match s with
  | EmptyString => if after_digit then Some acc else None
  | String c s' =>
      match digit_val c with
      | Some d => digits (acc * 10 + d) true s'
      | None =>
          if Ascii.eqb c "_" && after_digit then digits acc false s' else None
      end
  end.

(** The value of an integer literal: whitespace around it, a sign, then the
    digits. *)
Definition int_literal (s : string) : option Z :=
  match Str.strip_by Str.int_space s with
  | String "+" s' => digits 0 false s'
  | String "-" s' => Z.opp <$> digits 0 false s'
  | s' => digits 0 false s'
  end.

(** The number of digits of a text, leading zeros counted, signs,
    underscores and whitespace not. *)
Fixpoint digit_count (s : string) : nat :=
  match s with
  | EmptyString => 0%nat
  | String c s' =>
      match digit_val c with
      | Some _ => S (digit_count s')
      | None => digit_count s'
      end
  end.

(** [int(s)] of a string, [None] standing for [ValueError]: the text is not
    an integer literal, or it has more digits than the limit allows. *)
Definition int_of_str (s : string) : option Z :=
  if int_max_str_digits <? Z.of_nat (digit_count s) then None
  else int_literal s.

Definition Z_of_bool (b : bool) : Z := if b then 1 else 0.

(** [int(v)] *)
Definition int (v : PyVal) : result Z :=
  match v with
  | PBool b => Ok (Z_of_bool b)
  | PInt z => Ok z
  | PStr s => match int_of_str s with
              | Some z => Ok z
              | None => Raise ValueError
              end
  | PNone | PList _ | PDict _ => Raise TypeError
  end.

(** [sum(vs)]: the additions start from the integer 0, and an integer plus
    anything but an [int] or a [bool] is a [TypeError]. *)
Fixpoint sum_from (acc : Z) (vs : list PyVal) : result Z :=
  match vs with
  | [] => Ok acc
  | PInt z :: vs' => sum_from (acc + z) vs'
  | PBool b :: vs' => sum_from (acc + Z_of_bool b) vs'
  | _ :: _ => Raise TypeError
  end.

Definition sum (vs : list PyVal) : result Z := sum_from 0 vs.

(** [d.get(k)] on a [dict] kept as a list of items. *)
Fixpoint dict_get (d : list (string * PyVal)) (k : string) : option PyVal :=
  match d with
  | [] => None
  | (k', v) :: d' => if String.eqb k' k then Some v else dict_get d' k
  end.

Definition dict_has (d : list (string * PyVal)) (k : string) : bool :=
  match dict_get d k with Some _ => true | None => false end.

End Py.

(** ** The data model *)

(** A record is a mapping from field names to values, read by key only; the
    record collection is a [dict] from record identifiers to records, kept
    in its iteration order. *)
Abbreviation record := (gmap string PyVal).
Abbreviation records := (list (string * gmap string PyVal)).

(** [rec.get(key)] and [rec.get(key, dflt)] *)
Definition get (rec : record) (key : string) : PyVal := default PNone (rec !! key).
Definition get_or (rec : record) (key : string) (dflt : PyVal) : PyVal :=
  default dflt (rec !! key).

(** [ReasonCounts]: both attributes are optional and not checked by the
    dataclass, so [total] holds whatever value it was given. *)
Record ReasonCounts : Type := mkReasonCounts {
  total : PyVal;
  by_reason : option (list (string * PyVal));
}.

(** The argument of [normalize_reasons]: a plain value or a [ReasonCounts]. *)
Inductive ReasonsLike : Type :=
  | RValue (v : PyVal)
  | RCounts (rc : ReasonCounts).

(** [PrismaStatus]; an absent field is [None]. *)
Record PrismaStatus : Type := mkPrismaStatus {
  databases : option Z;
  registers : option Z;
  duplicates : option Z;
  automation : option Z;
  other_removed : option Z;
  screened : option Z;
  records_excluded : option Z;
  reports_sought : option Z;
  not_retrieved : option Z;
  assessed : option Z;
  reports_excluded : option (gmap string Z);
  included : option Z;
  new_reports : option Z;
}.

(** [d[k]] and [d[k] += 1] on a counter dictionary; a missing key is a
    [KeyError]. *)
Definition getitem (d : gmap string Z) (k : string) : result Z :=
  match d !! k with
  | Some n => Ok n
  | None => Raise KeyError
  end.

Definition incr_item (d : gmap string Z) (k : string) : result (gmap string Z) :=
  match d !! k with
  | Some n => Ok (<[k := n + 1]> d)
  | None => Raise KeyError
  end.

(** [d[k] = d.get(k, 0) + v] *)
Definition add_item (k : string) (v : Z) (d : gmap string Z) : gmap string Z :=
  <[k := default 0 (d !! k) + v]> d.

(** [for k, v in parsed.items(): d[k] = d.get(k, 0) + v] *)
Definition add_items (parsed d : gmap string Z) : gmap string Z :=
  map_fold add_item d parsed.

(** [d or None] *)
Definition or_none (d : gmap string Z) : option (gmap string Z) :=
  if decide (d = ∅) then None else Some d.

(** [get_status], the same in both modules. *)
Definition status_keys : list string := ["colrev_status"; "status"; "screening_status"].

Fixpoint first_status (keys : list string) (rec : record) : string :=
  match keys with
  | [] => ""
  | key :: keys' =>
      let val := get rec key in
      if Py.truthy val then Str.strip (Py.str val) else first_status keys' rec
  end.

Definition get_status (rec : record) : string := first_status status_keys rec.

(** [_to_int], the same in both modules: every failure of the conversion is
    caught and becomes [None]. *)
Definition _to_int (x : PyVal) : option Z :=
  match x with
  | PNone => None
  | PBool b => Some (Py.Z_of_bool b)
  | PInt z => Some z
  | _ => Py.int_of_str (Str.strip (Py.str x))
  end.

Definition opt_int (o : option Z) : PyVal :=
  match o with Some z => PInt z | None => PNone end.

(** ** loader.py *)

Module Loader.

(** [normalize_reasons] *)
Definition normalize_reasons (value : ReasonsLike) : result ReasonCounts :=
  match value with
  | RValue PNone => Ok (mkReasonCounts PNone None)
  | RCounts rc =>
      Ok (mkReasonCounts (opt_int (_to_int (total rc)))
            (match by_reason rc with
             | Some ((_ :: _) as d) => Some d
             | _ => None
             end))
  | RValue (PBool _ as v) | RValue (PInt _ as v) => Ok (mkReasonCounts v None)
  | RValue (PDict value) =>
      if Py.dict_has value "total" || Py.dict_has value "by_reason" then
        let total' := _to_int (default PNone (Py.dict_get value "total")) in
        let by' := Py.or_else (default PNone (Py.dict_get value "by_reason"))
                              (default PNone (Py.dict_get value "reasons")) in
        let by_reason' := match by' with PDict d => Some d | _ => None end in
        match total', by_reason' with
        | None, Some ((_ :: _) as d) =>
            t ← Py.sum (map snd d);
            Ok (mkReasonCounts (PInt t) by_reason')
        | _, _ => Ok (mkReasonCounts (opt_int total') by_reason')
        end
      else
        by_reason' ← mapM (fun kv => z ← Py.int (snd kv); Ok (fst kv, PInt z)) value;
        t ← Py.sum (map snd by_reason');
        Ok (mkReasonCounts (PInt t) (Some by_reason'))
  | RValue v => Ok (mkReasonCounts (opt_int (_to_int v)) None)
  end.

Definition PDF_NOT_RETRIEVED_STATUSES : list string :=
  ["pdf_needs_manual_retrieval"; "pdf_not_available"].

Definition PDF_RETRIEVED_STATUSES : list string :=
  ["pdf_imported"; "pdf_needs_manual_preparation"; "pdf_prepared"].

(** [status_bucket] *)
Definition status_bucket (status : string) : string :=
  let s := Str.lower status in
  if Str.contains "rev_prescreen_excluded" s then "prescreen_excluded"
  else if Str.contains_any ["excluded"; "reject"] s then "fulltext_excluded"
  else if Str.contains_any ["prescreen"; "screened"] s then "screened"
  else if Str.contains_any PDF_NOT_RETRIEVED_STATUSES s then "pdf_not_retrieved"
  else if Str.contains_any PDF_RETRIEVED_STATUSES s then "pdf_retrieved"
  else if Str.contains_any ["included"; "accept"; "synth"] s then "included"
  else if Str.contains_any ["duplicate"; "dedupe"] s then "duplicate"
  else "other".

(** [_split_origin] *)
Definition _split_origin (value : PyVal) : list string :=
  if negb (Py.truthy value) then []
  else match value with
       | PStr s =>
           map Str.strip
             (filter (fun p => Str.nonempty (Str.strip p) = true) (Str.split ";" s))
       | PList l =>
           map (fun p => Str.strip (Py.str p))
             (filter (fun p => Str.nonempty (Str.strip (Py.str p)) = true) l)
       | _ => []
       end.

(** The loop state of [compute_origin_stats]. *)
Record origin_acc : Type := mkOriginAcc {
  total_origins : Z;
  kept : Z;
  any_origin : bool;
}.

Definition origin_step (origin_field record_id_prefix_exclude : string)
    (acc : origin_acc) (item : string * record) : origin_acc :=
  let (rid, rec) := item in
  if Str.startswith record_id_prefix_exclude rid then acc
  else
    let parts := _split_origin (get rec origin_field) in
    match parts with
    | [] => mkOriginAcc (total_origins acc) (kept acc + 1) (any_origin acc)
    | _ => mkOriginAcc (total_origins acc + Z.of_nat (length parts))
                       (kept acc + 1) true
    end.

(** [compute_origin_stats], with its two keyword arguments. *)
Definition compute_origin_stats_with (origin_field record_id_prefix_exclude : string)
    (recs : records) : option Z * option Z :=
  let acc := fold_left (origin_step origin_field record_id_prefix_exclude)
               recs (mkOriginAcc 0 0 false) in
  if negb (any_origin acc) then (None, None)
  else (Some (total_origins acc), Some (Z.max 0 (total_origins acc - kept acc))).

Definition compute_origin_stats (recs : records) : option Z * option Z :=
  compute_origin_stats_with "colrev_origin" "md_" recs.

Definition out_vals : list string := ["out"; "exclude"; "excluded"; "0"; "false"; "no"].
Definition in_vals : list string := ["in"; "include"; "included"; "1"; "true"; "yes"].

Definition mem_str (v : string) (vals : list string) : bool :=
  existsb (String.eqb v) vals.

(** The key and value of one part, or [None] for a part the loop skips. *)
Definition split_entry (part : string) : option (string * string) :=
  if Str.contains "=" part then Str.split1 "=" part
  else if Str.contains ":" part then Str.split1 ":" part
  else None.

(** One turn of the loop of [parse_screening_criteria]. *)
Definition criteria_step (result : gmap string Z) (part : string) : gmap string Z :=
  match split_entry part with
  | None => result
  | Some (k, v) =>
      let k := Str.strip k in
      let v := Str.lower (Str.strip v) in
      if mem_str v out_vals then <[k := 1]> result
      else if mem_str v in_vals then <[k := 0]> result
      else result
  end.

Definition criteria_parts (value : PyVal) : list string :=
  Str.split "," (Str.replace ";" "," (Str.strip_chars "{}" (Str.strip (Py.str value)))).

(** [parse_screening_criteria] *)
Definition parse_screening_criteria (value : PyVal) : gmap string Z :=
  if negb (Py.truthy value) then ∅
  else fold_left criteria_step (criteria_parts value) ∅.

Definition buckets0 : gmap string Z :=
  list_to_map [("screened", 0); ("prescreen_excluded", 0); ("fulltext_excluded", 0);
               ("pdf_not_retrieved", 0); ("pdf_retrieved", 0); ("included", 0);
               ("duplicate", 0); ("other", 0)].

(** The reasons one [fulltext_excluded] record adds to the tally. *)
Definition tally_record (exclusion_reason_key screening_criteria_key : string)
    (rec : record) (fulltext_reasons : gmap string Z) : gmap string Z :=
  let parsed := parse_screening_criteria (get rec screening_criteria_key) in
  if decide (parsed = ∅) then
    let r := Str.strip (Py.str (get_or rec exclusion_reason_key (PStr ""))) in
    if Str.nonempty r then add_item r 1 fulltext_reasons else fulltext_reasons
  else add_items parsed fulltext_reasons.

(** One turn of the loop of [records_to_status] over [records.values()]. *)
Definition status_step (exclusion_reason_key screening_criteria_key : string)
    (st : gmap string Z * gmap string Z) (rec : record)
    : result (gmap string Z * gmap string Z) :=
  let (buckets, fulltext_reasons) := st in
  let b := status_bucket (get_status rec) in
  buckets ← incr_item buckets b;
  if String.eqb b "fulltext_excluded"
  then Ok (buckets, tally_record exclusion_reason_key screening_criteria_key rec fulltext_reasons)
  else Ok (buckets, fulltext_reasons).

Fixpoint status_loop (exclusion_reason_key screening_criteria_key : string)
    (recs : list record) (st : gmap string Z * gmap string Z)
    : result (gmap string Z * gmap string Z) :=
  match recs with
  | [] => Ok st
  | rec :: recs' =>
      st ← status_step exclusion_reason_key screening_criteria_key st rec;
      status_loop exclusion_reason_key screening_criteria_key recs' st
  end.

(** [records_to_status], with its two keyword arguments. *)
Definition records_to_status_with (exclusion_reason_key screening_criteria_key : string)
    (recs : records) : result PrismaStatus :=
  st ← status_loop exclusion_reason_key screening_criteria_key (map snd recs) (buckets0, ∅);
  let (buckets, fulltext_reasons) := st : gmap string Z * gmap string Z in
  n_screened ← getitem buckets "screened";
  n_prescreen ← getitem buckets "prescreen_excluded";
  n_not_retrieved ← getitem buckets "pdf_not_retrieved";
  n_retrieved ← getitem buckets "pdf_retrieved";
  n_included ← getitem buckets "included";
  let screened_total :=
    n_screened + n_prescreen + n_not_retrieved + n_retrieved + n_included in
  let records_sought := screened_total - n_prescreen in
  let assessed := n_retrieved + n_included in
  let (n_origin, dup_removed) := compute_origin_stats recs in
  Ok {| databases := n_origin;
        registers := None;
        duplicates := dup_removed;
        automation := None;
        other_removed := None;
        screened := Some screened_total;
        records_excluded := Some n_prescreen;
        reports_sought := Some records_sought;
        not_retrieved := Some n_not_retrieved;
        assessed := Some assessed;
        reports_excluded := or_none fulltext_reasons;
        included := Some n_included;
        new_reports := Some n_included |}.

Definition records_to_status (recs : records) : result PrismaStatus :=
  records_to_status_with "exclusion_reason" "screening_criteria" recs.

End Loader.

(** ** py_prisma.py, the monolithic module: the aggregation path *)

Module Monolith.

(** [status_bucket] *)
Definition status_bucket (status : string) : string :=
  let s := Str.lower status in
  if Str.contains_any ["md_imported"; "imported"; "retrieved_md"; "md_retrieved"] s
  then "identified"
  else if Str.contains_any ["dedupe"; "duplicate"; "md_duplicate"] s then "duplicate"
  else if Str.contains_any ["prescreen"; "title_abstract"; "screen"; "screened"] s
  then "screened"
  else if Str.contains_any ["excluded"; "reject"] s then "excluded"
  else if Str.contains_any ["pdf"; "fulltext"; "full_text"; "retrieval"] s then "fulltext"
  else if Str.contains_any ["included"; "accept"; "synth"] s then "included"
  else "other".

(** [_split_origin] *)
Definition _split_origin (value : PyVal) : list string :=
  if negb (Py.truthy value) then []
  else match value with
       | PStr s =>
           map Str.strip
             (filter (fun p => Str.nonempty (Str.strip p) = true) (Str.split ";" s))
       | PList l =>
           map (fun p => Str.strip (Py.str p))
             (filter (fun p => Str.nonempty (Str.strip (Py.str p)) = true) l)
       | _ =>
           let s := Str.strip (Py.str value) in
           if Str.nonempty s then [s] else []
       end.

Record origin_acc : Type := mkOriginAcc {
  any_origin : bool;
  total_origin_entries : Z;
  kept_records : Z;
}.

Definition origin_step
    (origin_field record_id_prefix_exclude origin_entry_prefix_exclude : string)
    (acc : origin_acc) (item : string * record) : origin_acc :=
  let (rid, rec) := item in
  if Str.startswith record_id_prefix_exclude rid then acc
  else
    let origin_val := get rec origin_field in
    if negb (Py.truthy origin_val)
    then mkOriginAcc (any_origin acc) (total_origin_entries acc) (kept_records acc + 1)
    else
      let parts := _split_origin origin_val in
      let parts :=
        filter (fun p => Str.startswith origin_entry_prefix_exclude p = false) parts in
      mkOriginAcc true (total_origin_entries acc + Z.of_nat (length parts))
                  (kept_records acc + 1).

(** [compute_origin_stats], with its three keyword arguments. *)
Definition compute_origin_stats_with
    (origin_field record_id_prefix_exclude origin_entry_prefix_exclude : string)
    (recs : records) : option Z * option Z :=
  let acc :=
    fold_left
      (origin_step origin_field record_id_prefix_exclude origin_entry_prefix_exclude)
      recs (mkOriginAcc false 0 0) in
  if negb (any_origin acc) then (None, None)
  else (Some (total_origin_entries acc),
        Some (Z.max 0 (total_origin_entries acc - kept_records acc))).

Definition compute_origin_stats (recs : records) : option Z * option Z :=
  compute_origin_stats_with "colrev_origin" "md_" "md_" recs.

Definition out_vals : list string :=
  ["out"; "exclude"; "excluded"; "0"; "false"; "no"; "n"].
Definition in_vals : list string :=
  ["in"; "include"; "included"; "1"; "true"; "yes"; "y"].

(** [s[1:-1]] *)
Fixpoint drop_last (s : string) : string :=
  match s with
  | EmptyString => EmptyString
  | String c s' => match s' with
                   | EmptyString => EmptyString
                   | _ => String c (drop_last s')
                   end
  end.

Definition slice_1_m1 (s : string) : string :=
  match s with
  | EmptyString => EmptyString
  | String _ s' => drop_last s'
  end.

(** The parts the first loop of [parse_screening_criteria] collects. *)
Definition raw_parts (s : string) : list string :=
  flat_map
    (fun chunk =>
       let chunk := Str.strip chunk in
       if Str.nonempty chunk
       then map Str.strip
              (filter (fun p => Str.nonempty (Str.strip p) = true) (Str.split "," chunk))
       else [])
    (Str.split ";" s).

Definition criteria_step (out : gmap string Z) (part : string) : gmap string Z :=
  match Loader.split_entry part with
  | None => out
  | Some (k, v) =>
      let key := Str.strip k in
      let val := Str.lower (Str.strip v) in
      let val :=
        Str.strip
          (Str.strip_chars "'"
             (Str.strip_chars (String Py.dq EmptyString) (Str.strip_chars "{}" val))) in
      if negb (Str.nonempty key) || negb (Str.nonempty val) then out
      else if Loader.mem_str val out_vals then <[key := 1]> out
      else if Loader.mem_str val in_vals then <[key := 0]> out
      else out
  end.

(** [parse_screening_criteria] *)
Definition parse_screening_criteria (value : PyVal) : gmap string Z :=
  if negb (Py.truthy value) then ∅
  else
    let s := Str.strip (Py.str value) in
    let s := if Str.startswith "{" s && Str.endswith "}" s
             then Str.strip (slice_1_m1 s) else s in
    let s := Str.strip (Str.rstrip_chars "," s) in
    if negb (Str.nonempty s) then ∅
    else fold_left criteria_step (raw_parts s) ∅.

Definition buckets0 : gmap string Z :=
  list_to_map [("identified", 0); ("duplicate", 0); ("screened", 0); ("excluded", 0);
               ("fulltext", 0); ("included", 0); ("other", 0)].

(** The loop state of [records_to_status]: the bucket counters and the two
    reason tallies. *)
Record loop_state : Type := mkLoopState {
  buckets : gmap string Z;
  criteria_reasons_count : gmap string Z;
  single_reasons_count : gmap string Z;
}.

Definition status_step (exclusion_reason_key screening_criteria_key : string)
    (st : loop_state) (rec : record) : result loop_state :=
  let b := status_bucket (get_status rec) in
  bs ← incr_item (buckets st) b;
  if negb (String.eqb b "excluded")
  then Ok (mkLoopState bs (criteria_reasons_count st) (single_reasons_count st))
  else
    let parsed := parse_screening_criteria (get rec screening_criteria_key) in
    if decide (parsed = ∅) then
      let reason := Str.strip (Py.str (get_or rec exclusion_reason_key (PStr ""))) in
      if Str.nonempty reason
      then Ok (mkLoopState bs (criteria_reasons_count st)
                 (add_item reason 1 (single_reasons_count st)))
      else Ok (mkLoopState bs (criteria_reasons_count st) (single_reasons_count st))
    else Ok (mkLoopState bs (add_items parsed (criteria_reasons_count st))
               (single_reasons_count st)).

Fixpoint status_loop (exclusion_reason_key screening_criteria_key : string)
    (recs : list record) (st : loop_state) : result loop_state :=
  match recs with
  | [] => Ok st
  | rec :: recs' =>
      st ← status_step exclusion_reason_key screening_criteria_key st rec;
      status_loop exclusion_reason_key screening_criteria_key recs' st
  end.

(** [records_to_status], with its two keyword arguments. *)
Definition records_to_status_with (exclusion_reason_key screening_criteria_key : string)
    (recs : records) : result PrismaStatus :=
  st ← status_loop exclusion_reason_key screening_criteria_key (map snd recs)
         (mkLoopState buckets0 ∅ ∅);
  n_screened ← getitem (buckets st) "screened";
  n_excluded ← getitem (buckets st) "excluded";
  n_fulltext ← getitem (buckets st) "fulltext";
  n_included ← getitem (buckets st) "included";
  let screened_total := n_screened + n_excluded + n_fulltext + n_included in
  let reports_sought := n_fulltext + n_included in
  let assessed := n_fulltext + n_included in
  let (n_origin_entries, duplicates_removed) := compute_origin_stats recs in
  databases_identified ←
    match n_origin_entries with
    | Some n => Ok n
    | None =>
        n_identified ← getitem (buckets st) "identified";
        n_other ← getitem (buckets st) "other";
        Ok (n_identified + n_screened + n_fulltext + n_included + n_excluded + n_other)
    end;
  duplicates_removed_final ←
    match duplicates_removed with
    | Some n => Ok n
    | None => getitem (buckets st) "duplicate"
    end;
  let reasons_breakdown :=
    match or_none (criteria_reasons_count st) with
    | Some d => Some d
    | None => or_none (single_reasons_count st)
    end in
  Ok {| databases := Some databases_identified;
        registers := None;
        duplicates := Some duplicates_removed_final;
        automation := None;
        other_removed := None;
        screened := Some screened_total;
        records_excluded := Some n_excluded;
        reports_sought := Some reports_sought;
        not_retrieved := None;
        assessed := Some assessed;
        reports_excluded := reasons_breakdown;
        included := Some n_included;
        new_reports := Some n_included |}.

Definition records_to_status (recs : records) : result PrismaStatus :=
  records_to_status_with "exclusion_reason" "screening_criteria" recs.

End Monolith.

(** ** Quantities the properties are stated with *)

(** The closed set of bucket tags of [Loader.status_bucket]. *)
Definition bucket_tags : list string :=
  ["prescreen_excluded"; "fulltext_excluded"; "screened"; "pdf_not_retrieved";
   "pdf_retrieved"; "included"; "duplicate"; "other"].

(** The substring rules in priority order: the markers of a rule and its tag.
    The eighth rule, [other], has no markers and is the default. *)
Definition rule_table : list (list string * string) :=
  [(["rev_prescreen_excluded"], "prescreen_excluded");
   (["excluded"; "reject"], "fulltext_excluded");
   (["prescreen"; "screened"], "screened");
   (Loader.PDF_NOT_RETRIEVED_STATUSES, "pdf_not_retrieved");
   (Loader.PDF_RETRIEVED_STATUSES, "pdf_retrieved");
   (["included"; "accept"; "synth"], "included");
   (["duplicate"; "dedupe"], "duplicate")].

(** The tag of the first rule with a marker in [s]. *)
Fixpoint first_match (rules : list (list string * string)) (s : string) : string :=
  match rules with
  | [] => "other"
  | (markers, tag) :: rules' =>
      if Str.contains_any markers s then tag else first_match rules' s
  end.

(** The bucket of a record, and the number of records of a collection in a
    bucket. *)
Definition bucket_of (rec : record) : string := Loader.status_bucket (get_status rec).

Definition count_bucket (tag : string) (recs : records) : Z :=
  Z.of_nat (length (filter (fun rec => bucket_of rec = tag) (map snd recs))).

(** The reason tally [Loader.records_to_status] ends with: the reasons of the
    [fulltext_excluded] records, added in iteration order. *)
Definition reason_tally (exclusion_reason_key screening_criteria_key : string)
    (recs : list record) (t : gmap string Z) : gmap string Z :=
  fold_left
    (fun t rec =>
       if String.eqb (bucket_of rec) "fulltext_excluded"
       then Loader.tally_record exclusion_reason_key screening_criteria_key rec t
       else t)
    recs t.

(** The sum of all counts of a tally. *)
Definition tally_total (t : gmap string Z) : Z :=
  map_fold (fun _ v acc => acc + v) 0 t.

Definition tally_of (st : PrismaStatus) : gmap string Z :=
  default ∅ (reports_excluded st).

(** The reasons one [fulltext_excluded] record contributes: its parsed
    criteria, or, when there are none, its fallback reason counted once. *)
Definition record_reasons (exclusion_reason_key screening_criteria_key : string)
    (rec : record) : gmap string Z :=
  let parsed := Loader.parse_screening_criteria (get rec screening_criteria_key) in
  if decide (parsed = ∅) then
    let r := Str.strip (Py.str (get_or rec exclusion_reason_key (PStr ""))) in
    if Str.nonempty r then {[r := 1]} else ∅
  else parsed.

(** The tally step of one record, as the addition of a map of counts. *)
Definition tally_step (exclusion_reason_key screening_criteria_key : string)
    (t : gmap string Z) (rec : record) : gmap string Z :=
  if String.eqb (bucket_of rec) "fulltext_excluded"
  then add_items (record_reasons exclusion_reason_key screening_criteria_key rec) t
  else t.

(** A flag of a parse: 0 for in, 1 for out. *)
Definition is_flag (_ : string) (v : Z) : Prop := v = 0 \/ v = 1.

(** The number of criteria a parse flags as out. *)
Definition out_flagged (parsed : gmap string Z) : Z :=
  Z.of_nat (size (filter (fun kv => kv.2 = 1) parsed)).

(** What one record adds to the sum of the tally: nothing outside the
    [fulltext_excluded] bucket; the number of its out-flagged criteria when
    it has parsed criteria; else one for a non-empty fallback reason. *)
Definition reason_count (exclusion_reason_key screening_criteria_key : string)
    (rec : record) : Z :=
  if String.eqb (bucket_of rec) "fulltext_excluded" then
    let parsed := Loader.parse_screening_criteria (get rec screening_criteria_key) in
    if decide (parsed = ∅) then
      if Str.nonempty (Str.strip (Py.str (get_or rec exclusion_reason_key (PStr ""))))
      then 1 else 0
    else out_flagged parsed
  else 0.

Definition reason_sum (exclusion_reason_key screening_criteria_key : string)
    (recs : records) : Z :=
  foldr (fun item acc => reason_count exclusion_reason_key screening_criteria_key item.2 + acc)
        0 recs.

(** Origin statistics: the kept records, their origin parts, and the totals. *)
Definition kept_item (prefix : string) (item : string * record) : bool :=
  negb (Str.startswith prefix item.1).

Definition origin_parts (field : string) (item : string * record) : list string :=
  Loader._split_origin (get item.2 field).

Definition has_origin (field prefix : string) (item : string * record) : bool :=
  kept_item prefix item && match origin_parts field item with [] => false | _ => true end.

Definition origin_entries (field prefix : string) (recs : records) : Z :=
  foldr (fun item acc =>
           (if kept_item prefix item
            then Z.of_nat (length (origin_parts field item)) else 0) + acc)
        0 recs.

Definition kept_count (prefix : string) (recs : records) : Z :=
  Z.of_nat (length (filter (fun item => kept_item prefix item = true) recs)).

(** Screening criteria: the flag of a value, the entry a part stands for, and
    the flag the last entry for a key gives it. *)
Definition value_flag (v : string) : option Z :=
  if Loader.mem_str v Loader.out_vals then Some 1
  else if Loader.mem_str v Loader.in_vals then Some 0
  else None.

Definition entry_of (part : string) : option (string * Z) :=
  match Loader.split_entry part with
  | Some (k, v) =>
      match value_flag (Str.lower (Str.strip v)) with
      | Some f => Some (Str.strip k, f)
      | None => None
      end
  | None => None
  end.

Definition flag_for (k : string) (part : string) : option Z :=
  match entry_of part with
  | Some (k', f) => if decide (k' = k) then Some f else None
  | None => None
  end.

Definition last_flag (k : string) (parts : list string) : option Z :=
  last (omap (flag_for k) parts).

(** The reasons arguments on which [normalize_reasons] raises nothing. *)
Definition is_number (v : PyVal) : bool :=
  match v with PInt _ | PBool _ => true | _ => false end.

Definition int_accepts (v : PyVal) : bool :=
  match v with
  | PInt _ | PBool _ => true
  | PStr s => match Py.int_of_str s with Some _ => true | None => false end
  | _ => false
  end.

Definition normalize_safe (value : ReasonsLike) : bool :=
  match value with
  | RValue (PDict d) =>
      if Py.dict_has d "total" || Py.dict_has d "by_reason" then
        match _to_int (default PNone (Py.dict_get d "total")),
              Py.or_else (default PNone (Py.dict_get d "by_reason"))
                         (default PNone (Py.dict_get d "reasons")) with
        | None, PDict by' => forallb is_number (map snd by')
        | _, _ => true
        end
      else forallb int_accepts (map snd d)
  | _ => true
  end.

(** The monolithic module: its bucket tags and bucket counts. *)
Definition mono_bucket_tags : list string :=
  ["identified"; "duplicate"; "screened"; "excluded"; "fulltext"; "included"; "other"].

Definition mono_bucket_of (rec : record) : string :=
  Monolith.status_bucket (get_status rec).

Definition mono_count_bucket (tag : string) (recs : records) : Z :=
  Z.of_nat (length (filter (fun rec => mono_bucket_of rec = tag) (map snd recs))).

(** ** Example inputs *)

Definition status_only (key status : string) : record := {[ key := PStr status ]}.

(** Four records with only a status field, under any identifiers. *)
Definition four_statuses (key r1 r2 r3 r4 : string) : records :=
  [(r1, status_only key "rev_prescreen_excluded"); (r2, status_only key "pdf_prepared");
   (r3, status_only key "rev_included"); (r4, status_only key "rev_included")].

Definition two_origins : records :=
  [("r1", {[ "colrev_origin" := PStr "a;b" ]}); ("r2", {[ "colrev_origin" := PStr "c" ]})].

(** A collection whose only origin value sits on a merge record. *)
Definition merged_only : records :=
  [("md_1", {[ "colrev_origin" := PStr "a" ]})].

Definition merged_and_plain : records :=
  [("md_1", {[ "colrev_origin" := PStr "a;b" ]}); ("r1", ∅)].

(** One excluded record with two criteria flagged out. *)
Definition two_criteria_out : records :=
  [("r1", {[ "colrev_status" := PStr "rev_excluded";
             "screening_criteria" := PStr "a=out;b=out" ]})].

(** Two excluded records: one with a single criterion flagged out, one with
    a fallback reason only. *)
Definition one_reason_each : records :=
  [("r1", {[ "colrev_status" := PStr "rev_excluded";
             "screening_criteria" := PStr "{bias=out;scope=in}" ]});
   ("r2", {[ "colrev_status" := PStr "rev_excluded";
             "exclusion_reason" := PStr "wrong topic" ]})].

(** ** plotter.py: the texts of the boxes *)

Module Plotter.

(** The line break of a joined text. *)
Definition newline : string := String (ascii_of_N 10) EmptyString.

(** [-v], a [TypeError] on anything but an [int] or a [bool]. *)
Definition neg (v : PyVal) : result Z :=
  match v with
  | PInt z => Ok (- z)
  | PBool b => Ok (- Py.Z_of_bool b)
  | _ => Raise TypeError
  end.

(** [a < b] on the sort keys, pairs of an integer and a string: the
    integers decide unless they are equal, and then the strings do, compared
    character by character by code point. *)
Definition key_lt (a b : Z * string) : bool :=
  (a.1 <? b.1) || ((a.1 =? b.1) && String.ltb a.2 b.2).

(** An item with its sort key [(-x[1], x[0])]. *)
Definition keyed (item : string * PyVal) : result ((Z * string) * (string * PyVal)) :=
  n ← neg item.2; Ok ((n, item.1), item).

(** [sorted] is stable: an item goes before the first item already placed
    whose key is not smaller than its own. *)
Fixpoint insert_sorted (x : (Z * string) * (string * PyVal))
    (l : list ((Z * string) * (string * PyVal))) : list ((Z * string) * (string * PyVal)) :=
  match l with
  | [] => [x]
  | y :: l' => if key_lt y.1 x.1 then y :: insert_sorted x l' else x :: y :: l'
  end.

Definition sorted (l : list ((Z * string) * (string * PyVal)))
    : list ((Z * string) * (string * PyVal)) :=
  foldr insert_sorted [] l.

(** One line of the box, for the item [(k, v)]. *)
Definition format_line (item : string * PyVal) : string :=
  item.1 ++ " (n = " ++ Py.str item.2 ++ ")".

(** [format_reasons_for_box] *)
Definition format_reasons_for_box (rc : ReasonCounts) (fallback : string) : result string :=
  match by_reason rc with
  | Some ((_ :: _) as d) =>
      items ← mapM keyed d;
      Ok (Str.join newline (map (fun x => format_line x.2) (sorted items)))
  | _ =>
      match total rc with
      | PNone => Ok fallback
      | t => Ok ("Total (n = " ++ Py.str t ++ ")")
      end
  end.

(** The status as [plot_simple_prisma] reads it: the mapping [status_map],
    from field names to values. *)
Abbreviation status_map := (list (string * PyVal)).










End Plotter.

(** ** py_prisma.py: the reason normalizer of the monolithic module *)

Module MonolithReasons.

(** [{str(k): int(v) for k, v in d.items()}] *)
Definition int_items (d : list (string * PyVal)) : result (list (string * PyVal)) :=
  mapM (fun kv => z ← Py.int kv.2; Ok (kv.1, PInt z)) d.

(** [normalize_reasons] *)
Definition normalize_reasons (value : ReasonsLike) : result ReasonCounts :=
  match value with
  | RValue PNone => Ok (mkReasonCounts PNone None)
  | RCounts rc =>
      Ok (mkReasonCounts (opt_int (_to_int (total rc)))
            (match by_reason rc with
             | Some ((_ :: _) as d) => Some d
             | _ => None
             end))
  | RValue (PBool _ as v) | RValue (PInt _ as v) => Ok (mkReasonCounts v None)
  | RValue (PDict value) =>
      if Py.dict_has value "by_reason" || Py.dict_has value "total" then
        let total' := _to_int (default PNone (Py.dict_get value "total")) in
        let by' :=
          Py.or_else
            (Py.or_else (default PNone (Py.dict_get value "by_reason"))
                        (default PNone (Py.dict_get value "reasons")))
            (default PNone (Py.dict_get value "breakdown")) in
        by_reason' ← match by' with
                     | PDict d => d' ← int_items d; Ok (Some d')
                     | _ => Ok None
                     end;
        match total', by_reason' with
        | None, Some ((_ :: _) as d) =>
            t ← Py.sum (map snd d);
            Ok (mkReasonCounts (PInt t) by_reason')
        | _, _ => Ok (mkReasonCounts (opt_int total') by_reason')
        end
      else
        by_reason2 ← int_items value;
        t ← Py.sum (map snd by_reason2);
        Ok (mkReasonCounts (PInt t) (Some by_reason2))
  | RValue v => Ok (mkReasonCounts (opt_int (_to_int v)) None)
  end.

End MonolithReasons.

(** ** Quantities the further properties are stated with *)

(** Every character of [s] passes the test [q]. *)
Fixpoint forall_chars (q : ascii -> bool) (s : string) : bool :=
  match s with
  | EmptyString => true
  | String c s' => q c && forall_chars q s'
  end.

(** No character of [chars] occurs in [s]. *)
Definition lacks (chars s : string) : bool :=
  forall_chars (fun c => negb (Str.mem_char c chars)) s.

(** A text without whitespace at either end. *)
Definition trimmed (s : string) : Prop := Str.strip s = s.

(** A part that a character map [f] leaves alone and that lacks the
    separator [b]. *)
Definition plain_part (f : ascii -> ascii) (b : ascii) (p : string) : bool :=
  forall_chars (fun c => Ascii.eqb (f c) c && negb (Ascii.eqb c b)) p.

(** The sum of two optional counts, unknown when one of them is. *)
Definition add_opt (a b : option Z) : option Z :=
  match a, b with
  | Some x, Some y => Some (x + y)
  | _, _ => None
  end.

(** Two records that [Loader.records_to_status] cannot tell apart: they
    agree on the three status fields, on the origin field and on the
    screening criteria, and also on the fallback reason unless the criteria
    parse to some entry. *)
Definition same_for_status (a b : record) : Prop :=
  get a "colrev_status" = get b "colrev_status"
  /\ get a "status" = get b "status"
  /\ get a "screening_status" = get b "screening_status"
  /\ get a "colrev_origin" = get b "colrev_origin"
  /\ get a "screening_criteria" = get b "screening_criteria"
  /\ (Loader.parse_screening_criteria (get a "screening_criteria") = ∅ ->
      get_or a "exclusion_reason" (PStr "") = get_or b "exclusion_reason" (PStr "")).

(** An excluded record with criteria, a fallback reason and a title, and the
    same record with another reason and another title. *)
Definition excluded_with_criteria : records :=
  [("r1", {[ "colrev_status" := PStr "rev_excluded";
             "screening_criteria" := PStr "{bias=out}";
             "exclusion_reason" := PStr "wrong topic";
             "title" := PStr "A study" ]})].

Definition excluded_with_criteria' : records :=
  [("r1", {[ "colrev_status" := PStr "rev_excluded";
             "screening_criteria" := PStr "{bias=out}";
             "exclusion_reason" := PStr "no access";
             "title" := PStr "Another title" ]})].

(** A reason tally as the mapping handed to [normalize_reasons], its items
    in some order of iteration. *)
Definition tally_dict (items : list (string * Z)) : list (string * PyVal) :=
  map (fun kv => (kv.1, PInt kv.2)) items.

Definition list_total (items : list (string * Z)) : Z :=
  foldr (fun kv acc => acc + kv.2) 0 items.

(** The count a reason is listed with. *)
Definition count_of (v : PyVal) : Z :=
  match v with
  | PInt z => z
  | PBool b => Py.Z_of_bool b
  | _ => 0
  end.


(** An item with the sort key of a number. *)
Definition key_of (item : string * PyVal) : (Z * string) * (string * PyVal) :=
  ((- count_of item.2, item.1), item).

(** A mapping of criteria written in the notation of the field: the entries
    name=in or name=out, semicolons between them, braces around. *)
Definition criteria_word (flag : bool) : string := if flag then "out" else "in".

Definition criteria_entry (kv : string * bool) : string :=
  kv.1 ++ "=" ++ criteria_word kv.2.

Definition criteria_text (items : list (string * bool)) : string :=
  "{" ++ Str.join ";" (map criteria_entry items) ++ "}".

Definition criteria_map (items : list (string * bool)) : gmap string Z :=
  list_to_map (map (fun kv : string * bool => (kv.1, if kv.2 then 1 else 0)) items).

(** A criterion name that can be written in the field: no whitespace at
    either end, and none of the characters the notation uses. *)
Definition plain_name (k : string) : Prop :=
  trimmed k /\ lacks ";,={}" k = true.

(** The origin statistics of the monolithic module: a kept record with a
    truthy origin value, the parts counted for a record, and their total. *)
Definition mono_with_origin (field prefix : string) (item : string * record) : bool :=
  kept_item prefix item && Py.truthy (get item.2 field).

Definition mono_counted_parts (field entry_prefix : string) (item : string * record)
    : list string :=
  filter (fun p => Str.startswith entry_prefix p = false)
         (Monolith._split_origin (get item.2 field)).

Definition mono_origin_entries (field prefix entry_prefix : string) (recs : records) : Z :=
  foldr (fun item acc =>
           (if mono_with_origin field prefix item
            then Z.of_nat (length (mono_counted_parts field entry_prefix item)) else 0)
           + acc)
        0 recs.

(** A mapping in the structured form of [normalize_reasons]: one with a key
    total or a key by_reason. *)
Definition structured (value : ReasonsLike) : bool :=
  match value with
  | RValue (PDict d) => Py.dict_has d "total" || Py.dict_has d "by_reason"
  | _ => false
  end.

(** The structured mapping with a total and a breakdown. *)
Definition with_breakdown (n : Z) (d : list (string * PyVal)) : ReasonsLike :=
  RValue (PDict [("total", PInt n); ("by_reason", PDict d)]).




(** A text of two characters or more whose first character is not
    whitespace and whose last is neither whitespace nor a comma. *)
Definition firm (s : string) : Prop :=
  exists a mid c,
    s = String a (mid ++ String c EmptyString)
    /\ Str.isspace a = false /\ Str.isspace c = false /\ c <> ","%char.

(** The two reason tallies of the monolithic [records_to_status]: what a
    record adds to the tally of criteria and to the tally of fallback
    reasons. *)
Definition mono_criteria_step (screening_criteria_key : string)
    (t : gmap string Z) (rec : record) : gmap string Z :=
  if String.eqb (mono_bucket_of rec) "excluded" then
    let parsed := Monolith.parse_screening_criteria (get rec screening_criteria_key) in
    if decide (parsed = ∅) then t else add_items parsed t
  else t.

Definition mono_single_step (exclusion_reason_key screening_criteria_key : string)
    (t : gmap string Z) (rec : record) : gmap string Z :=
  if String.eqb (mono_bucket_of rec) "excluded" then
    let parsed := Monolith.parse_screening_criteria (get rec screening_criteria_key) in
    if decide (parsed = ∅) then
      let reason := Str.strip (Py.str (get_or rec exclusion_reason_key (PStr ""))) in
      if Str.nonempty reason then add_item reason 1 t else t
    else t
  else t.

(** An excluded record of the monolithic module whose criteria parse to
    some entry, and one whose criteria have an entry for [k]. *)
Definition mono_has_criteria (screening_criteria_key : string)
    (item : string * record) : Prop :=
  mono_bucket_of item.2 = "excluded"
  /\ Monolith.parse_screening_criteria (get item.2 screening_criteria_key) <> ∅.

Definition mono_names_criterion (screening_criteria_key k : string)
    (item : string * record) : Prop :=
  mono_bucket_of item.2 = "excluded"
  /\ is_Some (Monolith.parse_screening_criteria (get item.2 screening_criteria_key) !! k).

(** The text of [n] times the digit 1. *)
Fixpoint ones (n : nat) : string :=
  match n with
  | O => EmptyString
  | S n' => String "1" (ones n')
  end.
(** * Properties *)

(** Case analysis on every test of a conditional in the goal. *)
Ltac case_tests :=
  repeat match goal with
         | |- context [if ?c then _ else _] => destruct c
         end.

(** ** Strings *)

Example repr_list_example :
  Py.str (PList [PInt 1; PStr "a'b"; PNone; PBool true; PList []; PInt (-12)])
  = String "[" ("1, " ++ String Py.dq ("a'b" ++ String Py.dq ", None, True, [], -12]")).
Proof. reflexivity. Qed.

Example int_of_str_examples :
  map Py.int_of_str ["1_000"; "007"; "+5"; "- 5"; "5_"; "_5"; "1__0"; ""; " -12 "; "0x10"]
  = [Some 1000; Some 7; Some 5; None; None; None; None; None; Some (-12); None].
Proof. reflexivity. Qed.

Example str_of_int_examples :
  map Py.str [PInt 0; PInt 10; PInt (-7); PBool false; PNone]
  = ["0"; "10"; "-7"; "False"; "None"].
Proof. reflexivity. Qed.

(** [repr] picks the quote and escapes as CPython does: a backslash and the
    chosen quote get a backslash, the characters 127, 173 and 160 are
    written in hexadecimal, and 161 is printable. *)
Example repr_str_examples :
  Py.repr (PStr ("c" ++ String Py.dq "d")) = "'c" ++ String Py.dq "d'"
  /\ Py.repr (PStr ("a'b" ++ String Py.dq "c")) = "'a\'b" ++ String Py.dq "c'"
  /\ Py.repr (PStr "e\f") = "'e\\f'"
  /\ Py.repr (PStr (String (ascii_of_N 127) (String (ascii_of_N 173)
                      (String (ascii_of_N 160) (String (ascii_of_N 161) EmptyString)))))
     = "'\x7f\xad\xa0" ++ String (ascii_of_N 161) "'".
Proof. repeat split; reflexivity. Qed.

Example lower_strip_examples :
  Str.lower "PDF_Prepared" = "pdf_prepared"
  /\ Str.lower (String (ascii_of_N 201) (String (ascii_of_N 215) EmptyString))
     = String (ascii_of_N 233) (String (ascii_of_N 215) EmptyString)
  /\ Str.strip (String (ascii_of_N 160) (String (ascii_of_N 28) " a b ")) = "a b"
  /\ Py.int_of_str (String (ascii_of_N 28) "7") = None
  /\ Py.int_of_str (String (ascii_of_N 160) "7") = Some 7.
Proof. repeat split; reflexivity. Qed.

Example split_examples :
  Str.split ";" "" = [""] /\ Str.split ";" ";" = [""; ""] /\
  Str.split ";" "a;;b" = ["a"; ""; "b"] /\
  Str.split1 "=" "a=b=c" = Some ("a", "b=c") /\
  Str.strip_chars "{}" "{{a}b}}" = "a}b" /\ Str.strip "  a " = "a".
Proof. repeat split; reflexivity. Qed.

Lemma startswith_app (x s : string) :
  Str.startswith x s = true <-> exists b, s = x ++ b.
Proof.
  revert s. induction x as [|a x IH]; intros s; simpl.
  - split; [intros _; by exists s | done].
  - destruct s as [|c s]; simpl.
    + split; [done | intros [b Hb]; discriminate].
    + rewrite andb_true_iff, IH, Ascii.eqb_eq. split.
      * intros [-> [b ->]]. by exists b.
      * intros [b Hb]. injection Hb as -> ->. split; [done | by exists b].
Qed.

(** [x in s] holds exactly when [s] is some text, then [x], then some text. *)
Lemma contains_app (x s : string) :
  Str.contains x s = true <-> exists a b, s = a ++ x ++ b.
Proof.
  induction s as [|c s IH]; simpl.
  - rewrite orb_false_r, startswith_app. split.
    + intros [b Hb]. by exists "", b.
    + intros [a [b Hb]]. destruct a; simpl in Hb; [by exists b | discriminate].
  - rewrite orb_true_iff, startswith_app, IH. split.
    + intros [[b Hb] | [a [b Hb]]].
      * by exists "", b.
      * exists (String c a), b. simpl. by rewrite Hb.
    + intros [a [b Hb]]. destruct a as [|d a]; simpl in Hb.
      * left. by exists b.
      * right. injection Hb as -> ->. by exists a, b.
Qed.

Lemma split_nonempty (sep : ascii) (s : string) : Str.split sep s <> [].
Proof.
  destruct s as [|c s]; [done |]. cbn [Str.split].
  destruct (Ascii.eqb c sep); [done |]. by destruct (Str.split sep s).
Qed.

(** [split] cuts at every separator and nowhere else: joining the parts with
    the separator gives the text back, and no part holds the separator. *)
Lemma join_split (sep : ascii) (s : string) :
  Str.join (String sep EmptyString) (Str.split sep s) = s.
Proof.
  induction s as [|c s IH]; [done |]. cbn [Str.split].
  pose proof (split_nonempty sep s) as Hne.
  destruct (Ascii.eqb_spec c sep) as [-> | _].
  - destruct (Str.split sep s) as [|p ps]; [done |].
    cbn [Str.join] in *. by rewrite IH.
  - destruct (Str.split sep s) as [|p ps]; [done |].
    destruct ps as [|p' ps]; cbn [Str.join] in *; by rewrite <- IH.
Qed.

Lemma split_no_sep (sep : ascii) (s : string) :
  Forall (fun p => Str.mem_char sep p = false) (Str.split sep s).
Proof.
  induction s as [|c s IH]; [by repeat constructor |]. cbn [Str.split].
  destruct (Ascii.eqb_spec c sep) as [-> | Hne].
  - by constructor.
  - pose proof (split_nonempty sep s) as Hs.
    destruct (Str.split sep s) as [|p ps]; [done |]. inversion IH; subst.
    constructor; [| done]. cbn [Str.mem_char].
    rewrite Ascii.eqb_sym. apply Ascii.eqb_neq in Hne. by rewrite Hne.
Qed.

(** ** The status classifier *)

Lemma contains_any_single (x s : string) :
  Str.contains_any [x] s = Str.contains x s.
Proof. unfold Str.contains_any. simpl. apply orb_false_r. Qed.

Lemma status_bucket_first_match (status : string) :
  Loader.status_bucket status = first_match rule_table (Str.lower status).
Proof.
  unfold Loader.status_bucket. rewrite <- contains_any_single. reflexivity.
Qed.

Lemma first_match_in_tags (rules : list (list string * string)) (s : string) :
  In (first_match rules s) ("other" :: map snd rules).
Proof.
  induction rules as [|[markers tag] rules IH]; simpl; [by left |].
  destruct (Str.contains_any markers s); [right; by left |].
  destruct IH as [IH | IH]; [by left | right; by right].
Qed.

Lemma first_match_wins (rules : list (list string * string)) (s : string)
    (i : nat) (markers : list string) (tag : string) :
  rules !! i = Some (markers, tag) ->
  Str.contains_any markers s = true ->
  (forall j m t, (j < i)%nat -> rules !! j = Some (m, t) -> Str.contains_any m s = false) ->
  first_match rules s = tag.
Proof.
  revert i. induction rules as [|[m0 t0] rules IH]; intros i Hi Hm Hearlier; [done |].
  destruct i as [|i]; simpl in *.
  - injection Hi as -> ->. by rewrite Hm.
  - rewrite (Hearlier 0%nat m0 t0); [| lia | done].
    apply (IH i); [done | done |].
    intros j m t Hj Hl. apply (Hearlier (S j) m t); [lia | done].
Qed.

Lemma first_match_none (rules : list (list string * string)) (s : string) :
  (forall m t, In (m, t) rules -> Str.contains_any m s = false) ->
  first_match rules s = "other".
Proof.
  induction rules as [|[m0 t0] rules IH]; intros H; simpl; [done |].
  rewrite (H m0 t0); [| by left]. apply IH. intros m t Hin. apply (H m t). by right.
Qed.

Lemma status_bucket_in_tags (status : string) :
  In (Loader.status_bucket status) bucket_tags.
Proof.
  rewrite status_bucket_first_match.
  pose proof (first_match_in_tags rule_table (Str.lower status)) as H.
  simpl in H. unfold bucket_tags. simpl. tauto.
Qed.

(** C1. For every status string, [status_bucket] returns a tag of the closed
    set of eight tags; the tag is that of the first rule, in priority order,
    one of whose markers occurs in the lower-cased status, and [other] when
    no rule matches; and [rev_prescreen_excluded] is classified as
    [prescreen_excluded]. *)
Theorem C1_status_bucket_closed_and_ordered (status : string) :
  In (Loader.status_bucket status) bucket_tags
  /\ (forall i markers tag,
        rule_table !! i = Some (markers, tag) ->
        Str.contains_any markers (Str.lower status) = true ->
        (forall j m t, (j < i)%nat -> rule_table !! j = Some (m, t) ->
                       Str.contains_any m (Str.lower status) = false) ->
        Loader.status_bucket status = tag)
  /\ ((forall m t, In (m, t) rule_table -> Str.contains_any m (Str.lower status) = false) ->
      Loader.status_bucket status = "other")
  /\ Loader.status_bucket "rev_prescreen_excluded" = "prescreen_excluded".
Proof.
  split; [apply status_bucket_in_tags |].
  rewrite status_bucket_first_match. repeat split.
  - intros i markers tag. apply first_match_wins.
  - apply first_match_none.
Qed.

(** ** The aggregation loop *)

Lemma bucket_of_in_tags (rec : record) : In (bucket_of rec) bucket_tags.
Proof. apply status_bucket_in_tags. Qed.

Lemma count_bucket_nil (tag : string) : count_bucket tag [] = 0.
Proof. reflexivity. Qed.

Lemma count_bucket_cons (tag : string) (item : string * record) (recs : records) :
  count_bucket tag (item :: recs)
  = (if decide (bucket_of item.2 = tag) then 1 else 0) + count_bucket tag recs.
Proof.
  unfold count_bucket. simpl. rewrite filter_cons.
  destruct (decide (bucket_of item.2 = tag)); simpl length; lia.
Qed.

Lemma count_bucket_nonneg (tag : string) (recs : records) : 0 <= count_bucket tag recs.
Proof. unfold count_bucket. lia. Qed.

Section Loop.
Variables exclusion_reason_key screening_criteria_key : string.

(** The loop never meets a missing counter, and ends with every counter
    raised by the number of records of its bucket. *)
Lemma status_loop_closed (recs : records) (b t : gmap string Z) :
  (forall tag, In tag bucket_tags -> is_Some (b !! tag)) ->
  exists b',
    Loader.status_loop exclusion_reason_key screening_criteria_key (map snd recs) (b, t)
    = Ok (b', reason_tally exclusion_reason_key screening_criteria_key (map snd recs) t)
    /\ forall tag, b' !! tag = (fun n => n + count_bucket tag recs) <$> (b !! tag).
Proof.
  revert b t.
  induction recs as [|[rid rec] recs IH]; intros b t Hb.
  - exists b. split; [done |]. intros tag. rewrite count_bucket_nil.
    destruct (b !! tag); simpl; [f_equal; lia | done].
  - simpl map. cbn [Loader.status_loop reason_tally fold_left].
    unfold Loader.status_step. fold (bucket_of rec).
    destruct (Hb (bucket_of rec) (bucket_of_in_tags rec)) as [n Hn].
    unfold incr_item. rewrite Hn. cbn [mbind result_bind].
    set (b1 := <[bucket_of rec := n + 1]> b).
    assert (Hb1 : forall tag, In tag bucket_tags -> is_Some (b1 !! tag)).
    { intros tag Htag. subst b1. rewrite lookup_insert.
      case_decide; [by eexists | by apply Hb]. }
    assert (Hcount : forall (t1 : gmap string Z),
      exists b', Loader.status_loop exclusion_reason_key screening_criteria_key
                   (map snd recs) (b1, t1)
                 = Ok (b', reason_tally exclusion_reason_key screening_criteria_key
                             (map snd recs) t1)
        /\ forall tag, b' !! tag
             = (fun n => n + count_bucket tag ((rid, rec) :: recs)) <$> (b !! tag)).
    { intros t1. destruct (IH b1 t1 Hb1) as [b' [Hloop Hlook]].
      exists b'. split; [done |]. intros tag. rewrite Hlook, count_bucket_cons.
      subst b1. rewrite lookup_insert. simpl.
      case_decide as Htag.
      - subst tag. rewrite Hn. simpl. f_equal. lia.
      - destruct (b !! tag); simpl; [f_equal; lia | done]. }
    destruct (String.eqb (bucket_of rec) "fulltext_excluded"); apply Hcount.
Qed.
End Loop.

Lemma getitem_closed (b b' : gmap string Z) (count : string -> Z) (tag : string) (n : Z) :
  (forall tag, b' !! tag = (fun n => n + count tag) <$> (b !! tag)) ->
  b !! tag = Some n ->
  getitem b' tag = Ok (n + count tag).
Proof. intros Hb' Hb. unfold getitem. by rewrite Hb', Hb. Qed.

(** [records_to_status] raises nothing, and every field of its result is
    determined by the bucket counts, the reason tally and the origin
    statistics. *)
Lemma records_to_status_closed (exclusion_reason_key screening_criteria_key : string)
    (recs : records) :
  Loader.records_to_status_with exclusion_reason_key screening_criteria_key recs
  = Ok {| databases := (Loader.compute_origin_stats recs).1;
          registers := None;
          duplicates := (Loader.compute_origin_stats recs).2;
          automation := None;
          other_removed := None;
          screened := Some (count_bucket "screened" recs
                            + count_bucket "prescreen_excluded" recs
                            + count_bucket "pdf_not_retrieved" recs
                            + count_bucket "pdf_retrieved" recs
                            + count_bucket "included" recs);
          records_excluded := Some (count_bucket "prescreen_excluded" recs);
          reports_sought := Some (count_bucket "screened" recs
                                  + count_bucket "prescreen_excluded" recs
                                  + count_bucket "pdf_not_retrieved" recs
                                  + count_bucket "pdf_retrieved" recs
                                  + count_bucket "included" recs
                                  - count_bucket "prescreen_excluded" recs);
          not_retrieved := Some (count_bucket "pdf_not_retrieved" recs);
          assessed := Some (count_bucket "pdf_retrieved" recs
                            + count_bucket "included" recs);
          reports_excluded :=
            or_none (reason_tally exclusion_reason_key screening_criteria_key
                       (map snd recs) ∅);
          included := Some (count_bucket "included" recs);
          new_reports := Some (count_bucket "included" recs) |}.
Proof.
  unfold Loader.records_to_status_with.
  destruct (status_loop_closed exclusion_reason_key screening_criteria_key recs
              Loader.buckets0 ∅) as [b' [-> Hb']].
  { intros tag Htag. unfold bucket_tags in Htag. simpl in Htag.
    repeat (destruct Htag as [<- | Htag]; [by eexists |]). done. }
  cbn [mbind result_bind].
  rewrite !(getitem_closed Loader.buckets0 b' (fun tag => count_bucket tag recs) _ 0 Hb')
    by reflexivity.
  cbn [mbind result_bind].
  destruct (Loader.compute_origin_stats recs) as [n_origin dup_removed].
  rewrite !Z.add_0_l. reflexivity.
Qed.

(** ** Tallies *)

Lemma add_items_lookup (p t : gmap string Z) (k : string) :
  add_items p t !! k
  = match p !! k with
    | Some v => Some (default 0 (t !! k) + v)
    | None => t !! k
    end.
Proof.
  unfold add_items. revert k.
  apply (map_fold_weak_ind
           (fun r m => forall k, r !! k = match m !! k with
                                          | Some v => Some (default 0 (t !! k) + v)
                                          | None => t !! k
                                          end)).
  - intros k. by rewrite lookup_empty.
  - intros i x m r Hi IH k. unfold add_item. rewrite !lookup_insert.
    case_decide as Hik.
    + subst k. by rewrite (IH i), Hi.
    + apply IH.
Qed.

Lemma add_items_comm (p q t : gmap string Z) :
  add_items p (add_items q t) = add_items q (add_items p t).
Proof.
  apply map_eq. intros k. rewrite !add_items_lookup.
  destruct (p !! k), (q !! k), (t !! k); simpl; try done; f_equal; lia.
Qed.

Lemma add_items_empty (t : gmap string Z) : add_items ∅ t = t.
Proof. unfold add_items. apply map_fold_empty. Qed.

Lemma add_items_singleton (k : string) (v : Z) (t : gmap string Z) :
  add_items {[k := v]} t = add_item k v t.
Proof. unfold add_items. apply map_fold_singleton. Qed.

Lemma tally_total_empty : tally_total ∅ = 0.
Proof. unfold tally_total. apply map_fold_empty. Qed.

Lemma tally_total_insert_fresh (k : string) (v : Z) (t : gmap string Z) :
  t !! k = None -> tally_total (<[k := v]> t) = tally_total t + v.
Proof.
  intros Hk. unfold tally_total. rewrite map_fold_insert_L; [done | | done].
  intros. lia.
Qed.

Lemma tally_total_insert (k : string) (v : Z) (t : gmap string Z) :
  tally_total (<[k := v]> t) = tally_total t - default 0 (t !! k) + v.
Proof.
  destruct (t !! k) as [x|] eqn:Hk; simpl.
  - rewrite <- (insert_delete_eq t k v).
    rewrite <- (insert_delete_id t k x Hk) at 2.
    rewrite !tally_total_insert_fresh by apply lookup_delete_eq. lia.
  - rewrite tally_total_insert_fresh by done. lia.
Qed.

Lemma tally_total_add_item (k : string) (v : Z) (t : gmap string Z) :
  tally_total (add_item k v t) = tally_total t + v.
Proof. unfold add_item. rewrite tally_total_insert. lia. Qed.

Lemma tally_total_add_items (p t : gmap string Z) :
  tally_total (add_items p t) = tally_total t + tally_total p.
Proof.
  unfold add_items.
  apply (map_fold_weak_ind (fun r m => tally_total r = tally_total t + tally_total m)).
  - rewrite tally_total_empty. lia.
  - intros i x m r Hi IH.
    rewrite tally_total_add_item, tally_total_insert_fresh, IH by done. lia.
Qed.

Section ReasonTally.
Variables exclusion_reason_key screening_criteria_key : string.

Lemma tally_record_add_items (rec : record) (t : gmap string Z) :
  Loader.tally_record exclusion_reason_key screening_criteria_key rec t
  = add_items (record_reasons exclusion_reason_key screening_criteria_key rec) t.
Proof.
  unfold Loader.tally_record, record_reasons.
  case_decide; [| done].
  destruct (Str.nonempty _).
  - by rewrite add_items_singleton.
  - by rewrite add_items_empty.
Qed.

Lemma reason_tally_steps (recs : list record) (t : gmap string Z) :
  reason_tally exclusion_reason_key screening_criteria_key recs t
  = fold_left (tally_step exclusion_reason_key screening_criteria_key) recs t.
Proof.
  unfold reason_tally. revert t.
  induction recs as [|rec recs IH]; intros t; [done |].
  simpl. rewrite IH. unfold tally_step at 2.
  by rewrite tally_record_add_items.
Qed.

Lemma tally_step_comm (t : gmap string Z) (r1 r2 : record) :
  tally_step exclusion_reason_key screening_criteria_key
    (tally_step exclusion_reason_key screening_criteria_key t r1) r2
  = tally_step exclusion_reason_key screening_criteria_key
      (tally_step exclusion_reason_key screening_criteria_key t r2) r1.
Proof.
  unfold tally_step.
  destruct (String.eqb (bucket_of r1) _), (String.eqb (bucket_of r2) _); try done.
  apply add_items_comm.
Qed.

Lemma reason_tally_perm (recs recs' : list record) :
  Permutation recs recs' ->
  forall t, reason_tally exclusion_reason_key screening_criteria_key recs t
            = reason_tally exclusion_reason_key screening_criteria_key recs' t.
Proof.
  intros Hperm t. rewrite !reason_tally_steps. revert t.
  induction Hperm as [| r l l' _ IH | r1 r2 l | l l' l'' _ IH1 _ IH2]; intros t; simpl.
  - done.
  - apply IH.
  - by rewrite tally_step_comm.
  - by rewrite IH1.
Qed.
End ReasonTally.

Lemma count_bucket_perm (tag : string) (recs recs' : records) :
  Permutation recs recs' -> count_bucket tag recs = count_bucket tag recs'.
Proof.
  intros Hperm. unfold count_bucket. f_equal.
  apply Permutation_length. apply filter_Permutation. by apply Permutation_map.
Qed.

(** ** Origin statistics *)

Section Origin.
Variables origin_field record_id_prefix_exclude : string.

Lemma any_origin_existsb (recs : records) :
  existsb (has_origin origin_field record_id_prefix_exclude) recs = true
  <-> Exists (fun item => has_origin origin_field record_id_prefix_exclude item = true) recs.
Proof.
  rewrite existsb_exists, Exists_exists.
  split; intros [x [Hin Hx]]; exists x; by rewrite ?list_elem_of_In in *.
Qed.

Lemma origin_entries_cons (item : string * record) (recs : records) :
  origin_entries origin_field record_id_prefix_exclude (item :: recs)
  = (if kept_item record_id_prefix_exclude item
     then Z.of_nat (length (origin_parts origin_field item)) else 0)
    + origin_entries origin_field record_id_prefix_exclude recs.
Proof. reflexivity. Qed.

Lemma kept_count_cons (item : string * record) (recs : records) :
  kept_count record_id_prefix_exclude (item :: recs)
  = (if kept_item record_id_prefix_exclude item then 1 else 0)
    + kept_count record_id_prefix_exclude recs.
Proof.
  unfold kept_count. rewrite filter_cons.
  destruct (kept_item record_id_prefix_exclude item).
  - rewrite decide_True by done. cbn [length]. lia.
  - rewrite decide_False by done. lia.
Qed.

(** The loop of [compute_origin_stats] adds the origin entries of the kept
    records, counts the kept records, and notes whether one had a part. *)
Lemma origin_fold_closed (recs : records) (acc : Loader.origin_acc) :
  fold_left (Loader.origin_step origin_field record_id_prefix_exclude) recs acc
  = Loader.mkOriginAcc
      (Loader.total_origins acc + origin_entries origin_field record_id_prefix_exclude recs)
      (Loader.kept acc + kept_count record_id_prefix_exclude recs)
      (Loader.any_origin acc
       || existsb (has_origin origin_field record_id_prefix_exclude) recs).
Proof.
  revert acc. induction recs as [|[rid rec] recs IH]; intros [tot kept any].
  - unfold kept_count. simpl. rewrite orb_false_r. f_equal; lia.
  - cbn [fold_left]. rewrite IH. clear IH.
    rewrite origin_entries_cons, kept_count_cons. cbn [existsb].
    unfold Loader.origin_step, has_origin, kept_item, origin_parts. cbn [fst snd].
    destruct (Str.startswith record_id_prefix_exclude rid); cbn [negb andb orb].
    + f_equal; lia.
    + destruct (Loader._split_origin (get rec origin_field)) as [|p ps];
        cbn [Loader.total_origins Loader.kept Loader.any_origin orb].
      * cbn [length]. f_equal; lia.
      * rewrite orb_true_r. f_equal; lia.
Qed.

Lemma compute_origin_stats_closed (recs : records) :
  Loader.compute_origin_stats_with origin_field record_id_prefix_exclude recs
  = if existsb (has_origin origin_field record_id_prefix_exclude) recs
    then (Some (origin_entries origin_field record_id_prefix_exclude recs),
          Some (Z.max 0 (origin_entries origin_field record_id_prefix_exclude recs
                         - kept_count record_id_prefix_exclude recs)))
    else (None, None).
Proof.
  unfold Loader.compute_origin_stats_with. rewrite origin_fold_closed.
  cbn [Loader.total_origins Loader.kept Loader.any_origin orb].
  destruct (existsb _ recs); cbn [negb]; [| done].
  by rewrite !Z.add_0_l.
Qed.

Lemma origin_entries_perm (recs recs' : records) :
  Permutation recs recs' ->
  origin_entries origin_field record_id_prefix_exclude recs
  = origin_entries origin_field record_id_prefix_exclude recs'.
Proof.
  unfold origin_entries.
  induction 1 as [| x l l' _ IH | x y l | l l' l'' _ IH1 _ IH2]; simpl; lia.
Qed.

Lemma kept_count_perm (recs recs' : records) :
  Permutation recs recs' ->
  kept_count record_id_prefix_exclude recs = kept_count record_id_prefix_exclude recs'.
Proof.
  intros Hperm. unfold kept_count. f_equal.
  apply Permutation_length. by apply filter_Permutation.
Qed.

Lemma has_origin_perm (recs recs' : records) :
  Permutation recs recs' ->
  existsb (has_origin origin_field record_id_prefix_exclude) recs
  = existsb (has_origin origin_field record_id_prefix_exclude) recs'.
Proof.
  induction 1 as [| x l l' _ IH | x y l | l l' l'' _ IH1 _ IH2]; simpl.
  - done.
  - by rewrite IH.
  - by rewrite !orb_assoc, (orb_comm (has_origin _ _ y)).
  - by rewrite IH1.
Qed.

Lemma compute_origin_stats_perm (recs recs' : records) :
  Permutation recs recs' ->
  Loader.compute_origin_stats_with origin_field record_id_prefix_exclude recs
  = Loader.compute_origin_stats_with origin_field record_id_prefix_exclude recs'.
Proof.
  intros Hperm. rewrite !compute_origin_stats_closed.
  by rewrite (has_origin_perm _ _ Hperm), (origin_entries_perm _ _ Hperm),
    (kept_count_perm _ _ Hperm).
Qed.
End Origin.

(** ** The aggregator *)

Lemma split_origin_nothing (rec : record) (field : string) :
  rec !! field = None -> Loader._split_origin (get rec field) = [].
Proof. intros H. unfold get. by rewrite H. Qed.

(** C2. Four records whose only field is a status, with the statuses
    rev_prescreen_excluded, pdf_prepared, rev_included and rev_included (under
    any of the three status keys and any record identifiers), give
    screened = 4, records_excluded = 1, reports_sought = 3, assessed = 3 and
    included = 2. *)
Theorem C2_end_to_end_four_statuses (r1 r2 r3 r4 : string) :
  Forall
    (fun key =>
       exists st,
         Loader.records_to_status (four_statuses key r1 r2 r3 r4) = Ok st
         /\ screened st = Some 4
         /\ records_excluded st = Some 1
         /\ reports_sought st = Some 3
         /\ assessed st = Some 3
         /\ included st = Some 2)
    status_keys.
Proof.
  unfold Loader.records_to_status, status_keys.
  apply List.Forall_cons;
    [| apply List.Forall_cons; [| apply List.Forall_cons; [| apply List.Forall_nil]]];
    (rewrite records_to_status_closed; eexists; split; [reflexivity |];
     cbn [screened records_excluded reports_sought assessed included];
     repeat split; f_equal; vm_compute; reflexivity).
Qed.

(** C3. For every record collection [records_to_status] returns a status
    whose reports_sought is screened minus records_excluded, where screened
    is the sum of the screened, prescreen_excluded, pdf_not_retrieved,
    pdf_retrieved and included bucket counts, records_excluded is the
    prescreen_excluded count and assessed is pdf_retrieved plus included. *)
Theorem C3_reports_sought_identity (recs : records) :
  exists st s e,
    Loader.records_to_status recs = Ok st
    /\ screened st = Some s
    /\ records_excluded st = Some e
    /\ reports_sought st = Some (s - e)
    /\ s = count_bucket "screened" recs + count_bucket "prescreen_excluded" recs
           + count_bucket "pdf_not_retrieved" recs + count_bucket "pdf_retrieved" recs
           + count_bucket "included" recs
    /\ e = count_bucket "prescreen_excluded" recs
    /\ assessed st = Some (count_bucket "pdf_retrieved" recs + count_bucket "included" recs).
Proof.
  unfold Loader.records_to_status. rewrite records_to_status_closed.
  eexists _, _, _. split; [reflexivity |]. cbn. repeat split.
Qed.

(** C9. [records_to_status] does not depend on the iteration order of the
    record collection: on two collections with the same entries in different
    orders it returns equal results. *)
Theorem C9_order_insensitive (recs recs' : records) :
  Permutation recs recs' ->
  Loader.records_to_status recs = Loader.records_to_status recs'.
Proof.
  intros Hperm. unfold Loader.records_to_status.
  rewrite !records_to_status_closed. unfold Loader.compute_origin_stats.
  rewrite (compute_origin_stats_perm _ _ _ _ Hperm).
  rewrite (reason_tally_perm _ _ _ _ (Permutation_map snd Hperm)).
  by rewrite !(count_bucket_perm _ _ _ Hperm).
Qed.

Lemma C9_order_insensitive_witness :
  Permutation
    (four_statuses "status" "r1" "r2" "r3" "r4")
    [("r2", status_only "status" "pdf_prepared");
     ("r1", status_only "status" "rev_prescreen_excluded");
     ("r3", status_only "status" "rev_included");
     ("r4", status_only "status" "rev_included")]
  /\ Loader.records_to_status (four_statuses "status" "r1" "r2" "r3" "r4")
     = Loader.records_to_status
         [("r2", status_only "status" "pdf_prepared");
          ("r1", status_only "status" "rev_prescreen_excluded");
          ("r3", status_only "status" "rev_included");
          ("r4", status_only "status" "rev_included")].
Proof.
  split; [apply perm_swap |].
  apply C9_order_insensitive. apply perm_swap.
Defined.

(** ** The aggregator of the monolithic module *)

Lemma mono_bucket_of_in_tags (rec : record) : In (mono_bucket_of rec) mono_bucket_tags.
Proof.
  unfold mono_bucket_of, Monolith.status_bucket, mono_bucket_tags.
  case_tests; simpl; tauto.
Qed.

Lemma mono_count_bucket_cons (tag : string) (item : string * record) (recs : records) :
  mono_count_bucket tag (item :: recs)
  = (if decide (mono_bucket_of item.2 = tag) then 1 else 0) + mono_count_bucket tag recs.
Proof.
  unfold mono_count_bucket. simpl. rewrite filter_cons.
  destruct (decide (mono_bucket_of item.2 = tag)); simpl length; lia.
Qed.

Lemma mono_status_step_ok (ek sk : string) (st : Monolith.loop_state) (rec : record) (n : Z) :
  Monolith.buckets st !! mono_bucket_of rec = Some n ->
  exists st',
    Monolith.status_step ek sk st rec = Ok st'
    /\ Monolith.buckets st' = <[mono_bucket_of rec := n + 1]> (Monolith.buckets st).
Proof.
  intros Hn. unfold Monolith.status_step. fold (mono_bucket_of rec).
  unfold incr_item. rewrite Hn. cbn [mbind result_bind].
  case_tests; by eexists.
Qed.

(** The loop of the monolithic [records_to_status] never meets a missing
    counter and raises every counter by the number of records of its bucket. *)
Lemma mono_status_loop_closed (ek sk : string) (recs : records) (st : Monolith.loop_state) :
  (forall tag, In tag mono_bucket_tags -> is_Some (Monolith.buckets st !! tag)) ->
  exists st',
    Monolith.status_loop ek sk (map snd recs) st = Ok st'
    /\ forall tag, Monolith.buckets st' !! tag
                   = (fun n => n + mono_count_bucket tag recs) <$> (Monolith.buckets st !! tag).
Proof.
  revert st. induction recs as [|[rid rec] recs IH]; intros st Hst.
  - exists st. split; [done |]. intros tag. unfold mono_count_bucket. simpl.
    destruct (_ !! tag); simpl; [f_equal; lia | done].
  - simpl map. cbn [Monolith.status_loop].
    destruct (Hst _ (mono_bucket_of_in_tags rec)) as [n Hn].
    destruct (mono_status_step_ok ek sk st rec n Hn) as [st1 [-> Hst1]].
    cbn [mbind result_bind].
    destruct (IH st1) as [st' [Hloop Hlook]].
    { intros tag Htag. rewrite Hst1, lookup_insert.
      case_decide; [by eexists | by apply Hst]. }
    exists st'. split; [done |]. intros tag.
    rewrite Hlook, Hst1, mono_count_bucket_cons, lookup_insert. simpl.
    case_decide as Htag.
    + subst tag. rewrite Hn. simpl. f_equal. lia.
    + destruct (_ !! tag); simpl; [f_equal; lia | done].
Qed.

Lemma mono_records_to_status_included (ek sk : string) (recs : records) :
  exists st,
    Monolith.records_to_status_with ek sk recs = Ok st
    /\ included st = Some (mono_count_bucket "included" recs)
    /\ new_reports st = Some (mono_count_bucket "included" recs).
Proof.
  unfold Monolith.records_to_status_with.
  destruct (mono_status_loop_closed ek sk recs (Monolith.mkLoopState Monolith.buckets0 ∅ ∅))
    as [st' [-> Hb']].
  { intros tag Htag. unfold mono_bucket_tags in Htag. simpl in Htag.
    repeat (destruct Htag as [<- | Htag]; [by eexists |]). done. }
  cbn [mbind result_bind Monolith.buckets] in *.
  rewrite !(getitem_closed Monolith.buckets0 _ (fun tag => mono_count_bucket tag recs) _ 0 Hb')
    by reflexivity.
  cbn [mbind result_bind].
  destruct (Monolith.compute_origin_stats recs) as [[n_origin|] [dup|]];
    cbn [mbind result_bind];
    rewrite ?(getitem_closed Monolith.buckets0 _ (fun tag => mono_count_bucket tag recs) _ 0 Hb')
      by reflexivity;
    cbn [mbind result_bind];
    (eexists; split; [reflexivity |]; cbn [included new_reports]; split; f_equal; lia).
Qed.

(** C10. For every record collection the status [records_to_status] returns
    has new_reports equal to included, both being the count of the included
    bucket; this holds for the loader module and for the monolithic module. *)
Theorem C10_new_reports_equals_included (recs : records) :
  (exists st,
     Loader.records_to_status recs = Ok st
     /\ new_reports st = included st
     /\ included st = Some (count_bucket "included" recs))
  /\ (exists st,
        Monolith.records_to_status recs = Ok st
        /\ new_reports st = included st
        /\ included st = Some (mono_count_bucket "included" recs)).
Proof.
  split.
  - unfold Loader.records_to_status. rewrite records_to_status_closed.
    eexists. split; [reflexivity |]. by cbn.
  - destruct (mono_records_to_status_included "exclusion_reason" "screening_criteria" recs)
      as [st [Hst [Hinc Hnew]]].
    exists st. by rewrite Hnew, Hinc.
Qed.

(** ** Properties of the origin statistics *)

Lemma has_origin_false (field prefix : string) (item : string * record) :
  has_origin field prefix item = false
  <-> Str.startswith prefix item.1 = true \/ Loader._split_origin (get item.2 field) = [].
Proof.
  unfold has_origin, kept_item, origin_parts.
  destruct (Str.startswith prefix item.1), (Loader._split_origin (get item.2 field));
    simpl; split; try done; auto.
  intros [? | ?]; done.
Qed.

Lemma has_origin_true (field prefix : string) (item : string * record) :
  has_origin field prefix item = true
  <-> Str.startswith prefix item.1 = false /\ Loader._split_origin (get item.2 field) <> [].
Proof.
  rewrite <- not_false_iff_true, has_origin_false.
  destruct (Str.startswith prefix item.1), (Loader._split_origin (get item.2 field));
    split; intros H; try tauto; try (exfalso; apply H; auto; fail).
  - destruct H; done.
  - intros [? | ?]; done.
Qed.

Lemma existsb_false_Forall {A} (f : A -> bool) (l : list A) :
  existsb f l = false <-> Forall (fun x => f x = false) l.
Proof.
  induction l as [|x l IH]; simpl.
  - split; [constructor | done].
  - rewrite orb_false_iff, IH. split.
    + intros [? ?]. by constructor.
    + by inversion 1.
Qed.

(** C6 (amended). [compute_origin_stats] returns (None, None) exactly when no
    record whose identifier does not start with the exclusion prefix has an
    origin value with at least one non-empty trimmed part; in every other
    case both results are integers. *)
Theorem C6_origin_unused_iff_no_kept_part (origin_field prefix : string) (recs : records) :
  (Loader.compute_origin_stats_with origin_field prefix recs = (None, None)
   <-> Forall (fun item => Str.startswith prefix item.1 = true
                           \/ Loader._split_origin (get item.2 origin_field) = []) recs)
  /\ (Loader.compute_origin_stats_with origin_field prefix recs = (None, None)
      \/ exists n d,
           Loader.compute_origin_stats_with origin_field prefix recs = (Some n, Some d)).
Proof.
  rewrite compute_origin_stats_closed.
  destruct (existsb (has_origin origin_field prefix) recs) eqn:Hany.
  - split; [| right; by eexists _, _].
    split; [done |]. intros Hall. exfalso.
    apply not_false_iff_true in Hany. apply Hany.
    apply existsb_false_Forall. eapply Forall_impl; [exact Hall |].
    intros item. apply has_origin_false.
  - split; [| by left]. split; [| done]. intros _.
    apply existsb_false_Forall in Hany. eapply Forall_impl; [exact Hany |].
    intros item. apply has_origin_false.
Qed.

(** C6, counterexample to the statement with every record of the collection
    counted: the only record of [merged_only] has the origin value a, and the
    result is (None, None). *)
Lemma C6_counterexample_merged_record :
  Exists (fun item => get item.2 "colrev_origin" = PStr "a") merged_only
  /\ Loader.compute_origin_stats merged_only = (None, None).
Proof. split; [by left | reflexivity]. Qed.

Lemma split_origin_str (s : string) :
  Loader._split_origin (PStr s)
  = filter (fun p => Str.nonempty p = true) (map Str.strip (Str.split ";" s)).
Proof.
  unfold Loader._split_origin.
  destruct s as [|c s]; [reflexivity |]. cbn [Py.truthy Str.nonempty negb].
  generalize (Str.split ";" (String c s)). intros l.
  induction l as [|p l IH]; [done |].
  rewrite filter_cons. cbn [map]. rewrite filter_cons.
  destruct (decide (Str.nonempty (Str.strip p) = true)); cbn [map]; by rewrite IH.
Qed.

(** C7 (amended). When some record whose identifier does not start with the
    exclusion prefix has an origin value with a non-empty trimmed part,
    [compute_origin_stats] returns as total the sum, over the records whose
    identifier does not start with the prefix, of the number of their origin
    parts, and as duplicates removed the maximum of zero and that total minus
    the number of those records.  The parts of a string value are its
    non-empty trimmed pieces between semicolons.  On the two records with
    origins a;b and c the result is 3 and 1. *)
Theorem C7_origin_totals (origin_field prefix : string) (recs : records) :
  Exists (fun item => Str.startswith prefix item.1 = false
                      /\ Loader._split_origin (get item.2 origin_field) <> []) recs ->
  Loader.compute_origin_stats_with origin_field prefix recs
  = (Some (origin_entries origin_field prefix recs),
     Some (Z.max 0 (origin_entries origin_field prefix recs - kept_count prefix recs)))
  /\ (forall s, Loader._split_origin (PStr s)
                = filter (fun p => Str.nonempty p = true) (map Str.strip (Str.split ";" s)))
  /\ Loader.compute_origin_stats two_origins = (Some 3, Some 1).
Proof.
  intros Hex. split; [| split; [apply split_origin_str | reflexivity]].
  rewrite compute_origin_stats_closed.
  replace (existsb (has_origin origin_field prefix) recs) with true; [done |].
  symmetry. apply any_origin_existsb.
  eapply Exists_impl; [exact Hex |]. intros item. apply has_origin_true.
Qed.

Lemma C7_origin_totals_witness :
  Exists (fun item => Str.startswith "md_" item.1 = false
                      /\ Loader._split_origin (get item.2 "colrev_origin") <> []) two_origins
  /\ Loader.compute_origin_stats_with "colrev_origin" "md_" two_origins = (Some 3, Some 1).
Proof.
  assert (H : Exists (fun item => Str.startswith "md_" item.1 = false
                        /\ Loader._split_origin (get item.2 "colrev_origin") <> [])
                two_origins).
  { apply Exists_cons_hd. split; [reflexivity | discriminate]. }
  split; [exact H |].
  exact (proj1 (C7_origin_totals "colrev_origin" "md_" two_origins H)).
Defined.

(** C7, counterexample to the statement with any record having an origin
    value as its premise: in [merged_and_plain] a record has an origin value,
    the sum over the records without the prefix is 0, and the result is
    (None, None), not 0 and 0. *)
Lemma C7_counterexample_merged_record :
  Exists (fun item => get item.2 "colrev_origin" = PStr "a;b") merged_and_plain
  /\ origin_entries "colrev_origin" "md_" merged_and_plain = 0
  /\ Loader.compute_origin_stats merged_and_plain = (None, None).
Proof. split; [by left | split; reflexivity]. Qed.

(** ** Properties of the reason tally *)

Lemma criteria_step_flags (result : gmap string Z) (part : string) :
  map_Forall is_flag result -> map_Forall is_flag (Loader.criteria_step result part).
Proof.
  intros H. unfold Loader.criteria_step.
  destruct (Loader.split_entry part) as [[k v]|]; [| done].
  destruct (Loader.mem_str _ Loader.out_vals).
  { apply map_Forall_insert_2; [by right | done]. }
  destruct (Loader.mem_str _ Loader.in_vals); [| done].
  apply map_Forall_insert_2; [by left | done].
Qed.

Lemma parse_screening_criteria_flags (value : PyVal) :
  map_Forall is_flag (Loader.parse_screening_criteria value).
Proof.
  unfold Loader.parse_screening_criteria.
  destruct (negb (Py.truthy value)); [apply map_Forall_empty |].
  generalize (Loader.criteria_parts value). intros parts.
  assert (H : map_Forall is_flag (∅ : gmap string Z)) by apply map_Forall_empty.
  revert H. generalize (∅ : gmap string Z).
  induction parts as [|part parts IH]; intros acc Hacc; [done |].
  simpl. apply IH. by apply criteria_step_flags.
Qed.

Lemma out_flagged_empty : out_flagged ∅ = 0.
Proof. unfold out_flagged. by rewrite map_filter_empty, map_size_empty. Qed.

(** The sum of a map of flags is the number of its flags that are 1. *)
Lemma tally_total_flags (m : gmap string Z) :
  map_Forall is_flag m -> tally_total m = out_flagged m.
Proof.
  induction m as [|i x m Hi IH] using map_ind; intros Hm.
  - by rewrite tally_total_empty, out_flagged_empty.
  - apply map_Forall_insert in Hm as [Hx Hm]; [| done].
    rewrite tally_total_insert_fresh, IH by done.
    unfold out_flagged. rewrite map_filter_insert. case_decide as Hone; simpl in Hone.
    + rewrite map_size_insert_None; [lia |].
      apply map_lookup_filter_None_2. by left.
    + rewrite delete_id by done. destruct Hx as [-> | ->]; [lia | done].
Qed.

Lemma out_flagged_nonneg (m : gmap string Z) : 0 <= out_flagged m.
Proof. unfold out_flagged. lia. Qed.

Lemma default_or_none (t : gmap string Z) : default ∅ (or_none t) = t.
Proof. unfold or_none. by case_decide. Qed.

Section ReasonSum.
Variables exclusion_reason_key screening_criteria_key : string.

Lemma tally_step_total (t : gmap string Z) (rec : record) :
  tally_total (tally_step exclusion_reason_key screening_criteria_key t rec)
  = tally_total t + reason_count exclusion_reason_key screening_criteria_key rec.
Proof.
  unfold tally_step, reason_count, record_reasons.
  destruct (String.eqb (bucket_of rec) "fulltext_excluded"); [| lia].
  rewrite tally_total_add_items. f_equal.
  case_decide.
  - destruct (Str.nonempty _); [| apply tally_total_empty].
    rewrite <- insert_empty, tally_total_insert_fresh, tally_total_empty; [lia | done].
  - apply tally_total_flags, parse_screening_criteria_flags.
Qed.

Lemma reason_tally_total (recs : records) (t : gmap string Z) :
  tally_total (reason_tally exclusion_reason_key screening_criteria_key (map snd recs) t)
  = tally_total t + reason_sum exclusion_reason_key screening_criteria_key recs.
Proof.
  rewrite reason_tally_steps. revert t.
  induction recs as [|[rid rec] recs IH]; intros t; simpl; [lia |].
  rewrite IH, tally_step_total. lia.
Qed.

Lemma reason_count_nonneg (rec : record) :
  0 <= reason_count exclusion_reason_key screening_criteria_key rec.
Proof.
  unfold reason_count.
  case_tests; try lia.
  apply out_flagged_nonneg.
Qed.

Lemma reason_count_outside (rec : record) :
  bucket_of rec <> "fulltext_excluded" ->
  reason_count exclusion_reason_key screening_criteria_key rec = 0.
Proof.
  intros H. unfold reason_count.
  destruct (String.eqb_spec (bucket_of rec) "fulltext_excluded"); done.
Qed.

Lemma reason_sum_nonneg (recs : records) :
  0 <= reason_sum exclusion_reason_key screening_criteria_key recs.
Proof.
  induction recs as [|item recs IH]; simpl; [lia |].
  pose proof (reason_count_nonneg item.2). lia.
Qed.

Lemma reason_sum_le (recs : records) :
  Forall (fun item => reason_count exclusion_reason_key screening_criteria_key item.2 <= 1)
         recs ->
  reason_sum exclusion_reason_key screening_criteria_key recs
  <= count_bucket "fulltext_excluded" recs.
Proof.
  induction 1 as [|item recs Hitem _ IH]; [done |].
  rewrite count_bucket_cons. cbn [reason_sum foldr].
  fold (reason_sum exclusion_reason_key screening_criteria_key recs).
  case_decide as Hb; [lia |].
  rewrite (reason_count_outside _ Hb). lia.
Qed.

Lemma reason_sum_eq (recs : records) :
  Forall (fun item => bucket_of item.2 = "fulltext_excluded" ->
                      reason_count exclusion_reason_key screening_criteria_key item.2 = 1)
         recs ->
  reason_sum exclusion_reason_key screening_criteria_key recs
  = count_bucket "fulltext_excluded" recs.
Proof.
  induction 1 as [|item recs Hitem _ IH]; [done |].
  rewrite count_bucket_cons. cbn [reason_sum foldr].
  fold (reason_sum exclusion_reason_key screening_criteria_key recs).
  case_decide as Hb.
  - rewrite (Hitem Hb). lia.
  - rewrite (reason_count_outside _ Hb). lia.
Qed.
End ReasonSum.

(** C4 (amended). For every record collection the sum of all counts of the
    final reason tally is the sum, over the fulltext_excluded records, of
    the number of criteria the record flags as out when it has parsed
    criteria, and otherwise of one for a non-empty fallback reason.  It is
    therefore at most the fulltext_excluded bucket count when no such record
    flags more than one criterion as out, and equal to it when every such
    record either flags exactly one criterion as out or has no parsed
    criterion and a non-empty fallback reason. *)
Theorem C4_tally_sum_by_record (recs : records) :
  exists st,
    Loader.records_to_status recs = Ok st
    /\ tally_total (tally_of st) = reason_sum "exclusion_reason" "screening_criteria" recs
    /\ 0 <= tally_total (tally_of st)
    /\ (Forall (fun item =>
                  reason_count "exclusion_reason" "screening_criteria" item.2 <= 1) recs ->
        tally_total (tally_of st) <= count_bucket "fulltext_excluded" recs)
    /\ (Forall (fun item =>
                  bucket_of item.2 = "fulltext_excluded" ->
                  reason_count "exclusion_reason" "screening_criteria" item.2 = 1) recs ->
        tally_total (tally_of st) = count_bucket "fulltext_excluded" recs).
Proof.
  unfold Loader.records_to_status. rewrite records_to_status_closed.
  eexists. split; [reflexivity |].
  unfold tally_of. cbn [reports_excluded].
  rewrite default_or_none, reason_tally_total, tally_total_empty, Z.add_0_l.
  split; [done |]. split; [apply reason_sum_nonneg |].
  split; [apply reason_sum_le | apply reason_sum_eq].
Qed.

Lemma C4_tally_sum_by_record_witness :
  Forall (fun item =>
            bucket_of item.2 = "fulltext_excluded" ->
            reason_count "exclusion_reason" "screening_criteria" item.2 = 1)
         one_reason_each
  /\ exists st,
       Loader.records_to_status one_reason_each = Ok st
       /\ tally_total (tally_of st) = count_bucket "fulltext_excluded" one_reason_each.
Proof.
  assert (H : Forall (fun item =>
                        bucket_of item.2 = "fulltext_excluded" ->
                        reason_count "exclusion_reason" "screening_criteria" item.2 = 1)
                one_reason_each).
  { repeat apply List.Forall_cons; try apply List.Forall_nil;
      intros _; vm_compute; reflexivity. }
  split; [exact H |].
  destruct (C4_tally_sum_by_record one_reason_each) as [st [Hst [_ [_ [_ Heq]]]]].
  exists st. split; [exact Hst | exact (Heq H)].
Defined.

(** C4, counterexample to the bound of the tally sum by the bucket count:
    the one record of [two_criteria_out] is in the fulltext_excluded bucket
    and its two criteria flagged out give a tally whose counts sum to 2. *)
Lemma C4_counterexample_two_criteria :
  exists st,
    Loader.records_to_status two_criteria_out = Ok st
    /\ tally_total (tally_of st) = 2
    /\ count_bucket "fulltext_excluded" two_criteria_out = 1
    /\ ~ tally_total (tally_of st) <= count_bucket "fulltext_excluded" two_criteria_out.
Proof.
  eexists. split; [vm_compute; reflexivity |].
  split; [vm_compute; reflexivity |]. split; [vm_compute; reflexivity |].
  vm_compute. intros H. apply H. reflexivity.
Qed.

(** ** The screening-criteria parser *)

Lemma contains_char (c : ascii) (s : string) :
  Str.contains (String c EmptyString) s = Str.mem_char c s.
Proof.
  induction s as [|a s IH]; [done |].
  cbn [Str.contains Str.startswith Str.mem_char]. by rewrite IH, andb_true_r.
Qed.

Lemma split1_Some (sep : ascii) (s k v : string) :
  Str.split1 sep s = Some (k, v)
  <-> s = k ++ String sep v /\ Str.mem_char sep k = false.
Proof.
  revert k. induction s as [|a s IH]; intros k; cbn [Str.split1].
  - split; [done |]. intros [H _]. destruct k; discriminate.
  - destruct (Ascii.eqb_spec a sep) as [-> | Hne].
    + split.
      * intros [= <- <-]. done.
      * intros [H Hk]. destruct k as [|b k]; simpl in *.
        -- by injection H as ->.
        -- injection H as <- _. by rewrite Ascii.eqb_refl in Hk.
    + destruct (Str.split1 sep s) as [[k' v']|].
      * split.
        -- intros [= <- <-]. destruct (proj1 (IH k') eq_refl) as [-> Hk'].
           split; [done |].
           cbn. rewrite Hk', orb_false_r. rewrite Ascii.eqb_sym. by apply Ascii.eqb_neq.
        -- intros [H Hk]. destruct k as [|b k]; simpl in H.
           ++ by injection H as ->.
           ++ injection H as <- H. cbn in Hk. apply orb_false_iff in Hk as [_ Hk].
              by injection (proj2 (IH k) (conj H Hk)) as -> ->.
      * split; [done |]. intros [H Hk]. destruct k as [|b k]; simpl in H.
        -- by injection H as ->.
        -- injection H as <- H. cbn in Hk. apply orb_false_iff in Hk as [_ Hk].
           discriminate (proj2 (IH k) (conj H Hk)).
Qed.

Lemma split1_None (sep : ascii) (s : string) :
  Str.split1 sep s = None <-> Str.mem_char sep s = false.
Proof.
  induction s as [|a s IH]; cbn [Str.split1 Str.mem_char]; [done |].
  rewrite (Ascii.eqb_sym sep a).
  destruct (Ascii.eqb a sep); [done |]. cbn.
  destruct (Str.split1 sep s) as [[k v]|].
  - split; [done |]. intros H. by apply IH in H.
  - split; [intros _; by apply IH | done].
Qed.

(** A part is an entry when it has an equals sign, and is then cut at the
    first one; failing that, when it has a colon, and is then cut at the
    first colon. *)
Lemma split_entry_Some (part k v : string) :
  Loader.split_entry part = Some (k, v)
  <-> (part = k ++ String "=" v /\ Str.mem_char "=" k = false)
      \/ (Str.mem_char "=" part = false
          /\ part = k ++ String ":" v /\ Str.mem_char ":" k = false).
Proof.
  unfold Loader.split_entry. rewrite !contains_char.
  destruct (Str.mem_char "=" part) eqn:Heq.
  - rewrite split1_Some. split; [by left |]. intros [H | [H _]]; done.
  - destruct (Str.mem_char ":" part) eqn:Hcolon.
    + rewrite split1_Some. split; [by right |].
      intros [[-> Hk] | [_ H]]; [| done].
      exfalso. clear Hcolon. induction k as [|b k IHk]; cbn in *.
      * done.
      * apply orb_false_iff in Heq as [_ Heq]. apply orb_false_iff in Hk as [_ Hk]. auto.
    + split; [done |]. intros [[-> Hk] | [_ [-> Hk]]]; exfalso.
      * clear Hcolon. induction k as [|b k IHk]; cbn in *; [done |].
        apply orb_false_iff in Heq as [_ Heq]. apply orb_false_iff in Hk as [_ Hk]. auto.
      * clear Heq. induction k as [|b k IHk]; cbn in *; [done |].
        apply orb_false_iff in Hcolon as [_ Hcolon].
        apply orb_false_iff in Hk as [_ Hk]. auto.
Qed.

Lemma mem_str_In (v : string) (vals : list string) :
  Loader.mem_str v vals = true <-> In v vals.
Proof.
  unfold Loader.mem_str. rewrite existsb_exists. split.
  - intros [x [Hin Hx]]. apply String.eqb_eq in Hx. by subst.
  - intros Hin. exists v. split; [done | apply String.eqb_refl].
Qed.

(** The flag of a value: 1 on the out-vocabulary, 0 on the in-vocabulary,
    none on any other text. *)
Lemma value_flag_Some (v : string) (f : Z) :
  value_flag v = Some f
  <-> (f = 1 /\ In v Loader.out_vals) \/ (f = 0 /\ In v Loader.in_vals).
Proof.
  unfold value_flag.
  destruct (Loader.mem_str v Loader.out_vals) eqn:Hout.
  - apply mem_str_In in Hout. split.
    + intros [= <-]. by left.
    + intros [[-> _] | [-> Hin]]; [done |]. exfalso.
      unfold Loader.in_vals in Hin. simpl in Hin. unfold Loader.out_vals in Hout.
      simpl in Hout. intuition subst; discriminate.
  - assert (Hnot : ~ In v Loader.out_vals).
    { intros Hin. apply mem_str_In in Hin. congruence. }
    destruct (Loader.mem_str v Loader.in_vals) eqn:Hin.
    + apply mem_str_In in Hin. split.
      * intros [= <-]. by right.
      * intros [[_ H] | [-> _]]; done.
    + split; [done |]. intros [[_ H] | [_ H]]; [done |].
      apply mem_str_In in H. congruence.
Qed.

Lemma criteria_step_lookup (acc : gmap string Z) (part k : string) :
  Loader.criteria_step acc part !! k
  = match flag_for k part with
    | Some f => Some f
    | None => acc !! k
    end.
Proof.
  unfold Loader.criteria_step, flag_for, entry_of, value_flag.
  destruct (Loader.split_entry part) as [[k' v']|]; [| done].
  destruct (Loader.mem_str _ Loader.out_vals).
  { rewrite lookup_insert. by case_decide. }
  destruct (Loader.mem_str _ Loader.in_vals); [| done].
  rewrite lookup_insert. by case_decide.
Qed.

(** After the loop a key holds the flag of the last entry for it. *)
Lemma criteria_fold_lookup (parts : list string) (acc : gmap string Z) (k : string) :
  fold_left Loader.criteria_step parts acc !! k
  = match last_flag k parts with
    | Some f => Some f
    | None => acc !! k
    end.
Proof.
  unfold last_flag. revert acc.
  induction parts as [|part parts IH]; intros acc; [done |].
  cbn [fold_left omap list_omap]. rewrite IH, criteria_step_lookup.
  destruct (flag_for k part) as [f|]; [| done].
  rewrite last_cons. by destruct (last (omap (flag_for k) parts)).
Qed.

Lemma entry_of_Some (part k : string) (f : Z) :
  entry_of part = Some (k, f)
  <-> exists k' v',
        Loader.split_entry part = Some (k', v')
        /\ k = Str.strip k'
        /\ ((f = 1 /\ In (Str.lower (Str.strip v')) Loader.out_vals)
            \/ (f = 0 /\ In (Str.lower (Str.strip v')) Loader.in_vals)).
Proof.
  unfold entry_of.
  destruct (Loader.split_entry part) as [[k0 v0]|].
  - destruct (value_flag (Str.lower (Str.strip v0))) as [f0|] eqn:Hflag.
    + split.
      * intros [= <- <-]. exists k0, v0. by apply value_flag_Some in Hflag.
      * intros [k' [v' [[= <- <-] [-> Hf]]]].
        apply value_flag_Some in Hf. congruence.
    + split; [done |]. intros [k' [v' [[= <- <-] [_ Hf]]]].
      apply value_flag_Some in Hf. congruence.
  - split; [done |]. by intros [k' [v' [? _]]].
Qed.

Lemma parse_screening_criteria_lookup (value : PyVal) (k : string) :
  Loader.parse_screening_criteria value !! k
  = if Py.truthy value then last_flag k (Loader.criteria_parts value) else None.
Proof.
  unfold Loader.parse_screening_criteria.
  destruct (Py.truthy value); cbn [negb]; [| done].
  rewrite criteria_fold_lookup, lookup_empty.
  by destruct (last_flag k _).
Qed.

(** C8 (amended). [parse_screening_criteria] cuts the field, trimmed and
    without braces at its two ends, at every semicolon and comma; a part is an
    entry when it holds an equals sign (cut at the first) or else a colon
    (cut at the first); the key is the trimmed text before the cut and the
    value the trimmed, lower-cased text after it, with no quote or brace
    removed; the entry gives its key flag 1 when the value is in the
    out-vocabulary and flag 0 when it is in the in-vocabulary, and any other
    value gives nothing; the result maps a key to the flag of its last such
    entry.  The text non-empirical=in;bias=out in braces gives flag 0 for
    non-empirical and flag 1 for bias, and a missing or empty field gives
    the empty mapping. *)
Theorem C8_criteria_flags :
  (forall part k v,
     Loader.split_entry part = Some (k, v)
     <-> (part = k ++ String "=" v /\ Str.mem_char "=" k = false)
         \/ (Str.mem_char "=" part = false
             /\ part = k ++ String ":" v /\ Str.mem_char ":" k = false))
  /\ (forall part k f,
        entry_of part = Some (k, f)
        <-> exists k' v',
              Loader.split_entry part = Some (k', v')
              /\ k = Str.strip k'
              /\ ((f = 1 /\ In (Str.lower (Str.strip v')) Loader.out_vals)
                  \/ (f = 0 /\ In (Str.lower (Str.strip v')) Loader.in_vals)))
  /\ (forall value k,
        Loader.parse_screening_criteria value !! k
        = if Py.truthy value then last_flag k (Loader.criteria_parts value) else None)
  /\ Loader.parse_screening_criteria (PStr "{non-empirical=in;bias=out}")
     = {[ "non-empirical" := 0; "bias" := 1 ]}
  /\ Loader.parse_screening_criteria PNone = ∅
  /\ Loader.parse_screening_criteria (PStr "") = ∅.
Proof.
  split; [apply split_entry_Some |].
  split; [apply entry_of_Some |].
  split; [apply parse_screening_criteria_lookup |].
  split; [vm_compute; reflexivity |].
  split; reflexivity.
Qed.

(** C8, counterexample to the statement with values stripped of quotes: in
    the entry a='out' the value without its quotes is out, a word of the
    out-vocabulary, and the parse has no entry for a. *)
Lemma C8_counterexample_quoted_value :
  Loader.split_entry "a='out'" = Some ("a", "'out'")
  /\ Str.lower (Str.strip_chars "'" "'out'") = "out"
  /\ In "out" Loader.out_vals
  /\ Loader.parse_screening_criteria (PStr "a='out'") !! "a" = None
  /\ Loader.parse_screening_criteria (PStr "a='out'") = ∅.
Proof.
  split; [reflexivity |]. split; [reflexivity |]. split; [by left |].
  split; vm_compute; reflexivity.
Qed.

(** ** The reason normalizer *)

Lemma sum_from_raises (vs : list PyVal) (acc : Z) :
  raises (Py.sum_from acc vs) = negb (forallb is_number vs).
Proof.
  revert acc. induction vs as [|v vs IH]; intros acc; [done |].
  destruct v; cbn [Py.sum_from forallb is_number andb negb raises]; try done; apply IH.
Qed.

Lemma int_raises (v : PyVal) : raises (Py.int v) = negb (int_accepts v).
Proof.
  destruct v; cbn [Py.int int_accepts raises negb]; try done.
  by destruct (Py.int_of_str s).
Qed.

Lemma convert_items_raises (d : list (string * PyVal)) :
  raises (mapM (fun kv => z ← Py.int kv.2; Ok (kv.1, PInt z)) d)
  = negb (forallb int_accepts (map snd d)).
Proof.
  induction d as [|[k v] d IH]; [done |].
  cbn [mapM map forallb snd fst]. pose proof (int_raises v) as Hv.
  destruct (Py.int v) as [z|e], (int_accepts v);
    cbn [mbind result_bind raises negb andb] in *; try done.
  destruct (mapM _ d); cbn [mbind result_bind mret result_ret raises] in *; done.
Qed.

Lemma convert_items_numbers (d l : list (string * PyVal)) :
  mapM (fun kv => z ← Py.int kv.2; Ok (kv.1, PInt z)) d = Ok l ->
  forallb is_number (map snd l) = true.
Proof.
  revert l. induction d as [|[k v] d IH]; intros l.
  - by intros [= <-].
  - cbn [mapM snd fst]. destruct (Py.int v) as [z|e]; cbn [mbind result_bind]; [| done].
    destruct (mapM _ d) as [l'|e]; cbn [mbind result_bind mret result_ret]; [| done].
    intros [= <-]. cbn. by apply IH.
Qed.

Lemma normalize_reasons_raises (value : ReasonsLike) :
  raises (Loader.normalize_reasons value) = negb (normalize_safe value).
Proof.
  destruct value as [v | rc]; [| done].
  destruct v as [| b | z | s | l | d]; try done.
  unfold Loader.normalize_reasons, normalize_safe.
  destruct (Py.dict_has d "total" || Py.dict_has d "by_reason").
  - destruct (_to_int _) as [z|]; [by destruct (Py.or_else _ _) |].
    destruct (Py.or_else _ _) as [| b | z | s | l | by']; try done.
    destruct by' as [|kv by']; [done |].
    pose proof (sum_from_raises (map snd (kv :: by')) 0) as Hsum.
    unfold Py.sum. destruct (Py.sum_from 0 _); cbn [mbind result_bind raises] in *; done.
  - pose proof (convert_items_raises d) as Hconv.
    destruct (mapM _ d) as [l|e] eqn:Hl; cbn [mbind result_bind raises] in *; [| done].
    rewrite <- Hconv.
    pose proof (sum_from_raises (map snd l) 0) as Hsum.
    rewrite (convert_items_numbers d l Hl) in Hsum.
    unfold Py.sum. destruct (Py.sum_from 0 _); cbn [mbind result_bind raises] in *; done.
Qed.

Lemma is_number_int_accepts (vs : list PyVal) :
  forallb is_number vs = true -> forallb int_accepts vs = true.
Proof.
  induction vs as [|v vs IH]; [done |]. cbn [forallb].
  intros [Hv Hvs]%andb_true_iff. rewrite (IH Hvs), andb_true_r. by destruct v.
Qed.

Lemma dict_get_number (d : list (string * PyVal)) (k : string) :
  forallb is_number (map snd d) = true ->
  is_number (default (PInt 0) (Py.dict_get d k)) = true.
Proof.
  induction d as [|[k' v] d IH]; [done |]. cbn [map forallb snd Py.dict_get].
  intros [Hv Hd]%andb_true_iff. destruct (String.eqb k' k); [done | by apply IH].
Qed.

Lemma normalize_safe_numbers (d : list (string * PyVal)) :
  forallb is_number (map snd d) = true -> normalize_safe (RValue (PDict d)) = true.
Proof.
  intros Hd. unfold normalize_safe.
  destruct (Py.dict_has d "total" || Py.dict_has d "by_reason");
    [| by apply is_number_int_accepts].
  destruct (_to_int _); [done |].
  pose proof (dict_get_number d "by_reason" Hd) as Hby.
  pose proof (dict_get_number d "reasons" Hd) as Hre.
  unfold Py.or_else.
  destruct (Py.dict_get d "by_reason") as [[]|], (Py.dict_get d "reasons") as [[]|];
    cbn in *; try done; repeat case_match; done.
Qed.

Lemma normalize_safe_breakdown (d by' : list (string * PyVal)) :
  Py.dict_get d "by_reason" = Some (PDict by') ->
  by' <> [] ->
  forallb is_number (map snd by') = true ->
  normalize_safe (RValue (PDict d)) = true.
Proof.
  intros Hget Hne Hby. unfold normalize_safe, Py.dict_has. rewrite Hget.
  rewrite orb_true_r. cbn [default]. unfold Py.or_else.
  destruct by' as [|kv by']; [done |]. cbn [Py.truthy].
  by destruct (_to_int _).
Qed.

(** The digits of a text are not touched by trimming. *)
Lemma space_not_digit (c : ascii) : Str.isspace c = true -> Py.digit_val c = None.
Proof. destruct c as [[] [] [] [] [] [] [] []]; by cbn. Qed.

Lemma digit_count_lstrip (p : ascii -> bool) (s : string) :
  (forall c, p c = true -> Py.digit_val c = None) ->
  Py.digit_count (Str.lstrip_by p s) = Py.digit_count s.
Proof.
  intros Hp. induction s as [|c s IH]; [done |]. cbn [Str.lstrip_by].
  destruct (p c) eqn:Hc; [| done]. cbn [Py.digit_count]. by rewrite (Hp c Hc).
Qed.

Lemma digit_count_rstrip (p : ascii -> bool) (s : string) :
  (forall c, p c = true -> Py.digit_val c = None) ->
  Py.digit_count (Str.rstrip_by p s) = Py.digit_count s.
Proof.
  intros Hp. induction s as [|c s IH]; [done |]. cbn [Str.rstrip_by].
  destruct (Str.rstrip_by p s) as [|d r] eqn:Hr.
  - destruct (p c) eqn:Hc; cbn [Py.digit_count] in *.
    + by rewrite (Hp c Hc).
    + by rewrite <- IH.
  - cbn [Py.digit_count] in *. by rewrite IH.
Qed.

Lemma digit_count_strip (s : string) :
  Py.digit_count (Str.strip s) = Py.digit_count s.
Proof.
  unfold Str.strip, Str.strip_by.
  by rewrite digit_count_rstrip, digit_count_lstrip by apply space_not_digit.
Qed.

(** A text with more digits than the limit allows is no integer. *)
Lemma int_of_str_long (s : string) :
  Py.int_max_str_digits < Z.of_nat (Py.digit_count s) -> Py.int_of_str s = None.
Proof. intros Hs. unfold Py.int_of_str. by apply Z.ltb_lt in Hs as ->. Qed.

Lemma to_int_long (s : string) :
  Py.int_max_str_digits < Z.of_nat (Py.digit_count s) -> _to_int (PStr s) = None.
Proof.
  intros Hs. cbn [_to_int Py.str]. apply int_of_str_long. by rewrite digit_count_strip.
Qed.

(** The structured form: the breakdown is the mapping under by_reason, or
    failing that under reasons, as it is; the total is the parsed total, or
    failing that the sum of a non-empty breakdown, and absent otherwise. *)
Lemma normalize_reasons_structured (d : list (string * PyVal)) (rc : ReasonCounts) :
  Py.dict_has d "total" || Py.dict_has d "by_reason" = true ->
  Loader.normalize_reasons (RValue (PDict d)) = Ok rc ->
  by_reason rc
  = match Py.or_else (default PNone (Py.dict_get d "by_reason"))
                     (default PNone (Py.dict_get d "reasons")) with
    | PDict b => Some b
    | _ => None
    end
  /\ match _to_int (default PNone (Py.dict_get d "total")), by_reason rc with
     | Some t, _ => total rc = PInt t
     | None, Some ((_ :: _) as b) => exists t, Py.sum (map snd b) = Ok t /\ total rc = PInt t
     | None, _ => total rc = PNone
     end.
Proof.
  intros Hs. unfold Loader.normalize_reasons. rewrite Hs.
  destruct (_to_int _) as [t|].
  - destruct (Py.or_else _ _) as [| b | z | s | l | b]; by intros [= <-].
  - destruct (Py.or_else _ _) as [| b | z | s | l | b]; try by intros [= <-].
    destruct b as [|x b]; [by intros [= <-] |].
    destruct (Py.sum _) as [t|e] eqn:Hsum; cbn [mbind result_bind]; [| done].
    intros [= <-]. split; [done |]. cbn [by_reason total]. by exists t.
Qed.

(** C5 (amended). [normalize_reasons] raises exactly on a mapping that, with
    neither a total nor a by_reason key, has a value [int] rejects, or that,
    in the structured form and with a missing or unparseable total, has a
    non-empty breakdown with a value that is not an integer.  It raises
    nothing for None, an integer, a string, a [ReasonCounts], a mapping
    whose values are all integers, or a structured mapping whose non-empty
    by_reason breakdown holds integers only.  A total that does not parse as
    an integer becomes an absent total: in the structured form the total
    returned is the parsed total, or failing that the sum of a non-empty
    breakdown, and None otherwise, so that a mapping with an unparseable
    total and no breakdown gives neither a total nor a breakdown; the
    breakdown returned is the mapping given, unchanged.  A text of more
    digits than the interpreter converts is unparseable like any other: as
    the argument it gives an absent total, as a count of a plain mapping a
    ValueError. *)
Theorem C5_normalize_reasons_raises_iff :
  (forall value, raises (Loader.normalize_reasons value) = negb (normalize_safe value))
  /\ Loader.normalize_reasons (RValue PNone) = Ok (mkReasonCounts PNone None)
  /\ (forall z, Loader.normalize_reasons (RValue (PInt z)) = Ok (mkReasonCounts (PInt z) None))
  /\ (forall s, Loader.normalize_reasons (RValue (PStr s))
                = Ok (mkReasonCounts (opt_int (Py.int_of_str (Str.strip s))) None))
  /\ (forall rc, exists r,
        Loader.normalize_reasons (RCounts rc) = Ok r
        /\ total r = opt_int (_to_int (total rc)))
  /\ (forall d, forallb is_number (map snd d) = true ->
                raises (Loader.normalize_reasons (RValue (PDict d))) = false)
  /\ (forall d by',
        Py.dict_get d "by_reason" = Some (PDict by') ->
        by' <> [] ->
        forallb is_number (map snd by') = true ->
        raises (Loader.normalize_reasons (RValue (PDict d))) = false)
  /\ (forall x, Py.int_of_str (Str.strip (Py.str x)) = None ->
                is_number x = false ->
                _to_int x = None)
  /\ (forall d rc,
        Py.dict_has d "total" || Py.dict_has d "by_reason" = true ->
        Loader.normalize_reasons (RValue (PDict d)) = Ok rc ->
        by_reason rc
        = match Py.or_else (default PNone (Py.dict_get d "by_reason"))
                           (default PNone (Py.dict_get d "reasons")) with
          | PDict b => Some b
          | _ => None
          end
        /\ match _to_int (default PNone (Py.dict_get d "total")), by_reason rc with
           | Some t, _ => total rc = PInt t
           | None, Some ((_ :: _) as b) =>
               exists t, Py.sum (map snd b) = Ok t /\ total rc = PInt t
           | None, _ => total rc = PNone
           end)
  /\ (forall d x,
        Py.dict_get d "total" = Some x ->
        _to_int x = None ->
        Py.dict_get d "by_reason" = None ->
        Py.dict_get d "reasons" = None ->
        Loader.normalize_reasons (RValue (PDict d)) = Ok (mkReasonCounts PNone None))
  /\ Loader.normalize_reasons (RValue (PDict [("total", PStr "n/a")]))
     = Ok (mkReasonCounts PNone None)
  /\ (forall s,
        Py.int_max_str_digits < Z.of_nat (Py.digit_count s) ->
        Loader.normalize_reasons (RValue (PStr s)) = Ok (mkReasonCounts PNone None)
        /\ Loader.normalize_reasons (RValue (PDict [("total", PStr s)]))
           = Ok (mkReasonCounts PNone None)
        /\ forall k, k <> "total" -> k <> "by_reason" ->
             Loader.normalize_reasons (RValue (PDict [(k, PStr s)])) = Raise ValueError).
Proof.
  split; [apply normalize_reasons_raises |].
  split; [reflexivity |]. split; [reflexivity |]. split; [reflexivity |].
  split; [intros rc; by eexists |].
  split; [intros d Hd; by rewrite normalize_reasons_raises, normalize_safe_numbers |].
  split.
  { intros d by' Hget Hne Hby.
    by rewrite normalize_reasons_raises, (normalize_safe_breakdown d by'). }
  split; [intros x Hx Hnum; by destruct x |].
  split; [apply normalize_reasons_structured |].
  split.
  { intros d x Htotal Hx Hby Hre. unfold Loader.normalize_reasons, Py.dict_has.
    rewrite Htotal, Hby, Hre. cbn [default from_option id orb].
    by rewrite Hx. }
  split; [reflexivity |].
  intros s Hs. pose proof (to_int_long s Hs) as Hto. cbn [_to_int Py.str] in Hto.
  split; [| split].
  - cbn [Loader.normalize_reasons _to_int Py.str opt_int]. by rewrite Hto.
  - unfold Loader.normalize_reasons, Py.dict_has.
    cbn [Py.dict_get String.eqb Ascii.eqb Bool.eqb orb default from_option id].
    cbn [_to_int Py.str]. by rewrite Hto.
  - intros k Hk1 Hk2. unfold Loader.normalize_reasons, Py.dict_has.
    cbn [Py.dict_get]. apply String.eqb_neq in Hk1, Hk2. rewrite Hk1, Hk2.
    cbn [orb mapM snd fst Py.int]. by rewrite (int_of_str_long s Hs).
Qed.

(** C5, counterexample to the statement over every mapping: the mapping of
    a to the text x is not a breakdown of integers and the call raises
    ValueError; a structured mapping whose by_reason breakdown holds the text
    x raises TypeError. *)
Lemma C5_counterexample_text_count :
  Loader.normalize_reasons (RValue (PDict [("a", PStr "x")])) = Raise ValueError
  /\ Loader.normalize_reasons (RValue (PDict [("by_reason", PDict [("a", PStr "x")])]))
     = Raise TypeError.
Proof. split; reflexivity. Qed.

Example normalize_reasons_breakdown :
  Loader.normalize_reasons (RValue (PDict [("a", PInt 2); ("b", PInt 3)]))
  = Ok (mkReasonCounts (PInt 5) (Some [("a", PInt 2); ("b", PInt 3)])).
Proof. reflexivity. Qed.


(** * Further properties *)

(** ** Trimming, cutting and joining *)

Lemma append_cons (c : ascii) (s t : string) : String c s ++ t = String c (s ++ t).
Proof. reflexivity. Qed.

Lemma append_nil (t : string) : EmptyString ++ t = t.
Proof. reflexivity. Qed.

Lemma rstrip_by_cons (p : ascii -> bool) (c : ascii) (s : string) :
  Str.rstrip_by p (String c s)
  = match Str.rstrip_by p s with
    | EmptyString => if p c then EmptyString else String c EmptyString
    | r => String c r
    end.
Proof. reflexivity. Qed.

Lemma rstrip_by_idem (p : ascii -> bool) (s : string) :
  Str.rstrip_by p (Str.rstrip_by p s) = Str.rstrip_by p s.
Proof.
  induction s as [|c s IH]; [done |]. rewrite rstrip_by_cons.
  destruct (Str.rstrip_by p s) as [|d r] eqn:Hr.
  - destruct (p c) eqn:Hc; [done |]. cbn. by rewrite Hc.
  - by rewrite rstrip_by_cons, IH.
Qed.

Lemma lstrip_by_head (p : ascii -> bool) (c : ascii) (s : string) :
  p c = false -> Str.lstrip_by p (String c s) = String c s.
Proof. intros Hc. cbn. by rewrite Hc. Qed.

Lemma lstrip_by_shape (p : ascii -> bool) (s : string) :
  Str.lstrip_by p s = EmptyString
  \/ exists c r, Str.lstrip_by p s = String c r /\ p c = false.
Proof.
  induction s as [|c s IH]; [by left |]. cbn.
  destruct (p c) eqn:Hc; [done |]. right. by exists c, s.
Qed.

Lemma rstrip_by_head (p : ascii -> bool) (c : ascii) (s : string) :
  p c = false -> exists r, Str.rstrip_by p (String c s) = String c r.
Proof.
  intros Hc. cbn. destruct (Str.rstrip_by p s); [| by eexists].
  rewrite Hc. by eexists.
Qed.

(** Stripping twice is stripping once. *)
Lemma strip_by_idem (p : ascii -> bool) (s : string) :
  Str.strip_by p (Str.strip_by p s) = Str.strip_by p s.
Proof.
  unfold Str.strip_by.
  destruct (lstrip_by_shape p s) as [-> | [c [r [-> Hc]]]]; [done |].
  destruct (rstrip_by_head p c r Hc) as [r' Hr']. rewrite Hr'.
  rewrite (lstrip_by_head p c r' Hc), <- Hr'. apply rstrip_by_idem.
Qed.

Lemma strip_trimmed (s : string) : trimmed (Str.strip s).
Proof. apply strip_by_idem. Qed.

Lemma rstrip_by_none (p : ascii -> bool) (s : string) :
  forall_chars (fun c => negb (p c)) s = true -> Str.rstrip_by p s = s.
Proof.
  induction s as [|c s IH]; [done |]. cbn [forall_chars].
  intros [Hc Hs]%andb_true_iff. rewrite rstrip_by_cons, (IH Hs).
  apply negb_true_iff in Hc. rewrite Hc. by destruct s.
Qed.

Lemma lstrip_by_none (p : ascii -> bool) (s : string) :
  forall_chars (fun c => negb (p c)) s = true -> Str.lstrip_by p s = s.
Proof.
  destruct s as [|c s]; [done |]. cbn [forall_chars].
  intros [Hc _]%andb_true_iff. apply negb_true_iff in Hc. by apply lstrip_by_head.
Qed.

Lemma strip_by_none (p : ascii -> bool) (s : string) :
  forall_chars (fun c => negb (p c)) s = true -> Str.strip_by p s = s.
Proof.
  intros H. unfold Str.strip_by. by rewrite lstrip_by_none, rstrip_by_none.
Qed.

Lemma forall_chars_app (q : ascii -> bool) (s t : string) :
  forall_chars q (s ++ t) = forall_chars q s && forall_chars q t.
Proof.
  induction s as [|c s IH]; [done |]. rewrite append_cons. cbn [forall_chars].
  by rewrite IH, andb_assoc.
Qed.

Lemma forall_chars_impl (q q' : ascii -> bool) (s : string) :
  (forall c, q c = true -> q' c = true) ->
  forall_chars q s = true -> forall_chars q' s = true.
Proof.
  intros Hq. induction s as [|c s IH]; [done |]. cbn.
  intros [Hc Hs]%andb_true_iff. by rewrite (Hq c Hc), IH.
Qed.

Lemma rstrip_by_snoc_in (p : ascii -> bool) (s : string) (c : ascii) :
  p c = true -> Str.rstrip_by p (s ++ String c EmptyString) = Str.rstrip_by p s.
Proof.
  intros Hc. induction s as [|d s IH].
  - rewrite append_nil, rstrip_by_cons. cbn. by rewrite Hc.
  - by rewrite append_cons, !rstrip_by_cons, IH.
Qed.

Lemma rstrip_by_snoc_out (p : ascii -> bool) (s : string) (c : ascii) :
  p c = false ->
  Str.rstrip_by p (s ++ String c EmptyString) = s ++ String c EmptyString.
Proof.
  intros Hc. induction s as [|d s IH].
  - rewrite append_nil, rstrip_by_cons. cbn. by rewrite Hc.
  - rewrite append_cons, rstrip_by_cons, IH. by destruct s.
Qed.

(** A text between two characters that are not stripped is left alone. *)
Lemma strip_by_wrapped_out (p : ascii -> bool) (a c : ascii) (s : string) :
  p a = false -> p c = false ->
  Str.strip_by p (String a (s ++ String c EmptyString)) = String a (s ++ String c EmptyString).
Proof.
  intros Ha Hc. unfold Str.strip_by. rewrite (lstrip_by_head p a _ Ha).
  change (String a (s ++ String c EmptyString))
    with ((String a s) ++ String c EmptyString).
  by apply rstrip_by_snoc_out.
Qed.

(** A text without stripped characters, put between two characters that are
    stripped, comes out as it was. *)
Lemma strip_by_wrapped_in (p : ascii -> bool) (a c : ascii) (s : string) :
  p a = true -> p c = true ->
  forall_chars (fun d => negb (p d)) s = true ->
  Str.strip_by p (String a (s ++ String c EmptyString)) = s.
Proof.
  intros Ha Hc Hs. unfold Str.strip_by. cbn [Str.lstrip_by]. rewrite Ha.
  destruct s as [|d s].
  - rewrite append_nil. cbn. by rewrite Hc.
  - cbn [forall_chars] in Hs. apply andb_true_iff in Hs as [Hd Hs'].
    apply negb_true_iff in Hd.
    change (String d s ++ String c EmptyString) with (String d (s ++ String c EmptyString)).
    rewrite (lstrip_by_head p d _ Hd).
    change (String d (s ++ String c EmptyString)) with (String d s ++ String c EmptyString).
    rewrite (rstrip_by_snoc_in p _ c Hc). apply rstrip_by_none.
    cbn. by rewrite Hd, Hs'.
Qed.

Lemma map_chars_id (s : string) : Str.map_chars (fun c => c) s = s.
Proof. induction s as [|c s IH]; [done |]. cbn. by rewrite IH. Qed.

Lemma map_chars_app (f : ascii -> ascii) (s t : string) :
  Str.map_chars f (s ++ t) = Str.map_chars f s ++ Str.map_chars f t.
Proof.
  induction s as [|c s IH]; [done |].
  rewrite append_cons. cbn [Str.map_chars]. by rewrite IH, append_cons.
Qed.

Section SplitJoin.
Variable f : ascii -> ascii.
Variables a b : ascii.
Hypothesis Hab : f a = b.

Lemma split_mapped_single (p : string) :
  plain_part f b p = true -> Str.split b (Str.map_chars f p) = [p].
Proof.
  unfold plain_part. induction p as [|c p IH]; [done |]. cbn [forall_chars Str.map_chars].
  intros [[Hf Hc]%andb_true_iff Hp]%andb_true_iff.
  apply Ascii.eqb_eq in Hf. apply negb_true_iff in Hc. rewrite Hf.
  cbn [Str.split]. by rewrite Hc, (IH Hp).
Qed.

Lemma split_mapped_app (p rest : string) :
  plain_part f b p = true ->
  Str.split b (Str.map_chars f (p ++ String a rest))
  = p :: Str.split b (Str.map_chars f rest).
Proof.
  unfold plain_part. induction p as [|c p IH]; cbn [forall_chars].
  - intros _. rewrite append_nil. cbn [Str.map_chars Str.split].
    by rewrite Hab, Ascii.eqb_refl.
  - intros [[Hf Hc]%andb_true_iff Hp]%andb_true_iff.
    apply Ascii.eqb_eq in Hf. apply negb_true_iff in Hc.
    rewrite append_cons. cbn [Str.map_chars]. rewrite Hf.
    cbn [Str.split]. by rewrite Hc, (IH Hp).
Qed.

(** Cutting a joined text gives the parts back. *)
Lemma split_mapped_join (parts : list string) :
  parts <> [] ->
  Forall (fun p => plain_part f b p = true) parts ->
  Str.split b (Str.map_chars f (Str.join (String a EmptyString) parts)) = parts.
Proof.
  induction parts as [|p parts IH]; [done |]. intros _ Hall.
  apply Forall_cons in Hall as [Hp Hparts].
  destruct parts as [|q parts].
  - cbn [Str.join]. by apply split_mapped_single.
  - change (Str.join (String a EmptyString) (p :: q :: parts))
      with (p ++ String a EmptyString ++ Str.join (String a EmptyString) (q :: parts)).
    rewrite append_cons, append_nil, (split_mapped_app p _ Hp). f_equal.
    by apply IH.
Qed.
End SplitJoin.

Lemma mem_char_lstrip (p : ascii -> bool) (c : ascii) (s : string) :
  Str.mem_char c s = false -> Str.mem_char c (Str.lstrip_by p s) = false.
Proof.
  induction s as [|d s IH]; [done |]. cbn [Str.lstrip_by].
  destruct (p d); [| done]. cbn [Str.mem_char].
  intros [_ Hs]%orb_false_iff. by apply IH.
Qed.

Lemma mem_char_rstrip (p : ascii -> bool) (c : ascii) (s : string) :
  Str.mem_char c s = false -> Str.mem_char c (Str.rstrip_by p s) = false.
Proof.
  induction s as [|d s IH]; [done |]. rewrite rstrip_by_cons. cbn [Str.mem_char].
  intros [Hd Hs]%orb_false_iff. specialize (IH Hs).
  destruct (Str.rstrip_by p s) as [|e r].
  - destruct (p d); [done |]. cbn. by rewrite Hd.
  - cbn [Str.mem_char] in *. by rewrite Hd, IH.
Qed.

Lemma mem_char_strip (p : ascii -> bool) (c : ascii) (s : string) :
  Str.mem_char c s = false -> Str.mem_char c (Str.strip_by p s) = false.
Proof. intros H. by apply mem_char_rstrip, mem_char_lstrip. Qed.

Lemma nonempty_true (s : string) : Str.nonempty s = true <-> s <> EmptyString.
Proof. by destruct s. Qed.

Lemma lacks_mem_char (c : ascii) (s : string) :
  lacks (String c EmptyString) s = true <-> Str.mem_char c s = false.
Proof.
  unfold lacks. induction s as [|d s IH]; [done |].
  cbn [forall_chars Str.mem_char]. rewrite orb_false_r, andb_true_iff, IH.
  rewrite negb_true_iff, orb_false_iff, (Ascii.eqb_sym c d). tauto.
Qed.

(** ** The origin field *)

(** X1. Every part [_split_origin] returns is non-empty and has no
    whitespace at either end, whatever the value; and the parts of a string
    value hold no semicolon. *)
Theorem X1_split_origin_parts_clean (value : PyVal) :
  Forall (fun p => p <> EmptyString /\ trimmed p) (Loader._split_origin value)
  /\ (forall s, value = PStr s ->
        Forall (fun p => Str.mem_char ";" p = false) (Loader._split_origin value)).
Proof.
  split.
  - unfold Loader._split_origin. destruct (Py.truthy value); cbn [negb]; [| constructor].
    destruct value as [| b | z | s | l | d]; try constructor.
    + apply List.Forall_forall. intros p [q [<- Hq]]%in_map_iff.
      apply list_elem_of_In, list_elem_of_filter in Hq as [Hq _].
      split; [by apply nonempty_true | apply strip_trimmed].
    + apply List.Forall_forall. intros p [q [<- Hq]]%in_map_iff.
      apply list_elem_of_In, list_elem_of_filter in Hq as [Hq _].
      split; [by apply nonempty_true | apply strip_trimmed].
  - intros s ->. rewrite split_origin_str.
    apply List.Forall_forall. intros p Hp.
    apply list_elem_of_In, list_elem_of_filter in Hp as [_ Hp].
    apply list_elem_of_In, in_map_iff in Hp as [q [<- Hq]].
    apply mem_char_strip.
    pose proof (split_no_sep ";" s) as Hall.
    rewrite List.Forall_forall in Hall. by apply Hall.
Qed.

(** X2. Writing origin parts with semicolons between them and reading the
    text back with [_split_origin] gives the parts again, when each part is
    non-empty, has no whitespace at either end and holds no semicolon. *)
Theorem X2_split_origin_of_join (parts : list string) :
  Forall (fun p => p <> EmptyString /\ trimmed p /\ Str.mem_char ";" p = false) parts ->
  Loader._split_origin (PStr (Str.join ";" parts)) = parts.
Proof.
  intros Hall. rewrite split_origin_str.
  destruct parts as [|p0 parts0] eqn:Hparts; [done |]. rewrite <- Hparts in *.
  assert (Hne : parts <> []) by (by subst).
  clear Hparts.
  rewrite <- (map_chars_id (Str.join ";" parts)).
  rewrite (split_mapped_join (fun c => c) ";" ";" eq_refl parts Hne).
  - clear Hne. induction parts as [|p parts IH]; [done |].
    inversion Hall as [|? ? [Hp [Htrim _]] Hrest]; subst.
    cbn [map]. rewrite filter_cons. unfold trimmed in Htrim. rewrite Htrim.
    rewrite decide_True by (by apply nonempty_true). f_equal. by apply IH.
  - eapply Forall_impl; [exact Hall |]. intros p [_ [_ Hp]].
    unfold plain_part. apply lacks_mem_char in Hp. unfold lacks in Hp.
    eapply forall_chars_impl; [| exact Hp].
    intros c Hc. rewrite Ascii.eqb_refl. cbn [andb].
    apply negb_true_iff in Hc. cbn in Hc. by rewrite orb_false_r in Hc; rewrite Hc.
Qed.

Lemma X2_split_origin_of_join_witness :
  Forall (fun p => p <> EmptyString /\ trimmed p /\ Str.mem_char ";" p = false)
         ["src.bib/001"; "b c"]
  /\ Loader._split_origin (PStr (Str.join ";" ["src.bib/001"; "b c"]))
     = ["src.bib/001"; "b c"].
Proof.
  assert (H : Forall (fun p => p <> EmptyString /\ trimmed p /\ Str.mem_char ";" p = false)
                ["src.bib/001"; "b c"]).
  { repeat apply List.Forall_cons; try apply List.Forall_nil;
      (split; [discriminate | split; [vm_compute; reflexivity | reflexivity]]). }
  split; [exact H | exact (X2_split_origin_of_join _ H)].
Defined.

(** ** The status field *)

(** X3. [get_status] returns text without whitespace at either end: that of
    the first of colrev_status, status and screening_status whose value is
    truthy, the later keys not being read; and a record none of whose three
    fields is truthy has the empty status and falls in the bucket other. *)
Theorem X3_get_status_first_truthy (rec : record) :
  trimmed (get_status rec)
  /\ (Py.truthy (get rec "colrev_status") = true ->
      get_status rec = Str.strip (Py.str (get rec "colrev_status")))
  /\ (Py.truthy (get rec "colrev_status") = false ->
      Py.truthy (get rec "status") = true ->
      get_status rec = Str.strip (Py.str (get rec "status")))
  /\ (Py.truthy (get rec "colrev_status") = false ->
      Py.truthy (get rec "status") = false ->
      Py.truthy (get rec "screening_status") = true ->
      get_status rec = Str.strip (Py.str (get rec "screening_status")))
  /\ (Py.truthy (get rec "colrev_status") = false ->
      Py.truthy (get rec "status") = false ->
      Py.truthy (get rec "screening_status") = false ->
      get_status rec = EmptyString /\ bucket_of rec = "other").
Proof.
  unfold bucket_of, get_status, status_keys. cbn [first_status].
  destruct (Py.truthy (get rec "colrev_status")),
           (Py.truthy (get rec "status")),
           (Py.truthy (get rec "screening_status"));
    repeat split; try done; try apply strip_trimmed.
Qed.

(** ** Further properties of the origin statistics *)

Section OriginBounds.
Variables origin_field record_id_prefix_exclude : string.

Lemma origin_entries_nonneg (recs : records) :
  0 <= origin_entries origin_field record_id_prefix_exclude recs.
Proof.
  induction recs as [|item recs IH]; [done |].
  rewrite origin_entries_cons. destruct (kept_item _ item); lia.
Qed.

Lemma kept_count_nonneg (recs : records) : 0 <= kept_count record_id_prefix_exclude recs.
Proof. unfold kept_count. lia. Qed.

Lemma has_origin_counts (recs : records) :
  existsb (has_origin origin_field record_id_prefix_exclude) recs = true ->
  1 <= origin_entries origin_field record_id_prefix_exclude recs
  /\ 1 <= kept_count record_id_prefix_exclude recs.
Proof.
  induction recs as [|item recs IH]; [done |]. cbn [existsb].
  rewrite origin_entries_cons, kept_count_cons.
  pose proof (origin_entries_nonneg recs). pose proof (kept_count_nonneg recs).
  intros [Hitem | Hrecs]%orb_true_iff.
  - unfold has_origin in Hitem. apply andb_true_iff in Hitem as [Hkept Hparts].
    rewrite Hkept. destruct (origin_parts origin_field item); [done |].
    cbn [length]. lia.
  - specialize (IH Hrecs). destruct (kept_item _ item); lia.
Qed.

Lemma origin_entries_ge_kept (recs : records) :
  Forall (fun item => Str.startswith record_id_prefix_exclude item.1 = false ->
                      Loader._split_origin (get item.2 origin_field) <> []) recs ->
  kept_count record_id_prefix_exclude recs
  <= origin_entries origin_field record_id_prefix_exclude recs.
Proof.
  induction 1 as [|item recs Hitem _ IH]; [done |].
  rewrite origin_entries_cons, kept_count_cons. unfold kept_item, origin_parts in *.
  destruct (Str.startswith record_id_prefix_exclude item.1); cbn [negb]; [lia |].
  specialize (Hitem eq_refl).
  destruct (Loader._split_origin (get item.2 origin_field)); [done |]. cbn [length]. lia.
Qed.

Lemma origin_entries_filter (recs : records) :
  origin_entries origin_field record_id_prefix_exclude
    (filter (fun item => Str.startswith record_id_prefix_exclude item.1 = false) recs)
  = origin_entries origin_field record_id_prefix_exclude recs.
Proof.
  induction recs as [|item recs IH]; [done |].
  rewrite filter_cons, origin_entries_cons. unfold kept_item at 1.
  destruct (Str.startswith record_id_prefix_exclude item.1) eqn:Hp.
  - rewrite decide_False by done. cbn [negb]. lia.
  - rewrite decide_True by done. rewrite origin_entries_cons. unfold kept_item at 1.
    rewrite Hp. cbn [negb]. by rewrite IH.
Qed.

Lemma kept_count_filter (recs : records) :
  kept_count record_id_prefix_exclude
    (filter (fun item => Str.startswith record_id_prefix_exclude item.1 = false) recs)
  = kept_count record_id_prefix_exclude recs.
Proof.
  induction recs as [|item recs IH]; [done |].
  rewrite filter_cons, kept_count_cons. unfold kept_item at 1.
  destruct (Str.startswith record_id_prefix_exclude item.1) eqn:Hp.
  - rewrite decide_False by done. cbn [negb]. lia.
  - rewrite decide_True by done. rewrite kept_count_cons. unfold kept_item at 1.
    rewrite Hp. cbn [negb]. by rewrite IH.
Qed.

Lemma has_origin_filter (recs : records) :
  existsb (has_origin origin_field record_id_prefix_exclude)
    (filter (fun item => Str.startswith record_id_prefix_exclude item.1 = false) recs)
  = existsb (has_origin origin_field record_id_prefix_exclude) recs.
Proof.
  induction recs as [|item recs IH]; [done |].
  rewrite filter_cons. cbn [existsb]. unfold has_origin at 2, kept_item.
  destruct (Str.startswith record_id_prefix_exclude item.1) eqn:Hp.
  - rewrite decide_False by done. by cbn.
  - rewrite decide_True by done. cbn [existsb]. unfold has_origin at 1, kept_item.
    rewrite Hp. by rewrite IH.
Qed.
End OriginBounds.

(** X4. When [compute_origin_stats] returns numbers, the total is at least
    1 and the duplicates removed are between 0 and the total minus 1; the
    two results are never a number beside None.  When every record whose
    identifier does not start with the exclusion prefix has an origin part,
    the duplicates removed are the total minus the number of those records,
    the floor at zero playing no role. *)
Theorem X4_origin_stats_bounds (origin_field prefix : string) (recs : records) :
  match Loader.compute_origin_stats_with origin_field prefix recs with
  | (Some n, Some d) =>
      1 <= n /\ 0 <= d <= n - 1
      /\ (Forall (fun item => Str.startswith prefix item.1 = false ->
                              Loader._split_origin (get item.2 origin_field) <> []) recs ->
          d = n - kept_count prefix recs)
  | (None, None) => True
  | _ => False
  end.
Proof.
  rewrite compute_origin_stats_closed.
  destruct (existsb (has_origin origin_field prefix) recs) eqn:Hany; [| done].
  destruct (has_origin_counts origin_field prefix recs Hany) as [Hn Hk].
  split; [done |]. split; [lia |].
  intros Hall. pose proof (origin_entries_ge_kept origin_field prefix recs Hall). lia.
Qed.

(** X5. Records whose identifier starts with the exclusion prefix never
    change the origin statistics: [compute_origin_stats] gives the same
    result on a collection and on the collection without those records. *)
Theorem X5_origin_stats_ignore_prefixed (origin_field prefix : string) (recs : records) :
  Loader.compute_origin_stats_with origin_field prefix
    (filter (fun item => Str.startswith prefix item.1 = false) recs)
  = Loader.compute_origin_stats_with origin_field prefix recs.
Proof.
  rewrite !compute_origin_stats_closed.
  by rewrite has_origin_filter, origin_entries_filter, kept_count_filter.
Qed.

(** ** Further properties of the aggregator *)

(** Every record is in exactly one of the eight buckets. *)
Lemma count_bucket_total (recs : records) :
  count_bucket "screened" recs + count_bucket "prescreen_excluded" recs
  + count_bucket "fulltext_excluded" recs + count_bucket "pdf_not_retrieved" recs
  + count_bucket "pdf_retrieved" recs + count_bucket "included" recs
  + count_bucket "duplicate" recs + count_bucket "other" recs
  = Z.of_nat (length recs).
Proof.
  induction recs as [|item recs IH]; [done |].
  rewrite !count_bucket_cons. cbn [length]. rewrite Nat2Z.inj_succ, <- IH.
  pose proof (bucket_of_in_tags item.2) as Hb. unfold bucket_tags in Hb. simpl in Hb.
  repeat (destruct Hb as [<- | Hb]; [repeat case_decide; try done; lia |]). done.
Qed.

(** X6. The counts [records_to_status] returns form a funnel: included is
    at most assessed, assessed plus not_retrieved is at most reports_sought,
    reports_sought plus records_excluded is screened, none is negative, and
    screened together with the records of the buckets fulltext_excluded,
    duplicate and other is the number of records. *)
Theorem X6_status_counts_funnel (recs : records) :
  exists st s e rs nr a i,
    Loader.records_to_status recs = Ok st
    /\ screened st = Some s /\ records_excluded st = Some e
    /\ reports_sought st = Some rs /\ not_retrieved st = Some nr
    /\ assessed st = Some a /\ included st = Some i
    /\ 0 <= i <= a /\ 0 <= nr /\ a + nr <= rs /\ 0 <= e /\ rs + e = s
    /\ s + count_bucket "fulltext_excluded" recs + count_bucket "duplicate" recs
         + count_bucket "other" recs
       = Z.of_nat (length recs).
Proof.
  unfold Loader.records_to_status. rewrite records_to_status_closed.
  eexists _, _, _, _, _, _, _. split; [reflexivity |].
  cbn [screened records_excluded reports_sought not_retrieved assessed included].
  repeat (split; [reflexivity |]).
  pose proof (count_bucket_total recs).
  pose proof (count_bucket_nonneg "screened" recs).
  pose proof (count_bucket_nonneg "prescreen_excluded" recs).
  pose proof (count_bucket_nonneg "pdf_not_retrieved" recs).
  pose proof (count_bucket_nonneg "pdf_retrieved" recs).
  pose proof (count_bucket_nonneg "included" recs).
  lia.
Qed.

Lemma count_bucket_app (tag : string) (recs1 recs2 : records) :
  count_bucket tag (recs1 ++ recs2)%list = count_bucket tag recs1 + count_bucket tag recs2.
Proof.
  unfold count_bucket. rewrite map_app, filter_app, length_app. lia.
Qed.

Lemma add_items_empty_r (p : gmap string Z) : add_items p ∅ = p.
Proof.
  apply map_eq. intros k. rewrite add_items_lookup, lookup_empty.
  destruct (p !! k); simpl; [f_equal; lia | done].
Qed.

Lemma add_items_merge (p q t : gmap string Z) :
  add_items (add_items p (add_items q ∅)) t = add_items p (add_items q t).
Proof.
  apply map_eq. intros k. rewrite !add_items_lookup, lookup_empty.
  destruct (p !! k), (q !! k), (t !! k); simpl; try done; f_equal; lia.
Qed.

Section TallyParts.
Variables exclusion_reason_key screening_criteria_key : string.

(** The tally a loop ends with is the tally of its records added to the
    tally it started from. *)
Lemma reason_tally_from (recs : list record) (t : gmap string Z) :
  reason_tally exclusion_reason_key screening_criteria_key recs t
  = add_items (reason_tally exclusion_reason_key screening_criteria_key recs ∅) t.
Proof.
  rewrite !reason_tally_steps. revert t.
  induction recs as [|rec recs IH]; intros t; [by rewrite add_items_empty |].
  cbn [fold_left]. rewrite (IH (tally_step _ _ t rec)), (IH (tally_step _ _ ∅ rec)).
  unfold tally_step. destruct (String.eqb (bucket_of rec) "fulltext_excluded").
  - by rewrite add_items_merge.
  - by rewrite add_items_empty_r.
Qed.

Lemma reason_tally_app (recs1 recs2 : list record) :
  reason_tally exclusion_reason_key screening_criteria_key (recs1 ++ recs2)%list ∅
  = add_items (reason_tally exclusion_reason_key screening_criteria_key recs2 ∅)
              (reason_tally exclusion_reason_key screening_criteria_key recs1 ∅).
Proof.
  unfold reason_tally at 1. rewrite fold_left_app.
  fold (reason_tally exclusion_reason_key screening_criteria_key recs1 ∅).
  apply reason_tally_from.
Qed.
End TallyParts.

(** X7. [records_to_status] can be computed by parts: on two collections
    put one after the other, each stage count is the sum of the counts of
    the two parts, and the reason tally is the tally of the first part with
    the counts of the second added, reason by reason. *)
Theorem X7_status_of_concatenation (recs1 recs2 : records) :
  exists st1 st2 st,
    Loader.records_to_status recs1 = Ok st1
    /\ Loader.records_to_status recs2 = Ok st2
    /\ Loader.records_to_status (recs1 ++ recs2)%list = Ok st
    /\ screened st = add_opt (screened st1) (screened st2)
    /\ records_excluded st = add_opt (records_excluded st1) (records_excluded st2)
    /\ reports_sought st = add_opt (reports_sought st1) (reports_sought st2)
    /\ not_retrieved st = add_opt (not_retrieved st1) (not_retrieved st2)
    /\ assessed st = add_opt (assessed st1) (assessed st2)
    /\ included st = add_opt (included st1) (included st2)
    /\ new_reports st = add_opt (new_reports st1) (new_reports st2)
    /\ tally_of st = add_items (tally_of st2) (tally_of st1).
Proof.
  unfold Loader.records_to_status. rewrite !records_to_status_closed.
  eexists _, _, _. do 3 (split; [reflexivity |]).
  unfold tally_of.
  cbn [screened records_excluded reports_sought not_retrieved assessed included
       new_reports reports_excluded add_opt].
  rewrite !default_or_none, map_app, reason_tally_app, !count_bucket_app.
  repeat split; f_equal; lia.
Qed.

Lemma add_items_is_empty (p t : gmap string Z) :
  add_items p t = ∅ <-> p = ∅ /\ t = ∅.
Proof.
  split.
  - intros H. assert (Hk : forall k, p !! k = None /\ t !! k = None).
    { intros k. pose proof (add_items_lookup p t k) as Hl.
      rewrite H, lookup_empty in Hl. by destruct (p !! k). }
    split; apply map_eq; intros k; rewrite lookup_empty; apply Hk.
  - intros [-> ->]. apply add_items_empty.
Qed.

Lemma add_items_nonneg (p t : gmap string Z) :
  map_Forall (fun _ v => 0 <= v) p -> map_Forall (fun _ v => 0 <= v) t ->
  map_Forall (fun _ v => 0 <= v) (add_items p t).
Proof.
  intros Hp Ht k v. rewrite add_items_lookup.
  destruct (p !! k) as [x|] eqn:Hpk; [| by apply Ht].
  intros [= <-]. specialize (Hp k x Hpk). cbn in Hp.
  destruct (t !! k) as [y|] eqn:Htk; simpl; [| lia].
  specialize (Ht k y Htk). cbn in Ht. lia.
Qed.

Section TallyShape.
Variables exclusion_reason_key screening_criteria_key : string.

Lemma record_reasons_nonneg (rec : record) :
  map_Forall (fun _ v => 0 <= v)
    (record_reasons exclusion_reason_key screening_criteria_key rec).
Proof.
  unfold record_reasons. case_decide.
  - destruct (Str.nonempty _); [| apply map_Forall_empty].
    apply map_Forall_singleton. lia.
  - intros k v Hk.
    destruct (parse_screening_criteria_flags _ k v Hk) as [-> | ->]; lia.
Qed.

Lemma record_reasons_is_empty (rec : record) :
  record_reasons exclusion_reason_key screening_criteria_key rec = ∅
  <-> Loader.parse_screening_criteria (get rec screening_criteria_key) = ∅
      /\ Str.strip (Py.str (get_or rec exclusion_reason_key (PStr ""))) = EmptyString.
Proof.
  unfold record_reasons. case_decide as Hp.
  - destruct (Str.strip _) as [|c r]; cbn [Str.nonempty].
    + tauto.
    + split; [| by intros [_ ?]]. intros H. exfalso.
      by apply (insert_non_empty (M := gmap string) ∅ (String c r) 1).
  - tauto.
Qed.

Lemma tally_steps_nonneg (recs : list record) (t : gmap string Z) :
  map_Forall (fun _ v => 0 <= v) t ->
  map_Forall (fun _ v => 0 <= v)
    (fold_left (tally_step exclusion_reason_key screening_criteria_key) recs t).
Proof.
  revert t. induction recs as [|rec recs IH]; intros t Ht; [done |].
  cbn [fold_left]. apply IH. unfold tally_step.
  destruct (String.eqb _ _); [| done].
  by apply add_items_nonneg; [apply record_reasons_nonneg |].
Qed.

Lemma tally_steps_is_empty (recs : list record) (t : gmap string Z) :
  fold_left (tally_step exclusion_reason_key screening_criteria_key) recs t = ∅
  <-> t = ∅
      /\ Forall (fun rec => bucket_of rec = "fulltext_excluded" ->
                   record_reasons exclusion_reason_key screening_criteria_key rec = ∅)
                recs.
Proof.
  revert t. induction recs as [|rec recs IH]; intros t.
  - cbn. split; [by intros -> | by intros [-> _]].
  - cbn [fold_left]. rewrite IH, Forall_cons. unfold tally_step.
    destruct (String.eqb_spec (bucket_of rec) "fulltext_excluded") as [Hb | Hb].
    + rewrite add_items_is_empty. tauto.
    + tauto.
Qed.
End TallyShape.

(** X8. The reasons [records_to_status] returns are never an empty mapping
    (None stands for it) and hold no negative count.  They are None exactly
    when no record of the bucket fulltext_excluded has a parsed criterion or
    a non-empty fallback reason; a record whose criteria are all flagged in
    does make them a mapping, with zero counts. *)
Theorem X8_reasons_none_or_nonempty (recs : records) :
  exists st,
    Loader.records_to_status recs = Ok st
    /\ reports_excluded st <> Some ∅
    /\ map_Forall (fun _ v => 0 <= v) (tally_of st)
    /\ (reports_excluded st = None
        <-> Forall
              (fun item =>
                 bucket_of item.2 = "fulltext_excluded" ->
                 Loader.parse_screening_criteria (get item.2 "screening_criteria") = ∅
                 /\ Str.strip (Py.str (get_or item.2 "exclusion_reason" (PStr "")))
                    = EmptyString)
              recs).
Proof.
  unfold Loader.records_to_status. rewrite records_to_status_closed.
  eexists. split; [reflexivity |]. unfold tally_of. cbn [reports_excluded].
  rewrite default_or_none, reason_tally_steps.
  split; [| split].
  - unfold or_none. by case_decide; [| intros [= ?]].
  - apply tally_steps_nonneg, map_Forall_empty.
  - unfold or_none. case_decide as He.
    + split; [intros _ | done].
      apply tally_steps_is_empty in He as [_ He].
      apply Forall_fmap in He. eapply Forall_impl; [exact He |].
      intros item Hitem Hb. by apply record_reasons_is_empty, Hitem.
    + split; [done |]. intros Hall. exfalso. apply He.
      apply tally_steps_is_empty. split; [done |].
      apply Forall_fmap. eapply Forall_impl; [exact Hall |].
      intros item Hitem Hb. by apply record_reasons_is_empty, Hitem.
Qed.

Lemma get_status_same (a b : record) :
  same_for_status a b -> get_status a = get_status b.
Proof.
  intros (H1 & H2 & H3 & _). unfold get_status, status_keys. cbn [first_status].
  by rewrite H1, H2, H3.
Qed.

Lemma status_step_same (st : gmap string Z * gmap string Z) (a b : record) :
  same_for_status a b ->
  Loader.status_step "exclusion_reason" "screening_criteria" st a
  = Loader.status_step "exclusion_reason" "screening_criteria" st b.
Proof.
  intros Hab. pose proof (get_status_same a b Hab) as Hs.
  destruct Hab as (_ & _ & _ & _ & Hc & Hr). destruct st as [bs t].
  unfold Loader.status_step, Loader.tally_record. rewrite Hs, <- Hc.
  destruct (incr_item bs _); cbn [mbind result_bind]; [| done].
  destruct (String.eqb _ _); [| done].
  case_decide as Hp; [| done]. by rewrite (Hr Hp).
Qed.

Lemma status_loop_same (recs recs' : records) :
  Forall2 (fun x y => x.1 = y.1 /\ same_for_status x.2 y.2) recs recs' ->
  forall st,
    Loader.status_loop "exclusion_reason" "screening_criteria" (map snd recs) st
    = Loader.status_loop "exclusion_reason" "screening_criteria" (map snd recs') st.
Proof.
  induction 1 as [|x y l l' [_ Hxy] _ IH]; intros st; [done |].
  cbn [map Loader.status_loop]. rewrite (status_step_same st _ _ Hxy).
  destruct (Loader.status_step _ _ st y.2); cbn [mbind result_bind]; [apply IH | done].
Qed.

Lemma origin_fold_same (recs recs' : records) :
  Forall2 (fun x y => x.1 = y.1 /\ same_for_status x.2 y.2) recs recs' ->
  forall acc,
    fold_left (Loader.origin_step "colrev_origin" "md_") recs acc
    = fold_left (Loader.origin_step "colrev_origin" "md_") recs' acc.
Proof.
  induction 1 as [|[xi x] [yi y] l l' [Hid Hxy] _ IH]; intros acc; [done |].
  cbn [fold_left]. rewrite <- IH. f_equal. cbn in Hid. subst yi.
  destruct Hxy as (_ & _ & _ & Ho & _). cbn [snd] in Ho.
  unfold Loader.origin_step. by rewrite Ho.
Qed.

(** X9. [records_to_status] reads a record through six fields only, and
    the fallback reason only when the criteria parse to nothing: two
    collections with the same identifiers in the same order, whose records
    agree on the three status fields, the origin and the screening
    criteria, and on the exclusion reason wherever the criteria have no
    parsed entry, get equal results. *)
Theorem X9_status_reads_six_fields (recs recs' : records) :
  Forall2 (fun x y => x.1 = y.1 /\ same_for_status x.2 y.2) recs recs' ->
  Loader.records_to_status recs = Loader.records_to_status recs'.
Proof.
  intros H. unfold Loader.records_to_status, Loader.records_to_status_with.
  rewrite (status_loop_same _ _ H).
  unfold Loader.compute_origin_stats, Loader.compute_origin_stats_with.
  by rewrite (origin_fold_same _ _ H).
Qed.

Lemma X9_status_reads_six_fields_witness :
  Forall2 (fun x y => x.1 = y.1 /\ same_for_status x.2 y.2)
          excluded_with_criteria excluded_with_criteria'
  /\ Loader.records_to_status excluded_with_criteria
     = Loader.records_to_status excluded_with_criteria'.
Proof.
  assert (H : Forall2 (fun x y => x.1 = y.1 /\ same_for_status x.2 y.2)
                excluded_with_criteria excluded_with_criteria').
  { apply List.Forall2_cons; [| apply List.Forall2_nil]. split; [reflexivity |].
    repeat split; try reflexivity.
    intros Hp. apply (f_equal (fun m => m !! "bias")) in Hp.
    vm_compute in Hp. discriminate Hp. }
  split; [exact H | exact (X9_status_reads_six_fields _ _ H)].
Defined.

(** ** The aggregator's reasons in the reason normalizer *)

Lemma list_total_perm (items items' : list (string * Z)) :
  Permutation items items' -> list_total items = list_total items'.
Proof.
  unfold list_total.
  induction 1 as [| x l l' _ IH | x y l | l l' l'' _ IH1 _ IH2]; simpl; lia.
Qed.

Lemma list_total_cons (kv : string * Z) (items : list (string * Z)) :
  list_total (kv :: items) = list_total items + kv.2.
Proof. reflexivity. Qed.

Lemma tally_total_list (t : gmap string Z) : tally_total t = list_total (map_to_list t).
Proof.
  unfold tally_total, list_total. rewrite map_fold_foldr.
  induction (map_to_list t) as [|[k v] l IH]; [done |]. simpl. by rewrite IH.
Qed.

Lemma sum_tally_dict (items : list (string * Z)) (acc : Z) :
  Py.sum_from acc (map snd (tally_dict items)) = Ok (acc + list_total items).
Proof.
  revert acc. induction items as [|[k v] items IH]; intros acc.
  - cbn. f_equal. lia.
  - cbn [tally_dict map snd Py.sum_from]. unfold tally_dict in IH. rewrite IH.
    f_equal. rewrite list_total_cons. cbn [snd]. lia.
Qed.

Lemma convert_tally_dict (items : list (string * Z)) :
  mapM (fun kv : string * PyVal => z ← Py.int kv.2; Ok (kv.1, PInt z)) (tally_dict items)
  = Ok (tally_dict items).
Proof.
  induction items as [|[k v] items IH]; [done |].
  cbn [tally_dict map mapM]. unfold tally_dict in IH. rewrite IH. reflexivity.
Qed.

Lemma dict_get_tally_dict (t : gmap string Z) (items : list (string * Z)) (k : string) :
  Permutation items (map_to_list t) ->
  Py.dict_get (tally_dict items) k = PInt <$> (t !! k).
Proof.
  intros Hperm.
  assert (Hnodup : NoDup (map fst items)).
  { rewrite (Permutation_map fst Hperm). apply NoDup_fst_map_to_list. }
  assert (Hin : forall v, (k, v) ∈ items <-> t !! k = Some v).
  { intros v. rewrite Hperm. apply elem_of_map_to_list. }
  clear Hperm. revert Hnodup Hin. generalize (t !! k). clear t.
  induction items as [|[k' v'] items IH]; intros o Hnodup Hin.
  - destruct o as [v|]; [| done]. exfalso.
    pose proof (proj2 (Hin v) eq_refl) as H. by apply elem_of_nil in H.
  - cbn [tally_dict map Py.dict_get fst snd]. cbn [map fst] in Hnodup.
    apply NoDup_cons in Hnodup as [Hk' Hnodup].
    destruct (String.eqb_spec k' k) as [-> | Hne].
    + assert (Some v' = o) as <-; [| done].
      pose proof (proj1 (Hin v') (list_elem_of_here _ _)) as Hv. by rewrite Hv.
    + apply (IH o Hnodup). intros v. rewrite <- Hin, elem_of_cons.
      split; [by right | intros [[= ? ?] | ?]; done].
Qed.

Lemma normalize_tally_dict (t : gmap string Z) (items : list (string * Z)) :
  Permutation items (map_to_list t) ->
  match t !! "total", t !! "by_reason" with
  | Some n, _ =>
      Loader.normalize_reasons (RValue (PDict (tally_dict items)))
      = Ok (mkReasonCounts (PInt n) None)
  | None, Some _ =>
      Loader.normalize_reasons (RValue (PDict (tally_dict items)))
      = Ok (mkReasonCounts PNone None)
  | None, None =>
      Loader.normalize_reasons (RValue (PDict (tally_dict items)))
      = Ok (mkReasonCounts (PInt (tally_total t)) (Some (tally_dict items)))
  end.
Proof.
  intros Hperm. unfold Loader.normalize_reasons, Py.dict_has, Py.or_else.
  rewrite !(dict_get_tally_dict t items _ Hperm).
  destruct (t !! "total") as [n|]; simpl.
  - destruct (t !! "by_reason") as [m|], (t !! "reasons") as [r|]; simpl;
      repeat case_match; done.
  - destruct (t !! "by_reason") as [m|]; simpl.
    + destruct (t !! "reasons") as [r|]; simpl; repeat case_match; done.
    + rewrite convert_tally_dict. cbn [mbind result_bind]. unfold Py.sum.
      rewrite sum_tally_dict. cbn [mbind result_bind].
      by rewrite tally_total_list, (list_total_perm _ _ Hperm), Z.add_0_l.
Qed.

(** X10. The reasons of [records_to_status], handed to [normalize_reasons]
    as the plotter does, raise nothing.  When no reason is named total or
    by_reason, the normalized total is the sum of the tally and the
    breakdown is the tally.  A reason named total turns the mapping into the
    structured form: the total is that reason's count and the breakdown is
    dropped; a reason named by_reason, without one named total, leaves
    neither a total nor a breakdown. *)
Theorem X10_reasons_through_normalizer (recs : records) :
  exists st,
    Loader.records_to_status recs = Ok st
    /\ forall items,
         Permutation items (map_to_list (tally_of st)) ->
         match tally_of st !! "total", tally_of st !! "by_reason" with
         | Some n, _ =>
             Loader.normalize_reasons (RValue (PDict (tally_dict items)))
             = Ok (mkReasonCounts (PInt n) None)
         | None, Some _ =>
             Loader.normalize_reasons (RValue (PDict (tally_dict items)))
             = Ok (mkReasonCounts PNone None)
         | None, None =>
             Loader.normalize_reasons (RValue (PDict (tally_dict items)))
             = Ok (mkReasonCounts (PInt (tally_total (tally_of st)))
                     (Some (tally_dict items)))
         end.
Proof.
  unfold Loader.records_to_status. rewrite records_to_status_closed.
  eexists. split; [reflexivity |]. intros items. apply normalize_tally_dict.
Qed.

Lemma X10_reasons_through_normalizer_witness :
  exists st,
    Loader.records_to_status one_reason_each = Ok st
    /\ Permutation (map_to_list (tally_of st)) (map_to_list (tally_of st))
    /\ Loader.normalize_reasons (RValue (PDict (tally_dict (map_to_list (tally_of st)))))
       = Ok (mkReasonCounts (PInt 2) (Some (tally_dict (map_to_list (tally_of st))))).
Proof.
  destruct (X10_reasons_through_normalizer one_reason_each) as [st [Hst H]].
  exists st. split; [exact Hst |]. split; [reflexivity |].
  specialize (H (map_to_list (tally_of st)) (Permutation_refl _)).
  vm_compute in Hst. injection Hst as <-. exact H.
Defined.

(** ** The reasons box *)

Lemma string_compare_refl (s : string) : String.compare s s = Eq.
Proof.
  induction s as [|c s IH]; [done |]. cbn [String.compare].
  unfold Ascii.compare. by rewrite N.compare_refl.
Qed.

Lemma string_compare_lt_trans (a b c : string) :
  String.compare a b = Lt -> String.compare b c = Lt -> String.compare a c = Lt.
Proof.
  revert b c. induction a as [|x a IH]; intros [|y b] [|z c]; cbn [String.compare];
    try done.
  unfold Ascii.compare.
  destruct (N.compare_spec (N_of_ascii x) (N_of_ascii y)) as [Hxy | Hxy | Hxy];
    destruct (N.compare_spec (N_of_ascii y) (N_of_ascii z)) as [Hyz | Hyz | Hyz];
    destruct (N.compare_spec (N_of_ascii x) (N_of_ascii z)) as [Hxz | Hxz | Hxz];
    try done; try lia.
  apply IH.
Qed.

Lemma string_ltb_irrefl (s : string) : String.ltb s s = false.
Proof. unfold String.ltb. by rewrite string_compare_refl. Qed.

Lemma string_ltb_asym (a b : string) : String.ltb a b = true -> String.ltb b a = false.
Proof.
  unfold String.ltb. rewrite (String.compare_antisym b a).
  by destruct (String.compare a b).
Qed.

Lemma string_ltb_trans (a b c : string) :
  String.ltb a b = true -> String.ltb b c = true -> String.ltb a c = true.
Proof.
  unfold String.ltb. intros Hab Hbc.
  rewrite (string_compare_lt_trans a b c); [done | |].
  - by destruct (String.compare a b).
  - by destruct (String.compare b c).
Qed.

Lemma string_ltb_total (a b : string) :
  a <> b -> String.ltb a b = true \/ String.ltb b a = true.
Proof.
  intros Hne. unfold String.ltb. rewrite (String.compare_antisym b a).
  destruct (String.compare a b) eqn:Hc; cbn; auto.
  by apply String.compare_eq_iff in Hc.
Qed.

Lemma key_lt_asym (a b : Z * string) :
  Plotter.key_lt a b = true -> Plotter.key_lt b a = false.
Proof.
  unfold Plotter.key_lt. intros [H | [H1 H2]%andb_true_iff]%orb_true_iff.
  - apply orb_false_iff. split; [lia |]. apply andb_false_iff. left. lia.
  - apply orb_false_iff. split; [lia |]. apply andb_false_iff. right.
    by apply string_ltb_asym.
Qed.

Lemma key_lt_trans (a b c : Z * string) :
  Plotter.key_lt a b = true -> Plotter.key_lt b c = true -> Plotter.key_lt a c = true.
Proof.
  unfold Plotter.key_lt.
  intros [H | [H1 H2]%andb_true_iff]%orb_true_iff
         [H' | [H1' H2']%andb_true_iff]%orb_true_iff; apply orb_true_iff.
  - left. lia.
  - left. lia.
  - left. lia.
  - right. apply andb_true_iff. split; [lia |]. by eapply string_ltb_trans.
Qed.

Lemma key_lt_total (a b : Z * string) :
  a.2 <> b.2 -> Plotter.key_lt a b = true \/ Plotter.key_lt b a = true.
Proof.
  intros Hne. unfold Plotter.key_lt.
  destruct (Z.lt_trichotomy a.1 b.1) as [H | [H | H]].
  - left. apply orb_true_iff. left. lia.
  - destruct (string_ltb_total _ _ Hne) as [Hs | Hs]; [left | right];
      apply orb_true_iff; right; apply andb_true_iff; (split; [lia | done]).
  - right. apply orb_true_iff. left. lia.
Qed.

(** Between two items with different names, a key that is not above a third
    key which is below another is below that other key. *)
Lemma key_lt_le_lt (x z y : Z * string) :
  x.2 <> z.2 \/ x = z ->
  Plotter.key_lt z x = false -> Plotter.key_lt z y = true -> Plotter.key_lt x y = true.
Proof.
  intros [Hne | ->] Hzx Hzy; [| done].
  destruct (key_lt_total x z Hne) as [Hxz | Hxz]; [| congruence].
  by eapply key_lt_trans.
Qed.

Lemma insert_sorted_perm (x : (Z * string) * (string * PyVal))
    (l : list ((Z * string) * (string * PyVal))) :
  Permutation (Plotter.insert_sorted x l) (x :: l).
Proof.
  induction l as [|y l IH]; [done |]. cbn [Plotter.insert_sorted].
  destruct (Plotter.key_lt y.1 x.1); [| done].
  rewrite IH. apply perm_swap.
Qed.

Lemma sorted_perm (l : list ((Z * string) * (string * PyVal))) :
  Permutation (Plotter.sorted l) l.
Proof.
  induction l as [|x l IH]; [done |]. cbn [Plotter.sorted foldr].
  fold (Plotter.sorted l). by rewrite insert_sorted_perm, IH.
Qed.

Lemma insert_sorted_cons (x y : (Z * string) * (string * PyVal))
    (l : list ((Z * string) * (string * PyVal))) :
  Plotter.insert_sorted x (y :: l)
  = if Plotter.key_lt y.1 x.1 then y :: Plotter.insert_sorted x l else x :: y :: l.
Proof. reflexivity. Qed.

Lemma insert_sorted_comm (x y : (Z * string) * (string * PyVal))
    (l : list ((Z * string) * (string * PyVal))) :
  x.1.2 <> y.1.2 ->
  Forall (fun z => z.1.2 <> x.1.2 /\ z.1.2 <> y.1.2) l ->
  Plotter.insert_sorted x (Plotter.insert_sorted y l)
  = Plotter.insert_sorted y (Plotter.insert_sorted x l).
Proof.
  intros Hxy. induction 1 as [|z l [Hzx Hzy] _ IH].
  - cbn [Plotter.insert_sorted].
    destruct (key_lt_total x.1 y.1 Hxy) as [H | H];
      rewrite H, (key_lt_asym _ _ H); done.
  - rewrite (insert_sorted_cons y z), (insert_sorted_cons x z).
    destruct (Plotter.key_lt z.1 y.1) eqn:Hy, (Plotter.key_lt z.1 x.1) eqn:Hx.
    + rewrite !insert_sorted_cons, Hx, Hy. by rewrite IH.
    + assert (Hlt : Plotter.key_lt x.1 y.1 = true).
      { apply (key_lt_le_lt x.1 z.1 y.1); [left; congruence | done | done]. }
      by repeat first [rewrite insert_sorted_cons | rewrite Hx | rewrite Hy | rewrite Hlt].
    + assert (Hlt : Plotter.key_lt y.1 x.1 = true).
      { apply (key_lt_le_lt y.1 z.1 x.1); [left; congruence | done | done]. }
      by repeat first [rewrite insert_sorted_cons | rewrite Hx | rewrite Hy | rewrite Hlt].
    + destruct (key_lt_total x.1 y.1 Hxy) as [H | H];
        pose proof (key_lt_asym _ _ H) as H';
        by repeat first [rewrite insert_sorted_cons | rewrite Hx | rewrite Hy
                        | rewrite H | rewrite H'].
Qed.

(** Sorting items with different names does not depend on their order. *)
Lemma sorted_of_perm (l l' : list ((Z * string) * (string * PyVal))) :
  Permutation l l' ->
  NoDup (map (fun x => x.1.2) l) ->
  Plotter.sorted l = Plotter.sorted l'.
Proof.
  induction 1 as [| x l l' Hperm IH | x y l | l l' l'' Hperm1 IH1 Hperm2 IH2];
    intros Hnodup.
  - done.
  - cbn [Plotter.sorted foldr]. fold (Plotter.sorted l) (Plotter.sorted l').
    cbn [map] in Hnodup. apply NoDup_cons in Hnodup as [_ Hnodup]. by rewrite IH.
  - cbn [Plotter.sorted foldr]. fold (Plotter.sorted l).
    cbn [map] in Hnodup. apply NoDup_cons in Hnodup as [Hy Hnodup].
    apply NoDup_cons in Hnodup as [Hx _].
    apply insert_sorted_comm.
    + intros Heq. apply Hy. apply list_elem_of_In. left. by symmetry.
    + rewrite (sorted_perm l). apply List.Forall_forall. intros z Hz. split.
      * intros Heq. apply Hy. apply list_elem_of_In. right.
        apply in_map_iff. by exists z.
      * intros Heq. apply Hx. apply list_elem_of_In.
        apply in_map_iff. by exists z.
  - rewrite IH1 by done. apply IH2.
    by rewrite <- (Permutation_map (fun x => x.1.2) Hperm1).
Qed.



Lemma keyed_items (d : list (string * PyVal)) :
  mapM Plotter.keyed d
  = if forallb is_number (map snd d) then Ok (map key_of d) else Raise TypeError.
Proof.
  induction d as [|[k v] d IH]; [done |].
  change (mapM Plotter.keyed ((k, v) :: d))
    with (y ← Plotter.keyed (k, v); l ← mapM Plotter.keyed d; mret (y :: l)).
  rewrite IH. cbn [map forallb snd]. unfold Plotter.keyed. cbn [snd fst].
  destruct v; cbn [Plotter.neg is_number andb mbind result_bind]; try done;
    by destruct (forallb is_number (map snd d)).
Qed.

Lemma forallb_perm {A} (f : A -> bool) (l l' : list A) :
  Permutation l l' -> forallb f l = forallb f l'.
Proof.
  induction 1 as [| x l l' _ IH | x y l | l l' l'' _ IH1 _ IH2]; cbn [forallb].
  - done.
  - by rewrite IH.
  - by rewrite !andb_assoc, (andb_comm (f y)).
  - by rewrite IH1.
Qed.



(** X11. The text [format_reasons_for_box] gives for a breakdown does not
    depend on the order in which the mapping holds its reasons: two
    orderings of the same items, under names that are all different, give
    the same text, or the same TypeError. *)
Theorem X11_reasons_box_order_free (t : PyVal) (d d' : list (string * PyVal))
    (fallback : string) :
  NoDup (map fst d) ->
  Permutation d d' ->
  Plotter.format_reasons_for_box (mkReasonCounts t (Some d)) fallback
  = Plotter.format_reasons_for_box (mkReasonCounts t (Some d')) fallback.
Proof.
  intros Hnodup Hperm. unfold Plotter.format_reasons_for_box. cbn [by_reason total].
  destruct d as [|x d], d' as [|x' d'].
  - done.
  - by apply Permutation_nil_cons in Hperm.
  - symmetry in Hperm. by apply Permutation_nil_cons in Hperm.
  - rewrite !keyed_items, <- (forallb_perm _ _ _ (Permutation_map snd Hperm)).
    destruct (forallb is_number (map snd (x :: d))); cbn [mbind result_bind]; [| done].
    rewrite (sorted_of_perm _ _ (Permutation_map key_of Hperm)); [done |].
    by rewrite map_map.
Qed.

Lemma X11_reasons_box_order_free_witness :
  NoDup (map fst [("bias", PInt 2); ("scope", PInt 5)])
  /\ Permutation [("bias", PInt 2); ("scope", PInt 5)] [("scope", PInt 5); ("bias", PInt 2)]
  /\ Plotter.format_reasons_for_box
       (mkReasonCounts PNone (Some [("bias", PInt 2); ("scope", PInt 5)])) "none"
     = Plotter.format_reasons_for_box
         (mkReasonCounts PNone (Some [("scope", PInt 5); ("bias", PInt 2)])) "none".
Proof.
  assert (Hn : NoDup (map fst [("bias", PInt 2); ("scope", PInt 5)])).
  { apply NoDup_cons. split; [| apply NoDup_singleton].
    intros Hin. apply list_elem_of_In in Hin. destruct Hin as [Hin | []]. discriminate Hin. }
  assert (Hp : Permutation [("bias", PInt 2); ("scope", PInt 5)]
                 [("scope", PInt 5); ("bias", PInt 2)]) by apply perm_swap.
  split; [exact Hn |]. split; [exact Hp |].
  exact (X11_reasons_box_order_free PNone _ _ "none" Hn Hp).
Defined.



(** ** Integers and their text *)

Lemma digits_acc (d : Decimal.uint) (p : positive) :
  Py.digits (Zpos p) true (NilEmpty.string_of_uint d) = Some (Zpos (Pos.of_uint_acc d p)).
Proof.
  revert p. induction d as [|d IH|d IH|d IH|d IH|d IH|d IH|d IH|d IH|d IH|d IH];
    intros p; [done |..];
    cbn [NilEmpty.string_of_uint Py.digits Pos.of_uint_acc];
    match goal with
    | |- context [Py.digit_val ?c] =>
        change (Py.digit_val c) with (Some (Z.of_N (Str.code c) - 48))
    end;
    cbv beta iota;
    match goal with
    | |- Py.digits ?a true _ = Some (Zpos (Pos.of_uint_acc d ?q)) =>
        replace a with (Zpos q) by (cbn; lia)
    end;
    apply IH.
Qed.

Lemma digits_from_zero (d : Decimal.uint) :
  Py.digits 0 true (NilEmpty.string_of_uint d) = Some (Z.of_N (Pos.of_uint d)).
Proof.
  induction d as [|d IH|d IH|d IH|d IH|d IH|d IH|d IH|d IH|d IH|d IH];
    [done | exact IH |..];
    cbn [NilEmpty.string_of_uint Py.digits Pos.of_uint];
    match goal with
    | |- context [Py.digit_val ?c] =>
        change (Py.digit_val c) with (Some (Z.of_N (Str.code c) - 48))
    end;
    cbv beta iota;
    match goal with
    | |- Py.digits ?a true _ = Some (Z.of_N (Npos (Pos.of_uint_acc d ?q))) =>
        change a with (Zpos q)
    end;
    apply digits_acc.
Qed.

Lemma digits_start (d : Decimal.uint) :
  d <> Decimal.Nil ->
  Py.digits 0 false (NilEmpty.string_of_uint d)
  = Py.digits 0 true (NilEmpty.string_of_uint d).
Proof. by destruct d. Qed.

Lemma uint_chars (q : ascii -> bool) (d : Decimal.uint) :
  forall_chars q "0123456789" = true ->
  forall_chars q (NilEmpty.string_of_uint d) = true.
Proof.
  intros Hq. cbn in Hq. repeat (apply andb_true_iff in Hq as [? Hq]).
  induction d as [|d IH|d IH|d IH|d IH|d IH|d IH|d IH|d IH|d IH|d IH];
    [done |..]; cbn [NilEmpty.string_of_uint forall_chars]; rewrite IH, andb_true_r; done.
Qed.

Lemma int_literal_digits (d : Decimal.uint) :
  d <> Decimal.Nil ->
  Py.int_literal (NilEmpty.string_of_uint d) = Some (Z.of_N (Pos.of_uint d))
  /\ Py.int_literal (String "-" (NilEmpty.string_of_uint d))
     = Some (- Z.of_N (Pos.of_uint d)).
Proof.
  intros Hd. unfold Py.int_literal. split.
  - rewrite strip_by_none by (by apply uint_chars).
    rewrite <- digits_from_zero, <- (digits_start d Hd). by destruct d.
  - rewrite strip_by_none.
    + by rewrite (digits_start d Hd), digits_from_zero.
    + cbn [forall_chars]. by rewrite uint_chars.
Qed.

Lemma str_of_Z_trimmed (z : Z) : Str.strip (Py.str_of_Z z) = Py.str_of_Z z.
Proof.
  unfold Py.str_of_Z, Str.strip. apply strip_by_none.
  destruct z as [|p|p]; [done | |]; cbn [Z.to_int NilZero.string_of_int].
  - pose proof (DecimalPos.Unsigned.to_uint_nonnil p) as Hp.
    unfold NilZero.string_of_uint. destruct (Pos.to_uint p) eqn:Hu; [done |..];
      rewrite <- Hu; by apply uint_chars.
  - pose proof (DecimalPos.Unsigned.to_uint_nonnil p) as Hp.
    cbn [forall_chars]. unfold NilZero.string_of_uint.
    destruct (Pos.to_uint p) eqn:Hu; [done |..]; rewrite <- Hu; by rewrite uint_chars.
Qed.

(** The decimal text of an integer is a literal of that integer. *)
Lemma int_literal_of_Z (z : Z) : Py.int_literal (Py.str_of_Z z) = Some z.
Proof.
  unfold Py.str_of_Z. destruct z as [|p|p]; [done | |];
    cbn [Z.to_int NilZero.string_of_int];
    pose proof (DecimalPos.Unsigned.to_uint_nonnil p) as Hp;
    destruct (int_literal_digits _ Hp) as [Hpos Hneg];
    rewrite DecimalPos.Unsigned.of_to in Hpos, Hneg;
    unfold NilZero.string_of_uint;
    destruct (Pos.to_uint p) eqn:Hu; done.
Qed.

(** Every character of the decimal text of a number is a digit. *)
Lemma uint_digit_count (d : Decimal.uint) :
  Py.digit_count (NilEmpty.string_of_uint d) = String.length (NilEmpty.string_of_uint d).
Proof.
  induction d as [|d IH|d IH|d IH|d IH|d IH|d IH|d IH|d IH|d IH|d IH];
    [done |..]; cbn [NilEmpty.string_of_uint Py.digit_count String.length];
    by rewrite <- IH.
Qed.

Lemma nz_digit_count (d : Decimal.uint) :
  Py.digit_count (NilZero.string_of_uint d) = String.length (NilZero.string_of_uint d).
Proof. destruct d; [done |..]; apply uint_digit_count. Qed.

Lemma digit_count_str_of_Z (z : Z) : Py.digit_count (Py.str_of_Z z) = Py.digits_of z.
Proof.
  unfold Py.digits_of, Py.str_of_Z. destruct z as [|p|p]; [done | |].
  - apply nz_digit_count.
  - change (Py.digit_count (NilZero.string_of_uint (Pos.to_uint p))
            = String.length (NilZero.string_of_uint (Pos.to_uint p))).
    apply nz_digit_count.
Qed.

Lemma int_of_str_of_Z (z : Z) :
  Z.of_nat (Py.digits_of z) <= Py.int_max_str_digits ->
  Py.int_of_str (Py.str_of_Z z) = Some z.
Proof.
  intros Hz. unfold Py.int_of_str. rewrite digit_count_str_of_Z.
  apply Z.ltb_ge in Hz. rewrite Hz. apply int_literal_of_Z.
Qed.

Lemma digits_bounds (d : Decimal.uint) (acc : Z) :
  0 <= acc ->
  exists v,
    Py.digits acc true (NilEmpty.string_of_uint d) = Some v
    /\ acc * 10 ^ Z.of_nat (String.length (NilEmpty.string_of_uint d)) <= v
       < (acc + 1) * 10 ^ Z.of_nat (String.length (NilEmpty.string_of_uint d)).
Proof.
  revert acc. induction d as [|d IH|d IH|d IH|d IH|d IH|d IH|d IH|d IH|d IH|d IH];
    intros acc Hacc;
    [exists acc; split; [done | cbn; lia] |..];
    cbn [NilEmpty.string_of_uint Py.digits String.length];
    match goal with
    | |- context [Py.digit_val ?c] =>
        change (Py.digit_val c) with (Some (Z.of_N (Str.code c) - 48))
    end;
    cbv beta iota;
    match goal with
    | |- context [Py.digits ?a true _] =>
        destruct (IH a) as [v [Hv Hb]]; [cbn; lia |];
        exists v; split; [exact Hv |];
        rewrite Nat2Z.inj_succ, Z.pow_succ_r by lia;
        cbn in Hb;
        pose proof (Z.pow_pos_nonneg 10 (Z.of_nat (String.length (NilEmpty.string_of_uint d)))
                      ltac:(lia) ltac:(lia));
        nia
    end.
Qed.

(** The decimal text of a positive number does not begin with a zero. *)
Lemma to_uint_head (p : positive) (u : Decimal.uint) : Pos.to_uint p <> Decimal.D0 u.
Proof.
  intros Hp. pose proof (DecimalPos.Unsigned.to_of (Pos.to_uint p)) as Hn.
  rewrite DecimalPos.Unsigned.of_to in Hn. change (N.to_uint (Npos p)) with (Pos.to_uint p) in Hn.
  rewrite Hp in Hn.
  destruct (Decimal.nzhead (Decimal.D0 u)) as [| | | | | | | | | |] eqn:Hnz.
  1:{ apply (DecimalPos.Unsigned.to_uint_nonzero p). rewrite Hp, Hn.
      unfold Decimal.unorm. by rewrite Hnz. }
  all: rewrite DecimalFacts.unorm_nzhead in Hn by (by rewrite Hnz);
    by apply (DecimalFacts.nzhead_nonzero (Decimal.D0 u) u).
Qed.

(** A positive number lies between the powers of ten its number of digits
    gives. *)
Lemma pos_digits_bounds (p : positive) :
  10 ^ (Z.of_nat (Py.digits_of (Zpos p)) - 1) <= Zpos p
  < 10 ^ Z.of_nat (Py.digits_of (Zpos p)).
Proof.
  change (Py.digits_of (Zpos p))
    with (String.length (NilZero.string_of_uint (Pos.to_uint p))).
  pose proof (digits_from_zero (Pos.to_uint p)) as Hv.
  rewrite DecimalPos.Unsigned.of_to in Hv.
  pose proof (to_uint_head p) as Hhead.
  pose proof (DecimalPos.Unsigned.to_uint_nonnil p) as Hnil.
  unfold NilZero.string_of_uint.
  destruct (Pos.to_uint p) as [|u|u|u|u|u|u|u|u|u|u] eqn:Hu;
    [done | by destruct (Hhead u) |..];
    cbn [NilEmpty.string_of_uint Py.digits String.length] in Hv |- *;
    match type of Hv with
    | context [Py.digit_val ?c] =>
        change (Py.digit_val c) with (Some (Z.of_N (Str.code c) - 48)) in Hv
    end;
    cbv beta iota in Hv;
    match type of Hv with
    | Py.digits ?a true _ = _ =>
        destruct (digits_bounds u a) as [v [Hv' Hb]]; [cbn; lia |];
        rewrite Hv' in Hv; injection Hv as ->;
        rewrite Nat2Z.inj_succ;
        replace (Z.succ (Z.of_nat (String.length (NilEmpty.string_of_uint u))) - 1)
          with (Z.of_nat (String.length (NilEmpty.string_of_uint u))) by lia;
        rewrite Z.pow_succ_r by lia;
        cbn in Hb;
        pose proof (Z.pow_pos_nonneg 10 (Z.of_nat (String.length (NilEmpty.string_of_uint u)))
                      ltac:(lia) ltac:(lia));
        nia
    end.
Qed.

(** An integer has at most n digits exactly when it lies below the n-th
    power of ten, its sign apart. *)
Lemma digits_of_le (z n : Z) :
  1 <= n -> Z.of_nat (Py.digits_of z) <= n <-> Z.abs z < 10 ^ n.
Proof.
  intros Hn.
  assert (Hpos : forall p, Z.of_nat (Py.digits_of (Zpos p)) <= n <-> Zpos p < 10 ^ n).
  { intros p. pose proof (pos_digits_bounds p) as [Hlo Hhi]. split.
    - intros Hle. eapply Z.lt_le_trans; [exact Hhi |].
      apply Z.pow_le_mono_r; lia.
    - intros Hlt. destruct (Z.le_gt_cases (Z.of_nat (Py.digits_of (Zpos p))) n) as [? | Hgt];
        [done |]. exfalso.
      assert (10 ^ n <= 10 ^ (Z.of_nat (Py.digits_of (Zpos p)) - 1))
        by (apply Z.pow_le_mono_r; lia).
      lia. }
  destruct z as [|p|p].
  - change (Py.digits_of 0) with 1%nat. change (Z.abs 0) with 0.
    split; [intros _; apply Z.pow_pos_nonneg; lia | lia].
  - apply Hpos.
  - change (Py.digits_of (Zneg p)) with (Py.digits_of (Zpos p)). apply Hpos.
Qed.

(** X13. Integers and their text, within the interpreter's limit of 4300
    digits and beyond it.  An integer below the 4300th power of ten, its
    sign apart, is written out by [str], and [int] and [_to_int] read it
    back from the text.  From that power of ten on [str] of the integer is a
    ValueError, and so is [int] of its decimal text, on which [_to_int]
    returns None; so it is for every text with more than 4300 digits.
    [_to_int] of an integer is the integer itself, whatever its size. *)
Theorem X13_to_int_of_str (z : Z) :
  (Z.abs z < 10 ^ Py.int_max_str_digits ->
   Py.str_int z = Ok (Py.str (PInt z))
   /\ Py.int (PStr (Py.str (PInt z))) = Ok z
   /\ _to_int (PStr (Py.str (PInt z))) = Some z)
  /\ (10 ^ Py.int_max_str_digits <= Z.abs z ->
      Py.str_int z = Raise ValueError
      /\ Py.int (PStr (Py.str_of_Z z)) = Raise ValueError
      /\ _to_int (PStr (Py.str_of_Z z)) = None)
  /\ (forall s,
        Py.int_max_str_digits < Z.of_nat (Py.digit_count s) ->
        Py.int (PStr s) = Raise ValueError /\ _to_int (PStr s) = None)
  /\ _to_int (PInt z) = Some z.
Proof.
  assert (Hlong : forall s,
            Py.int_max_str_digits < Z.of_nat (Py.digit_count s) ->
            Py.int (PStr s) = Raise ValueError /\ _to_int (PStr s) = None).
  { intros s Hs. split; [| by apply to_int_long].
    cbn [Py.int]. by rewrite (int_of_str_long s Hs). }
  pose proof (digits_of_le z Py.int_max_str_digits ltac:(done)) as Hle.
  split; [| split; [| split]].
  - intros Hz. apply Hle in Hz. unfold Py.str_int.
    rewrite (proj2 (Z.ltb_ge _ _) Hz). split; [done |].
    cbn [Py.int _to_int Py.str Py.repr].
    by rewrite str_of_Z_trimmed, (int_of_str_of_Z z Hz).
  - intros Hz.
    assert (Hd : Py.int_max_str_digits < Z.of_nat (Py.digits_of z)).
    { destruct (Z.lt_ge_cases Py.int_max_str_digits (Z.of_nat (Py.digits_of z)))
        as [? | Hd]; [done |].
      apply Hle in Hd. exfalso. by apply (Z.lt_irrefl (Z.abs z)), (Z.lt_le_trans _ _ _ Hd). }
    unfold Py.str_int. rewrite (proj2 (Z.ltb_lt _ _) Hd). split; [done |].
    apply Hlong. by rewrite digit_count_str_of_Z.
  - exact Hlong.
  - done.
Qed.

Lemma X13_to_int_of_str_witness :
  Z.abs (-2024) < 10 ^ Py.int_max_str_digits
  /\ Py.str_int (-2024) = Ok "-2024"
  /\ Py.int (PStr "-2024") = Ok (-2024)
  /\ _to_int (PStr "-2024") = Some (-2024).
Proof.
  assert (H : Z.abs (-2024) < 10 ^ Py.int_max_str_digits).
  { apply digits_of_le; [done |]. vm_compute. discriminate. }
  split; [exact H |].
  exact (proj1 (X13_to_int_of_str (-2024)) H).
Defined.

Lemma digit_count_ones (n : nat) : Py.digit_count (ones n) = n.
Proof. induction n as [|n IH]; [done |]. cbn [ones Py.digit_count]. by rewrite IH. Qed.

(** A text of 4301 digits is one digit too long. *)
Example to_int_beyond_the_limit :
  Py.int (PStr (ones 4301)) = Raise ValueError /\ _to_int (PStr (ones 4301)) = None.
Proof.
  assert (H : Py.int_max_str_digits < Z.of_nat (Py.digit_count (ones 4301)))
    by (by rewrite digit_count_ones).
  split; [| by apply to_int_long]. cbn [Py.int]. by rewrite (int_of_str_long _ H).
Qed.

(** ** Further properties of the screening-criteria parser *)

Lemma split_chars (c sep : ascii) (s : string) :
  Str.mem_char c s = false ->
  Forall (fun p => Str.mem_char c p = false) (Str.split sep s).
Proof.
  induction s as [|a s IH]; [by repeat constructor |].
  cbn [Str.mem_char Str.split]. intros [Ha Hs]%orb_false_iff. specialize (IH Hs).
  destruct (Ascii.eqb a sep).
  - by constructor.
  - pose proof (split_nonempty sep s) as Hne.
    destruct (Str.split sep s) as [|p ps]; [done |].
    apply Forall_cons in IH as [Hp Hps]. constructor; [| done].
    cbn [Str.mem_char]. by rewrite Ha, Hp.
Qed.

Lemma replace_removes (a b : ascii) (s : string) :
  a <> b -> Str.mem_char a (Str.replace a b s) = false.
Proof.
  intros Hab. unfold Str.replace. induction s as [|c s IH]; [done |].
  cbn [Str.map_chars Str.mem_char]. rewrite IH, orb_false_r.
  destruct (Ascii.eqb_spec c a) as [-> | Hc]; by apply Ascii.eqb_neq.
Qed.

Lemma mem_char_app (c : ascii) (s t : string) :
  Str.mem_char c (s ++ t) = Str.mem_char c s || Str.mem_char c t.
Proof.
  induction s as [|a s IH]; [done |]. rewrite append_cons. cbn [Str.mem_char].
  by rewrite IH, orb_assoc.
Qed.

Lemma criteria_parts_chars (value : PyVal) :
  Forall (fun p => Str.mem_char ";" p = false /\ Str.mem_char "," p = false)
         (Loader.criteria_parts value).
Proof.
  unfold Loader.criteria_parts. apply Forall_and. split.
  - apply split_chars. by apply replace_removes.
  - apply split_no_sep.
Qed.

(** X14. In the mapping [parse_screening_criteria] returns, every flag is 0
    or 1, and every criterion name is free of whitespace at either end and
    holds no semicolon, comma or equals sign; when the field has no equals
    sign at all the names hold no colon either. *)
Theorem X14_criteria_names_clean (value : PyVal) (k : string) (f : Z) :
  Loader.parse_screening_criteria value !! k = Some f ->
  (f = 0 \/ f = 1)
  /\ trimmed k
  /\ Str.mem_char ";" k = false /\ Str.mem_char "," k = false
  /\ Str.mem_char "=" k = false
  /\ (Str.mem_char "=" (Py.str value) = false -> Str.mem_char ":" k = false).
Proof.
  intros Hk. split; [exact (parse_screening_criteria_flags value k f Hk) |].
  rewrite parse_screening_criteria_lookup in Hk.
  destruct (Py.truthy value); [| done].
  unfold last_flag in Hk. apply last_Some_elem_of, list_elem_of_omap in Hk.
  destruct Hk as [part [Hpart Hflag]]. unfold flag_for in Hflag.
  destruct (entry_of part) as [[k' f']|] eqn:He; [| done].
  case_decide as Hkk; [| done]. subst k'. injection Hflag as ->.
  apply entry_of_Some in He as (k0 & v0 & Hsplit & -> & _).
  pose proof (criteria_parts_chars value) as Hchars.
  rewrite Forall_forall in Hchars. destruct (Hchars part Hpart) as [Hsemi Hcomma].
  split; [apply strip_trimmed |].
  assert (Hsub : forall c, Str.mem_char c part = false -> Str.mem_char c k0 = false).
  { intros c Hc. apply split_entry_Some in Hsplit as [[-> _] | [_ [-> _]]];
      rewrite mem_char_app in Hc; by apply orb_false_iff in Hc as [? _]. }
  split; [by apply mem_char_strip, Hsub |]. split; [by apply mem_char_strip, Hsub |].
  split.
  - apply mem_char_strip.
    apply split_entry_Some in Hsplit as [[_ H] | [H _]]; [done | by apply Hsub].
  - intros Hno. apply mem_char_strip.
    apply split_entry_Some in Hsplit as [[-> _] | [_ [_ H]]]; [| done].
    exfalso.
    assert (Hin : Str.mem_char "=" (k0 ++ String "=" v0) = true).
    { rewrite mem_char_app. cbn. by rewrite orb_true_r. }
    assert (Hparts : Forall (fun p => Str.mem_char "=" p = false)
                       (Loader.criteria_parts value)).
    { unfold Loader.criteria_parts. apply split_chars.
      unfold Str.replace.
      assert (Hs : Str.mem_char "="
                     (Str.strip_chars "{}" (Str.strip (Py.str value))) = false).
      { by apply mem_char_strip, mem_char_strip. }
      revert Hs. generalize (Str.strip_chars "{}" (Str.strip (Py.str value))).
      intros s. induction s as [|c s IH]; [done |].
      cbn [Str.mem_char Str.map_chars]. intros [Hc Hs]%orb_false_iff.
      rewrite (IH Hs), orb_false_r.
      destruct (Ascii.eqb_spec c ";") as [-> | _]; [done | exact Hc]. }
    rewrite Forall_forall in Hparts. specialize (Hparts _ Hpart). congruence.
Qed.

Lemma X14_criteria_names_clean_witness :
  Loader.parse_screening_criteria (PStr "{ non-empirical = in ; bias=out }")
    !! "non-empirical" = Some 0
  /\ trimmed "non-empirical".
Proof.
  assert (H : Loader.parse_screening_criteria (PStr "{ non-empirical = in ; bias=out }")
                !! "non-empirical" = Some 0) by (vm_compute; reflexivity).
  split; [exact H |].
  exact (proj1 (proj2 (X14_criteria_names_clean _ _ _ H))).
Defined.

Lemma forall_chars_join (q : ascii -> bool) (sep : string) (parts : list string) :
  forall_chars q sep = true ->
  Forall (fun p => forall_chars q p = true) parts ->
  forall_chars q (Str.join sep parts) = true.
Proof.
  intros Hsep. induction 1 as [|p parts Hp Hparts IH]; [done |].
  destruct parts as [|p' parts]; [done |].
  change (Str.join sep (p :: p' :: parts)) with (p ++ sep ++ Str.join sep (p' :: parts)).
  by rewrite !forall_chars_app, Hp, Hsep, IH.
Qed.

Lemma criteria_entry_chars (q : ascii -> bool) (kv : string * bool) :
  forall_chars q kv.1 = true -> forall_chars q "=outin" = true ->
  forall_chars q (criteria_entry kv) = true.
Proof.
  intros Hk Hq. unfold criteria_entry, criteria_word.
  rewrite !forall_chars_app, Hk. cbn in Hq.
  repeat (apply andb_true_iff in Hq as [? Hq]).
  destruct kv.2; cbn [forall_chars]; by repeat (apply andb_true_iff; split).
Qed.

Lemma plain_name_chars (q : ascii -> bool) (k : string) :
  (forall c, negb (Str.mem_char c ";,={}") = true -> q c = true) ->
  plain_name k -> forall_chars q k = true.
Proof.
  intros Hq [_ Hk]. unfold lacks in Hk. by eapply forall_chars_impl; [apply Hq |].
Qed.

(** One turn of the parser on a written entry records the entry. *)
Lemma criteria_step_entry (acc : gmap string Z) (kv : string * bool) :
  plain_name kv.1 ->
  Loader.criteria_step acc (criteria_entry kv)
  = <[kv.1 := if kv.2 then 1 else 0]> acc.
Proof.
  intros [Htrim Hk]. unfold Loader.criteria_step.
  assert (Hsplit : Loader.split_entry (criteria_entry kv)
                   = Some (kv.1, criteria_word kv.2)).
  { apply split_entry_Some. left. split; [done |].
    apply lacks_mem_char. unfold lacks in *.
    eapply forall_chars_impl; [| exact Hk].
    intros c Hc. apply negb_true_iff in Hc. apply negb_true_iff.
    cbn in *. destruct (Ascii.eqb c "="); [| done].
    by rewrite !orb_true_r in Hc. }
  rewrite Hsplit. unfold trimmed in Htrim. rewrite Htrim.
  by destruct kv.2.
Qed.

Lemma criteria_fold_entries (items : list (string * bool)) (acc : gmap string Z) :
  Forall (fun kv => plain_name kv.1) items ->
  fold_left Loader.criteria_step (map criteria_entry items) acc
  = fold_left (fun m (kv : string * bool) => <[kv.1 := if kv.2 then 1 else 0]> m) items acc.
Proof.
  intros Hall. revert acc. induction Hall as [|kv items Hkv _ IH]; intros acc; [done |].
  cbn [map fold_left]. by rewrite criteria_step_entry, IH.
Qed.

Lemma fold_insert_snoc (items : list (string * bool)) (kv : string * bool)
    (acc : gmap string Z) :
  fold_left (fun m (kv : string * bool) => <[kv.1 := if kv.2 then 1 else 0]> m)
            (items ++ [kv]) acc
  = <[kv.1 := if kv.2 then 1 else 0]>
      (fold_left (fun m (kv : string * bool) => <[kv.1 := if kv.2 then 1 else 0]> m)
                 items acc).
Proof. by rewrite fold_left_app. Qed.

Lemma fold_insert_list_to_map (items : list (string * bool)) :
  NoDup (map fst items) ->
  fold_left (fun m (kv : string * bool) => <[kv.1 := if kv.2 then 1 else 0]> m) items ∅
  = criteria_map items.
Proof.
  unfold criteria_map. induction items as [|kv items IH] using rev_ind; [done |].
  intros Hnodup. rewrite fold_insert_snoc.
  assert (Hperm : items ++ [kv] ≡ₚ kv :: items)
    by (by rewrite Permutation_app_comm).
  assert (Hfst : forall l : list (string * bool),
            (map (fun kv : string * bool => (kv.1, if kv.2 then 1 else 0)) l).*1
            = map fst l).
  { intros l. induction l as [|x l IHl]; [done |]. cbn. by rewrite <- IHl. }
  rewrite (list_to_map_proper
             (map (fun kv : string * bool => (kv.1, if kv.2 then 1 else 0)) (items ++ [kv]))
             (map (fun kv : string * bool => (kv.1, if kv.2 then 1 else 0)) (kv :: items))).
  - cbn [map list_to_map]. rewrite IH; [done |].
    rewrite Hperm in Hnodup. cbn [map] in Hnodup. by apply NoDup_cons in Hnodup as [_ ?].
  - by rewrite Hfst.
  - by rewrite Hperm.
Qed.

(** The loader's parser on the notation of the field. *)
Lemma loader_reads_criteria_text (items : list (string * bool)) :
  NoDup (map fst items) ->
  Forall (fun kv => plain_name kv.1) items ->
  Loader.parse_screening_criteria (PStr (criteria_text items)) = criteria_map items.
Proof.
  intros Hnodup Hall.
  destruct (decide (items = [])) as [-> | Hne0]; [done |].
  assert (Hne : map criteria_entry items <> []) by (by destruct items).
  unfold Loader.parse_screening_criteria, Loader.criteria_parts.
  cbn [Py.truthy Py.str negb]. unfold criteria_text.
  set (inner := Str.join ";" (map criteria_entry items)).
  change ("{" ++ inner ++ "}") with (String "{" (inner ++ String "}" EmptyString)).
  cbn [Str.nonempty].
  assert (Hentries : forall q,
            (forall c, negb (Str.mem_char c ";,={}") = true -> q c = true) ->
            forall_chars q "=outin" = true ->
            Forall (fun p => forall_chars q p = true) (map criteria_entry items)).
  { intros q Hq Hlit. apply Forall_fmap. eapply Forall_impl; [exact Hall |].
    intros kv Hkv. apply criteria_entry_chars; [| done]. by apply plain_name_chars. }
  unfold Str.strip. rewrite strip_by_wrapped_out by done.
  unfold Str.strip_chars. rewrite strip_by_wrapped_in; [| done | done |].
  2:{ apply forall_chars_join; [done |]. apply Hentries; [| done].
      intros c Hc. apply negb_true_iff in Hc. apply negb_true_iff.
      cbn in *. repeat (apply orb_false_iff in Hc as [? Hc]).
      by repeat (apply orb_false_iff; split). }
  subst inner. unfold Str.replace. cbn [negb].
  rewrite (split_mapped_join _ ";" "," eq_refl _ Hne).
  - by rewrite criteria_fold_entries, fold_insert_list_to_map.
  - unfold plain_part. apply Hentries; [| done].
    intros c Hc. apply negb_true_iff in Hc.
    cbn in Hc. repeat (apply orb_false_iff in Hc as [? Hc]).
    apply andb_true_iff. split.
    + destruct (Ascii.eqb c ";"); [done | apply Ascii.eqb_refl].
    + by apply negb_true_iff.
Qed.

(** X15. A mapping of criteria written in the notation of the field --
    entries name=in or name=out, semicolons between them, braces around --
    is read back by [parse_screening_criteria] as it was, when the names are
    all different, have no whitespace at either end and hold none of the
    characters of the notation (semicolon, comma, equals sign, braces). *)
Theorem X15_criteria_read_back (items : list (string * bool)) :
  NoDup (map fst items) ->
  Forall (fun kv => plain_name kv.1) items ->
  Loader.parse_screening_criteria (PStr (criteria_text items)) = criteria_map items.
Proof. apply loader_reads_criteria_text. Qed.

Lemma X15_criteria_read_back_witness :
  NoDup (map fst [("non-empirical", false); ("bias", true)])
  /\ Forall (fun kv : string * bool => plain_name kv.1)
            [("non-empirical", false); ("bias", true)]
  /\ Loader.parse_screening_criteria
       (PStr (criteria_text [("non-empirical", false); ("bias", true)]))
     = criteria_map [("non-empirical", false); ("bias", true)].
Proof.
  assert (Hn : NoDup (map fst [("non-empirical", false); ("bias", true)])).
  { apply NoDup_cons. split; [| apply NoDup_singleton].
    intros Hin. apply list_elem_of_In in Hin. destruct Hin as [Hin | []]. discriminate Hin. }
  assert (Hp : Forall (fun kv : string * bool => plain_name kv.1)
                 [("non-empirical", false); ("bias", true)]).
  { repeat apply List.Forall_cons; try apply List.Forall_nil;
      (split; [vm_compute; reflexivity | reflexivity]). }
  split; [exact Hn |]. split; [exact Hp |].
  exact (X15_criteria_read_back _ Hn Hp).
Defined.

(** ** The monolithic module: origin statistics and aggregator *)

Section MonoOrigin.
Variables origin_field record_id_prefix_exclude origin_entry_prefix_exclude : string.

Lemma mono_origin_entries_nonneg (recs : records) :
  0 <= mono_origin_entries origin_field record_id_prefix_exclude
         origin_entry_prefix_exclude recs.
Proof.
  induction recs as [|item recs IH]; [done |]. cbn [mono_origin_entries foldr].
  fold (mono_origin_entries origin_field record_id_prefix_exclude
          origin_entry_prefix_exclude recs).
  destruct (mono_with_origin _ _ item); lia.
Qed.

(** The loop of the monolithic [compute_origin_stats] counts the kept
    records, adds the counted parts of those with a truthy origin value, and
    notes whether there was one. *)
Lemma mono_origin_fold_closed (recs : records) (acc : Monolith.origin_acc) :
  fold_left (Monolith.origin_step origin_field record_id_prefix_exclude
               origin_entry_prefix_exclude) recs acc
  = Monolith.mkOriginAcc
      (Monolith.any_origin acc
       || existsb (mono_with_origin origin_field record_id_prefix_exclude) recs)
      (Monolith.total_origin_entries acc
       + mono_origin_entries origin_field record_id_prefix_exclude
           origin_entry_prefix_exclude recs)
      (Monolith.kept_records acc + kept_count record_id_prefix_exclude recs).
Proof.
  revert acc. induction recs as [|[rid rec] recs IH]; intros [any tot kept].
  - unfold kept_count. simpl. rewrite orb_false_r. f_equal; lia.
  - cbn [fold_left]. rewrite IH. clear IH.
    rewrite kept_count_cons. cbn [existsb mono_origin_entries foldr].
    fold (mono_origin_entries origin_field record_id_prefix_exclude
            origin_entry_prefix_exclude recs).
    unfold Monolith.origin_step, mono_with_origin, mono_counted_parts, kept_item.
    cbn [fst snd].
    destruct (Str.startswith record_id_prefix_exclude rid); cbn [negb andb orb].
    + f_equal; lia.
    + destruct (Py.truthy (get rec origin_field));
        cbn [negb Monolith.any_origin Monolith.total_origin_entries
             Monolith.kept_records orb].
      * rewrite orb_true_r. f_equal; lia.
      * f_equal; lia.
Qed.

Lemma mono_origin_stats_closed (recs : records) :
  Monolith.compute_origin_stats_with origin_field record_id_prefix_exclude
    origin_entry_prefix_exclude recs
  = if existsb (mono_with_origin origin_field record_id_prefix_exclude) recs
    then (Some (mono_origin_entries origin_field record_id_prefix_exclude
                  origin_entry_prefix_exclude recs),
          Some (Z.max 0 (mono_origin_entries origin_field record_id_prefix_exclude
                           origin_entry_prefix_exclude recs
                         - kept_count record_id_prefix_exclude recs)))
    else (None, None).
Proof.
  unfold Monolith.compute_origin_stats_with. rewrite mono_origin_fold_closed.
  cbn [Monolith.any_origin Monolith.total_origin_entries Monolith.kept_records orb].
  destruct (existsb _ recs); cbn [negb]; [| done].
  by rewrite !Z.add_0_l.
Qed.

Lemma mono_with_origin_kept (recs : records) :
  existsb (mono_with_origin origin_field record_id_prefix_exclude) recs = true ->
  1 <= kept_count record_id_prefix_exclude recs.
Proof.
  induction recs as [|item recs IH]; [done |]. cbn [existsb].
  rewrite kept_count_cons. pose proof (kept_count_nonneg record_id_prefix_exclude recs).
  unfold mono_with_origin at 1.
  destruct (kept_item record_id_prefix_exclude item); cbn [andb]; [lia |].
  cbn [orb]. intros Hrest. specialize (IH Hrest). lia.
Qed.
End MonoOrigin.

(** X16. The monolithic [compute_origin_stats] returns None twice exactly
    when no record whose identifier does not start with the exclusion prefix
    has a truthy origin value.  Otherwise it returns two numbers: the total
    is the number of counted parts of those records and may be zero, and the
    duplicates removed are the total minus the number of kept records,
    floored at zero, so between zero and the total; the two results are
    never a number beside None. *)
Theorem X16_monolith_origin_stats
    (origin_field prefix entry_prefix : string) (recs : records) :
  match Monolith.compute_origin_stats_with origin_field prefix entry_prefix recs with
  | (Some n, Some d) =>
      Exists (fun item => Str.startswith prefix item.1 = false
                          /\ Py.truthy (get item.2 origin_field) = true) recs
      /\ n = mono_origin_entries origin_field prefix entry_prefix recs
      /\ 0 <= n
      /\ d = Z.max 0 (n - kept_count prefix recs)
      /\ 0 <= d <= n
      /\ (1 <= n -> d <= n - 1)
  | (None, None) =>
      Forall (fun item => Str.startswith prefix item.1 = false ->
                          Py.truthy (get item.2 origin_field) = false) recs
  | _ => False
  end.
Proof.
  rewrite mono_origin_stats_closed.
  destruct (existsb (mono_with_origin origin_field prefix) recs) eqn:Hany.
  - pose proof (mono_origin_entries_nonneg origin_field prefix entry_prefix recs).
    pose proof (mono_with_origin_kept origin_field prefix recs Hany).
    split; [| repeat split; lia].
    apply existsb_exists in Hany as [item [Hin Hitem]].
    apply Exists_exists. exists item. split; [by apply list_elem_of_In |].
    unfold mono_with_origin, kept_item in Hitem.
    apply andb_true_iff in Hitem as [Hk Ht]. by apply negb_true_iff in Hk.
  - apply Forall_forall. intros item Hin Hk.
    apply list_elem_of_In in Hin.
    destruct (Py.truthy (get item.2 origin_field)) eqn:Ht; [| done].
    assert (existsb (mono_with_origin origin_field prefix) recs = true); [| congruence].
    apply existsb_exists. exists item. split; [done |].
    unfold mono_with_origin, kept_item. by rewrite Hk, Ht.
Qed.

Lemma mono_count_bucket_nonneg (tag : string) (recs : records) :
  0 <= mono_count_bucket tag recs.
Proof. unfold mono_count_bucket. lia. Qed.

(** Every record is in exactly one of the seven buckets. *)
Lemma mono_count_bucket_total (recs : records) :
  mono_count_bucket "identified" recs + mono_count_bucket "duplicate" recs
  + mono_count_bucket "screened" recs + mono_count_bucket "excluded" recs
  + mono_count_bucket "fulltext" recs + mono_count_bucket "included" recs
  + mono_count_bucket "other" recs
  = Z.of_nat (length recs).
Proof.
  induction recs as [|item recs IH]; [done |].
  rewrite !mono_count_bucket_cons. cbn [length]. rewrite Nat2Z.inj_succ, <- IH.
  pose proof (mono_bucket_of_in_tags item.2) as Hb. unfold mono_bucket_tags in Hb.
  simpl in Hb.
  repeat (destruct Hb as [<- | Hb]; [repeat case_decide; try done; lia |]). done.
Qed.

(** The monolithic [records_to_status] raises nothing; its counts are sums
    of bucket counts, and the two identification numbers come from the
    origin statistics or, without them, from the buckets. *)
Lemma mono_records_to_status_closed (ek sk : string) (recs : records) :
  exists st,
    Monolith.records_to_status_with ek sk recs = Ok st
    /\ screened st
       = Some (mono_count_bucket "screened" recs + mono_count_bucket "excluded" recs
               + mono_count_bucket "fulltext" recs + mono_count_bucket "included" recs)
    /\ records_excluded st = Some (mono_count_bucket "excluded" recs)
    /\ reports_sought st
       = Some (mono_count_bucket "fulltext" recs + mono_count_bucket "included" recs)
    /\ assessed st
       = Some (mono_count_bucket "fulltext" recs + mono_count_bucket "included" recs)
    /\ included st = Some (mono_count_bucket "included" recs)
    /\ registers st = None /\ automation st = None /\ other_removed st = None
    /\ not_retrieved st = None
    /\ databases st
       = Some (match Monolith.compute_origin_stats recs with
               | (Some n, _) => n
               | (None, _) =>
                   mono_count_bucket "identified" recs + mono_count_bucket "screened" recs
                   + mono_count_bucket "fulltext" recs + mono_count_bucket "included" recs
                   + mono_count_bucket "excluded" recs + mono_count_bucket "other" recs
               end)
    /\ duplicates st
       = Some (match Monolith.compute_origin_stats recs with
               | (_, Some d) => d
               | (_, None) => mono_count_bucket "duplicate" recs
               end).
Proof.
  unfold Monolith.records_to_status_with.
  destruct (mono_status_loop_closed ek sk recs (Monolith.mkLoopState Monolith.buckets0 ∅ ∅))
    as [st' [-> Hb']].
  { intros tag Htag. unfold mono_bucket_tags in Htag. simpl in Htag.
    repeat (destruct Htag as [<- | Htag]; [by eexists |]). done. }
  cbn [mbind result_bind Monolith.buckets] in *.
  rewrite !(getitem_closed Monolith.buckets0 _ (fun tag => mono_count_bucket tag recs) _ 0 Hb')
    by reflexivity.
  cbn [mbind result_bind].
  destruct (Monolith.compute_origin_stats recs) as [[n_origin|] [dup|]];
    cbn [mbind result_bind];
    rewrite ?(getitem_closed Monolith.buckets0 _ (fun tag => mono_count_bucket tag recs) _ 0 Hb')
      by reflexivity;
    cbn [mbind result_bind];
    (eexists; split; [reflexivity |];
     cbn [screened records_excluded reports_sought assessed included registers automation
          other_removed not_retrieved databases duplicates];
     repeat split; f_equal; lia).
Qed.


(** X18. The two identification numbers of the monolithic
    [records_to_status]: when [compute_origin_stats] finds origin data they
    are its two results; otherwise duplicates is the count of the duplicate
    bucket and databases the number of all other records, so that the two
    add up to the number of records. *)
Theorem X18_monolith_identification (recs : records) :
  exists st db dup,
    Monolith.records_to_status recs = Ok st
    /\ databases st = Some db /\ duplicates st = Some dup
    /\ match Monolith.compute_origin_stats recs with
       | (Some n, Some d) => db = n /\ dup = d
       | (None, None) =>
           dup = mono_count_bucket "duplicate" recs
           /\ db + dup = Z.of_nat (length recs)
       | _ => False
       end.
Proof.
  destruct (mono_records_to_status_closed "exclusion_reason" "screening_criteria" recs)
    as (st & Hst & _ & _ & _ & _ & _ & _ & _ & _ & _ & Hdb & Hdup).
  exists st. eexists _, _. split; [exact Hst |]. split; [exact Hdb |]. split; [exact Hdup |].
  pose proof (mono_count_bucket_total recs).
  pose proof (X := mono_origin_stats_closed "colrev_origin" "md_" "md_" recs).
  fold (Monolith.compute_origin_stats recs) in X.
  rewrite X. destruct (existsb _ recs); [done |]. split; lia.
Qed.

(** ** The two status classifiers *)

Lemma string_app_assoc (a b c : string) : (a ++ b) ++ c = a ++ b ++ c.
Proof. induction a as [|x a IH]; [done |]. rewrite !append_cons. by rewrite IH. Qed.

(** A text that holds [y] holds every piece of [y]. *)
Lemma contains_piece (a x b s : string) :
  Str.contains (a ++ x ++ b) s = true -> Str.contains x s = true.
Proof.
  rewrite !contains_app. intros [a' [b' ->]]. exists (a' ++ a), (b ++ b').
  by rewrite !string_app_assoc.
Qed.

Lemma lacks_piece (a x b s : string) :
  Str.contains x s = false -> Str.contains (a ++ x ++ b) s = false.
Proof.
  intros Hx. destruct (Str.contains (a ++ x ++ b) s) eqn:Hy; [| done].
  apply contains_piece in Hy. congruence.
Qed.

Lemma contains_any_false (xs : list string) (s : string) :
  Str.contains_any xs s = false <-> Forall (fun x => Str.contains x s = false) xs.
Proof.
  unfold Str.contains_any. induction xs as [|x xs IH]; cbn [existsb].
  - split; [constructor | done].
  - rewrite orb_false_iff, IH. split.
    + intros [? ?]. by constructor.
    + intros H. by apply Forall_cons in H.
Qed.

(** What a status outside the first three buckets of the monolithic
    classifier lacks. *)
Lemma past_screen_rule (s : string) :
  Str.contains_any ["prescreen"; "title_abstract"; "screen"; "screened"] s = false ->
  Str.contains "rev_prescreen_excluded" s = false
  /\ Str.contains_any ["prescreen"; "screened"] s = false.
Proof.
  intros Hscreen. apply contains_any_false in Hscreen.
  apply Forall_cons in Hscreen as [Hpre [_ [Hs [Hsd _]%Forall_cons]%Forall_cons]%Forall_cons].
  split.
  - exact (lacks_piece "rev_pre" "screen" "_excluded" s Hs).
  - apply contains_any_false. by repeat constructor.
Qed.

Lemma past_pdf_rule (s : string) :
  Str.contains_any ["pdf"; "fulltext"; "full_text"; "retrieval"] s = false ->
  Str.contains_any Loader.PDF_NOT_RETRIEVED_STATUSES s = false
  /\ Str.contains_any Loader.PDF_RETRIEVED_STATUSES s = false.
Proof.
  intros Hpdf. apply contains_any_false in Hpdf. apply Forall_cons in Hpdf as [Hp _].
  split; apply contains_any_false; repeat constructor.
  - exact (lacks_piece "" "pdf" "_needs_manual_retrieval" s Hp).
  - exact (lacks_piece "" "pdf" "_not_available" s Hp).
  - exact (lacks_piece "" "pdf" "_imported" s Hp).
  - exact (lacks_piece "" "pdf" "_needs_manual_preparation" s Hp).
  - exact (lacks_piece "" "pdf" "_prepared" s Hp).
Qed.

Lemma loader_bucket_of_monolith_excluded (status : string) :
  Monolith.status_bucket status = "excluded" ->
  Loader.status_bucket status = "fulltext_excluded".
Proof.
  unfold Monolith.status_bucket, Loader.status_bucket. cbv zeta.
  set (s := Str.lower status).
  destruct (Str.contains_any ["md_imported"; _; _; _] s); [discriminate |].
  destruct (Str.contains_any ["dedupe"; _; _] s); [discriminate |].
  destruct (Str.contains_any ["prescreen"; _; _; _] s) eqn:Hscreen; [discriminate |].
  destruct (Str.contains_any ["excluded"; _] s) eqn:Hexcl;
    [| by repeat destruct (Str.contains_any _ s)].
  intros _. destruct (past_screen_rule s Hscreen) as [Hrev _]. by rewrite Hrev.
Qed.

Lemma loader_bucket_of_monolith_included (status : string) :
  Monolith.status_bucket status = "included" ->
  Loader.status_bucket status = "included".
Proof.
  unfold Monolith.status_bucket, Loader.status_bucket. cbv zeta.
  set (s := Str.lower status).
  destruct (Str.contains_any ["md_imported"; _; _; _] s); [discriminate |].
  destruct (Str.contains_any ["dedupe"; _; _] s); [discriminate |].
  destruct (Str.contains_any ["prescreen"; _; _; _] s) eqn:Hscreen; [discriminate |].
  destruct (Str.contains_any ["excluded"; _] s) eqn:Hexcl; [discriminate |].
  destruct (Str.contains_any ["pdf"; _; _; _] s) eqn:Hpdf; [discriminate |].
  destruct (Str.contains_any ["included"; _; _] s) eqn:Hincl; [| discriminate].
  intros _. destruct (past_screen_rule s Hscreen) as [Hrev Hpres].
  destruct (past_pdf_rule s Hpdf) as [Hnot Hret].
  by rewrite Hrev, Hpres, Hnot, Hret.
Qed.

Lemma loader_bucket_of_monolith_other (status : string) :
  Monolith.status_bucket status = "other" ->
  Loader.status_bucket status = "other".
Proof.
  unfold Monolith.status_bucket, Loader.status_bucket. cbv zeta.
  set (s := Str.lower status).
  destruct (Str.contains_any ["md_imported"; _; _; _] s); [discriminate |].
  destruct (Str.contains_any ["dedupe"; _; _] s) eqn:Hdup; [discriminate |].
  destruct (Str.contains_any ["prescreen"; _; _; _] s) eqn:Hscreen; [discriminate |].
  destruct (Str.contains_any ["excluded"; _] s) eqn:Hexcl; [discriminate |].
  destruct (Str.contains_any ["pdf"; _; _; _] s) eqn:Hpdf; [discriminate |].
  destruct (Str.contains_any ["included"; _; _] s) eqn:Hincl; [discriminate |].
  intros _. destruct (past_screen_rule s Hscreen) as [Hrev Hpres].
  destruct (past_pdf_rule s Hpdf) as [Hnot Hret].
  apply contains_any_false in Hdup.
  apply Forall_cons in Hdup as [Hdd [Hdu _]%Forall_cons].
  assert (Hdups : Str.contains_any ["duplicate"; "dedupe"] s = false).
  { apply contains_any_false. by repeat constructor. }
  by rewrite Hrev, Hpres, Hnot, Hret, Hdups.
Qed.

Lemma monolith_bucket_of_prescreen_excluded (status : string) :
  Loader.status_bucket status = "prescreen_excluded" ->
  In (Monolith.status_bucket status) ["identified"; "duplicate"; "screened"].
Proof.
  unfold Monolith.status_bucket, Loader.status_bucket. cbv zeta.
  set (s := Str.lower status).
  destruct (Str.contains "rev_prescreen_excluded" s) eqn:Hrev;
    [| by repeat destruct (Str.contains_any _ s)].
  intros _.
  assert (Hs : Str.contains_any ["prescreen"; "title_abstract"; "screen"; "screened"] s
               = true).
  { unfold Str.contains_any. cbn [existsb].
    rewrite (contains_piece "rev_pre" "screen" "_excluded" s Hrev).
    by rewrite !orb_true_r. }
  rewrite Hs. repeat destruct (Str.contains_any _ s); simpl; tauto.
Qed.

(** X19. The classifier of the monolithic module against the one of the
    loader.  A status the monolithic [status_bucket] puts in excluded, the
    loader's puts in fulltext_excluded; one it puts in included or in other,
    the loader's puts in the bucket of the same name.  A status the loader's
    classifier puts in prescreen_excluded is never in the monolithic excluded
    bucket: it holds the marker screen, which comes first there, and is put
    in identified, duplicate or screened. *)
Theorem X19_classifiers_compared (status : string) :
  (Monolith.status_bucket status = "excluded" ->
   Loader.status_bucket status = "fulltext_excluded")
  /\ (Monolith.status_bucket status = "included" ->
      Loader.status_bucket status = "included")
  /\ (Monolith.status_bucket status = "other" ->
      Loader.status_bucket status = "other")
  /\ (Loader.status_bucket status = "prescreen_excluded" ->
      In (Monolith.status_bucket status) ["identified"; "duplicate"; "screened"]).
Proof.
  split; [apply loader_bucket_of_monolith_excluded |].
  split; [apply loader_bucket_of_monolith_included |].
  split; [apply loader_bucket_of_monolith_other |].
  apply monolith_bucket_of_prescreen_excluded.
Qed.

(** ** The screening-criteria parser of the monolithic module *)

Lemma raw_parts_chars (s : string) :
  Forall (fun p => Str.mem_char ";" p = false /\ Str.mem_char "," p = false)
         (Monolith.raw_parts s).
Proof.
  unfold Monolith.raw_parts. apply Forall_forall. intros part Hin.
  apply list_elem_of_In, in_flat_map in Hin as [chunk [Hchunk Hpart]].
  apply list_elem_of_In in Hchunk.
  pose proof (split_no_sep ";" s) as Hsemi. rewrite Forall_forall in Hsemi.
  specialize (Hsemi chunk Hchunk).
  destruct (Str.nonempty (Str.strip chunk)); [| done].
  apply in_map_iff in Hpart as [p [<- Hp]].
  apply list_elem_of_In, list_elem_of_filter in Hp as [_ Hp].
  split; apply mem_char_strip.
  - pose proof (split_chars ";" "," (Str.strip chunk)) as H.
    rewrite Forall_forall in H. apply H; [| done]. by apply mem_char_strip.
  - pose proof (split_no_sep "," (Str.strip chunk)) as H.
    rewrite Forall_forall in H. by apply H.
Qed.

Lemma mono_criteria_step_keys (P : string -> Z -> Prop) (out : gmap string Z)
    (part : string) :
  (forall k v, Loader.split_entry part = Some (k, v) ->
               Str.strip k <> "" -> P (Str.strip k) 0 /\ P (Str.strip k) 1) ->
  map_Forall P out -> map_Forall P (Monolith.criteria_step out part).
Proof.
  intros Hpart Hout. unfold Monolith.criteria_step.
  destruct (Loader.split_entry part) as [[k v]|]; [| done].
  destruct (Str.nonempty (Str.strip k)) eqn:Hkey; cbn [negb orb]; [| done].
  apply nonempty_true in Hkey. destruct (Hpart k v eq_refl Hkey) as [H0 H1].
  destruct (negb (Str.nonempty _)); [done |].
  destruct (Loader.mem_str _ Monolith.out_vals).
  { by apply map_Forall_insert_2. }
  destruct (Loader.mem_str _ Monolith.in_vals); [| done].
  by apply map_Forall_insert_2.
Qed.

Lemma mono_criteria_fold_keys (P : string -> Z -> Prop) (parts : list string)
    (out : gmap string Z) :
  Forall (fun part =>
            forall k v, Loader.split_entry part = Some (k, v) ->
                        Str.strip k <> "" -> P (Str.strip k) 0 /\ P (Str.strip k) 1) parts ->
  map_Forall P out -> map_Forall P (fold_left Monolith.criteria_step parts out).
Proof.
  intros Hparts. revert out. induction Hparts as [|part parts Hpart _ IH]; intros out Hout.
  - done.
  - cbn [fold_left]. apply IH. by apply mono_criteria_step_keys.
Qed.

(** X20. In the mapping the monolithic [parse_screening_criteria] returns,
    every flag is 0 or 1, and every criterion name is non-empty, free of
    whitespace at either end, and holds no semicolon, comma or equals
    sign. *)
Theorem X20_monolith_criteria_names (value : PyVal) (k : string) (f : Z) :
  Monolith.parse_screening_criteria value !! k = Some f ->
  (f = 0 \/ f = 1)
  /\ k <> "" /\ trimmed k
  /\ Str.mem_char ";" k = false /\ Str.mem_char "," k = false
  /\ Str.mem_char "=" k = false.
Proof.
  set (P := fun (k : string) (f : Z) =>
              (f = 0 \/ f = 1) /\ k <> "" /\ trimmed k
              /\ Str.mem_char ";" k = false /\ Str.mem_char "," k = false
              /\ Str.mem_char "=" k = false).
  assert (Hall : map_Forall P (Monolith.parse_screening_criteria value)).
  { unfold Monolith.parse_screening_criteria.
    destruct (negb (Py.truthy value)); [apply map_Forall_empty |]. cbv zeta.
    destruct (negb (Str.nonempty _)); [apply map_Forall_empty |].
    apply mono_criteria_fold_keys; [| apply map_Forall_empty].
    eapply Forall_impl; [apply raw_parts_chars |].
    intros part [Hsemi Hcomma] k0 v0 Hsplit Hne.
    assert (Hsub : forall c, Str.mem_char c part = false -> Str.mem_char c k0 = false).
    { intros c Hc. apply split_entry_Some in Hsplit as [[-> _] | [_ [-> _]]];
        rewrite mem_char_app in Hc; by apply orb_false_iff in Hc as [? _]. }
    assert (Heq : Str.mem_char "=" k0 = false).
    { apply split_entry_Some in Hsplit as [[_ H] | [H _]]; [done | by apply Hsub]. }
    split; (split; [tauto |]); (split; [done |]); (split; [apply strip_trimmed |]);
      repeat split; apply mem_char_strip; auto. }
  intros Hk. exact (Hall k f Hk).
Qed.

Lemma X20_monolith_criteria_names_witness :
  Monolith.parse_screening_criteria (PStr "{ non-empirical : out , bias=in, }")
    !! "non-empirical" = Some 1
  /\ trimmed "non-empirical".
Proof.
  assert (H : Monolith.parse_screening_criteria (PStr "{ non-empirical : out , bias=in, }")
                !! "non-empirical" = Some 1) by (vm_compute; reflexivity).
  split; [exact H |].
  exact (proj1 (proj2 (proj2 (X20_monolith_criteria_names _ _ _ H)))).
Defined.

(** ** The two reason normalizers and the reasons box *)




(** X22. The loader's [normalize_reasons] hands the breakdown of a
    structured mapping on as it is, its counts unchecked: with an integer
    total and a non-empty breakdown it raises nothing and returns that total
    and that breakdown, and [format_reasons_for_box] then raises a TypeError
    exactly when some count is neither an integer nor a boolean. *)
Theorem X22_loader_breakdown_unchecked (n : Z) (d : list (string * PyVal))
    (fallback : string) :
  d <> [] ->
  exists rc,
    Loader.normalize_reasons (with_breakdown n d) = Ok rc
    /\ total rc = PInt n /\ by_reason rc = Some d
    /\ (Plotter.format_reasons_for_box rc fallback = Raise TypeError
        <-> forallb is_number (map snd d) = false).
Proof.
  intros Hne. destruct d as [|x d]; [done |].
  exists (mkReasonCounts (PInt n) (Some (x :: d))).
  split; [reflexivity |]. split; [reflexivity |]. split; [reflexivity |].
  unfold Plotter.format_reasons_for_box. cbn [by_reason].
  rewrite keyed_items. destruct (forallb is_number (map snd (x :: d)));
    cbn [mbind result_bind]; split; done.
Qed.

Lemma X22_loader_breakdown_unchecked_witness :
  [("bias", PStr "many")] <> []
  /\ exists rc,
       Loader.normalize_reasons (with_breakdown 4 [("bias", PStr "many")]) = Ok rc
       /\ Plotter.format_reasons_for_box rc "none" = Raise TypeError.
Proof.
  assert (Hne : [("bias", PStr "many")] <> []) by discriminate.
  split; [exact Hne |].
  destruct (X22_loader_breakdown_unchecked 4 [("bias", PStr "many")] "none" Hne)
    as (rc & Hrc & _ & _ & Hbox).
  exists rc. split; [exact Hrc |]. apply Hbox. reflexivity.
Defined.

(** X23. Outside the structured form the two reason normalizers are the
    same function: on None, on a number, on a [ReasonCounts], on any other
    plain value and on a mapping without a key total or by_reason, the
    monolithic [normalize_reasons] and the loader's return the same result or
    raise the same exception. *)
Theorem X23_normalizers_agree (value : ReasonsLike) :
  structured value = false ->
  MonolithReasons.normalize_reasons value = Loader.normalize_reasons value.
Proof.
  intros Hs. destruct value as [v | rc]; [| done].
  destruct v as [| b | z | s | l | d]; try done.
  cbn [structured] in Hs.
  unfold MonolithReasons.normalize_reasons, Loader.normalize_reasons.
  by rewrite Hs, (orb_comm (Py.dict_has d "by_reason")), Hs.
Qed.

Lemma X23_normalizers_agree_witness :
  structured (RValue (PDict [("bias", PStr "2"); ("scope", PInt 1)])) = false
  /\ MonolithReasons.normalize_reasons (RValue (PDict [("bias", PStr "2"); ("scope", PInt 1)]))
     = Loader.normalize_reasons (RValue (PDict [("bias", PStr "2"); ("scope", PInt 1)])).
Proof.
  split; [reflexivity |].
  apply X23_normalizers_agree. reflexivity.
Defined.

(** ** The texts of the boxes *)











(** ** The two aggregators compared *)

Lemma count_le_of_bucket_incl (tag tag' : string) (recs : records) :
  (forall rec, mono_bucket_of rec = tag -> bucket_of rec = tag') ->
  mono_count_bucket tag recs <= count_bucket tag' recs.
Proof.
  intros Hincl. induction recs as [|item recs IH]; [done |].
  rewrite mono_count_bucket_cons, count_bucket_cons.
  pose proof (Hincl item.2) as Hitem.
  repeat case_decide; try lia. by exfalso; auto.
Qed.

(** X26. The monolithic [records_to_status] never counts more than the
    loader's: on every record collection its included count is at most the
    loader's included count, and its records_excluded, the count of its
    excluded bucket, is at most the number of records the loader puts in
    fulltext_excluded. *)
Theorem X26_monolith_counts_below_loader (recs : records) :
  exists st st' i i' e',
    Loader.records_to_status recs = Ok st
    /\ Monolith.records_to_status recs = Ok st'
    /\ included st = Some i /\ included st' = Some i'
    /\ records_excluded st' = Some e'
    /\ 0 <= i' <= i
    /\ 0 <= e' <= count_bucket "fulltext_excluded" recs.
Proof.
  destruct (mono_records_to_status_closed "exclusion_reason" "screening_criteria" recs)
    as (st' & Hst' & _ & He' & _ & _ & Hi' & _).
  unfold Loader.records_to_status. rewrite records_to_status_closed.
  eexists _, st', _, _, _. split; [reflexivity |]. split; [exact Hst' |].
  split; [reflexivity |]. split; [exact Hi' |]. split; [exact He' |].
  pose proof (mono_count_bucket_nonneg "included" recs).
  pose proof (mono_count_bucket_nonneg "excluded" recs).
  split; (split; [done |]); apply count_le_of_bucket_incl; intros rec.
  - apply loader_bucket_of_monolith_included.
  - apply loader_bucket_of_monolith_excluded.
Qed.

(** ** The monolithic parser on the notation of the field *)

Lemma lstrip_by_length (p : ascii -> bool) (s : string) :
  (String.length (Str.lstrip_by p s) <= String.length s)%nat.
Proof.
  induction s as [|c s IH]; [done |]. cbn [Str.lstrip_by].
  destruct (p c); cbn [String.length]; lia.
Qed.

Lemma rstrip_by_length (p : ascii -> bool) (s : string) :
  (String.length (Str.rstrip_by p s) <= String.length s)%nat.
Proof.
  induction s as [|c s IH]; [done |]. rewrite rstrip_by_cons.
  destruct (Str.rstrip_by p s); [destruct (p c) |]; cbn [String.length] in *; lia.
Qed.

(** A trimmed text does not begin with whitespace. *)
Lemma trimmed_head (a : ascii) (k : string) :
  trimmed (String a k) -> Str.isspace a = false.
Proof.
  unfold trimmed, Str.strip, Str.strip_by. intros Hk.
  destruct (Str.isspace a) eqn:Ha; [| done]. exfalso.
  cbn [Str.lstrip_by] in Hk. rewrite Ha in Hk.
  apply (f_equal String.length) in Hk. cbn [String.length] in Hk.
  pose proof (rstrip_by_length Str.isspace (Str.lstrip_by Str.isspace k)).
  pose proof (lstrip_by_length Str.isspace k). lia.
Qed.

Lemma firm_strip (s : string) : firm s -> Str.strip s = s.
Proof.
  intros (a & mid & c & -> & Ha & Hc & _). by apply strip_by_wrapped_out.
Qed.

Lemma firm_rstrip_comma (s : string) : firm s -> Str.rstrip_chars "," s = s.
Proof.
  intros (a & mid & c & -> & _ & _ & Hc). unfold Str.rstrip_chars.
  change (String a (mid ++ String c EmptyString))
    with (String a mid ++ String c EmptyString).
  apply rstrip_by_snoc_out. cbn [Str.mem_char]. rewrite orb_false_r.
  by apply Ascii.eqb_neq.
Qed.

Lemma firm_nonempty (s : string) : firm s -> Str.nonempty s = true.
Proof. by intros (a & mid & c & -> & _). Qed.

Lemma firm_app (s t : string) (sep : ascii) :
  firm s -> firm t -> firm (s ++ String sep EmptyString ++ t).
Proof.
  intros (a & mid & c & -> & Ha & _) (a' & mid' & c' & -> & _ & Hc' & Hcomma).
  exists a, (mid ++ String c (String sep (String a' mid'))), c'.
  split; [| done]. rewrite append_cons. f_equal.
  rewrite !string_app_assoc. by rewrite !append_cons, !append_nil.
Qed.

Lemma firm_join (sep : ascii) (parts : list string) :
  parts <> [] -> Forall firm parts -> firm (Str.join (String sep EmptyString) parts).
Proof.
  induction parts as [|p parts IH]; [done |]. intros _ Hall.
  apply Forall_cons in Hall as [Hp Hparts].
  destruct parts as [|q parts]; [done |].
  change (Str.join (String sep EmptyString) (p :: q :: parts))
    with (p ++ String sep EmptyString ++ Str.join (String sep EmptyString) (q :: parts)).
  apply firm_app; [done |]. by apply IH.
Qed.

Lemma firm_entry (kv : string * bool) :
  plain_name kv.1 -> kv.1 <> "" -> firm (criteria_entry kv).
Proof.
  intros [Htrim _] Hne. unfold criteria_entry.
  destruct kv.1 as [|a k] eqn:Hk; [done |].
  apply trimmed_head in Htrim.
  destruct kv.2; cbn [criteria_word].
  - exists a, (k ++ "=ou"), "t"%char. split; [| done].
    rewrite append_cons. f_equal. by rewrite string_app_assoc.
  - exists a, (k ++ "=i"), "n"%char. split; [| done].
    rewrite append_cons. f_equal. by rewrite string_app_assoc.
Qed.

Lemma drop_last_snoc (s : string) (c : ascii) :
  Monolith.drop_last (s ++ String c EmptyString) = s.
Proof.
  induction s as [|d s IH]; [done |]. rewrite append_cons. cbn [Monolith.drop_last].
  rewrite IH. by destruct s.
Qed.

Lemma endswith_snoc (s : string) (c : ascii) :
  Str.endswith (String c EmptyString) (s ++ String c EmptyString) = true.
Proof.
  induction s as [|d s IH].
  - rewrite append_nil. cbn [Str.endswith]. by rewrite String.eqb_refl.
  - rewrite append_cons. cbn [Str.endswith]. by rewrite IH, orb_true_r.
Qed.

Lemma flat_map_singletons {A} (g : A -> list A) (l : list A) :
  Forall (fun x => g x = [x]) l -> flat_map g l = l.
Proof.
  induction 1 as [|x l Hx _ IH]; [done |]. cbn [flat_map]. by rewrite Hx, IH.
Qed.

Lemma split_plain (b : ascii) (p : string) :
  Str.mem_char b p = false -> Str.split b p = [p].
Proof.
  intros Hb. rewrite <- (map_chars_id p) at 1.
  apply (split_mapped_single (fun c => c) b). unfold plain_part.
  apply lacks_mem_char in Hb. unfold lacks in Hb.
  eapply forall_chars_impl; [| exact Hb]. intros c Hc.
  rewrite Ascii.eqb_refl. cbn [andb]. cbn [Str.mem_char] in Hc.
  by rewrite orb_false_r in Hc.
Qed.

Lemma entry_chars (kv : string * bool) (c : ascii) :
  plain_name kv.1 -> Str.mem_char c ";,={}" = true -> c <> "="%char ->
  Str.mem_char c (criteria_entry kv) = false.
Proof.
  intros [_ Hk] Hc Hne. unfold criteria_entry. rewrite !mem_char_app.
  assert (Hkc : Str.mem_char c kv.1 = false).
  { unfold lacks in Hk. induction kv.1 as [|d k IH]; [done |].
    cbn [forall_chars Str.mem_char] in *. apply andb_true_iff in Hk as [Hd Hk].
    rewrite (IH Hk), orb_false_r. apply Ascii.eqb_neq. intros ->.
    by rewrite Hc in Hd. }
  rewrite Hkc. cbn [orb]. clear Hkc Hk. cbn [Str.mem_char] in Hc.
  repeat (apply orb_true_iff in Hc as [Hc | Hc]);
    try discriminate Hc; apply Ascii.eqb_eq in Hc; subst c;
    try done; by destruct kv.2.
Qed.

Lemma raw_parts_entries (items : list (string * bool)) :
  items <> [] ->
  Forall (fun kv => plain_name kv.1 /\ kv.1 <> "") items ->
  Monolith.raw_parts (Str.join ";" (map criteria_entry items)) = map criteria_entry items.
Proof.
  intros Hne Hall. unfold Monolith.raw_parts.
  assert (Hne' : map criteria_entry items <> []) by (by destruct items).
  rewrite <- (map_chars_id (Str.join ";" (map criteria_entry items))).
  rewrite (split_mapped_join (fun c => c) ";" ";" eq_refl _ Hne').
  - apply flat_map_singletons. apply Forall_fmap. eapply Forall_impl; [exact Hall |].
    intros kv [Hkv Hk]. cbn [compose].
    pose proof (firm_entry kv Hkv Hk) as Hfirm.
    rewrite (firm_strip _ Hfirm), (firm_nonempty _ Hfirm).
    rewrite (split_plain "," _ (entry_chars kv "," Hkv eq_refl ltac:(done))).
    rewrite filter_cons, decide_True, filter_nil
      by (by rewrite (firm_strip _ Hfirm), (firm_nonempty _ Hfirm)).
    cbn [map]. by rewrite (firm_strip _ Hfirm).
  - apply Forall_fmap. eapply Forall_impl; [exact Hall |].
    intros kv [Hkv Hk]. cbn [compose]. unfold plain_part.
    pose proof (entry_chars kv ";" Hkv eq_refl ltac:(done)) as Hsemi.
    apply lacks_mem_char in Hsemi. unfold lacks in Hsemi.
    eapply forall_chars_impl; [| exact Hsemi]. intros c Hc.
    rewrite Ascii.eqb_refl. cbn [andb]. cbn [Str.mem_char] in Hc.
    by rewrite orb_false_r in Hc.
Qed.

Lemma mono_criteria_step_entry (acc : gmap string Z) (kv : string * bool) :
  plain_name kv.1 -> kv.1 <> "" ->
  Monolith.criteria_step acc (criteria_entry kv)
  = <[kv.1 := if kv.2 then 1 else 0]> acc.
Proof.
  intros [Htrim Hk] Hne. unfold Monolith.criteria_step.
  assert (Hsplit : Loader.split_entry (criteria_entry kv)
                   = Some (kv.1, criteria_word kv.2)).
  { apply split_entry_Some. left. split; [done |].
    apply lacks_mem_char. unfold lacks in *.
    eapply forall_chars_impl; [| exact Hk].
    intros c Hc. apply negb_true_iff in Hc. apply negb_true_iff.
    cbn in *. destruct (Ascii.eqb c "="); [| done].
    by rewrite !orb_true_r in Hc. }
  rewrite Hsplit. unfold trimmed in Htrim. rewrite Htrim.
  apply nonempty_true in Hne. rewrite Hne.
  by destruct kv.2.
Qed.

Lemma mono_criteria_fold_entries (items : list (string * bool)) (acc : gmap string Z) :
  Forall (fun kv => plain_name kv.1 /\ kv.1 <> "") items ->
  fold_left Monolith.criteria_step (map criteria_entry items) acc
  = fold_left (fun m (kv : string * bool) => <[kv.1 := if kv.2 then 1 else 0]> m) items acc.
Proof.
  intros Hall. revert acc. induction Hall as [|kv items [Hkv Hk] _ IH]; intros acc; [done |].
  cbn [map fold_left]. by rewrite mono_criteria_step_entry, IH.
Qed.

(** X27. The monolithic [parse_screening_criteria] reads a mapping of
    criteria written in the notation of the field back as it was, when the
    names are all different, non-empty, without whitespace at either end
    and free of the characters of the notation; on such a text it returns
    what the loader's parser returns. *)
Theorem X27_monolith_criteria_read_back (items : list (string * bool)) :
  NoDup (map fst items) ->
  Forall (fun kv => plain_name kv.1 /\ kv.1 <> "") items ->
  Monolith.parse_screening_criteria (PStr (criteria_text items)) = criteria_map items
  /\ Monolith.parse_screening_criteria (PStr (criteria_text items))
     = Loader.parse_screening_criteria (PStr (criteria_text items)).
Proof.
  intros Hnodup Hall.
  assert (Hmono : Monolith.parse_screening_criteria (PStr (criteria_text items))
                  = criteria_map items).
  { destruct (decide (items = [])) as [-> | Hne]; [done |].
    set (inner := Str.join ";" (map criteria_entry items)).
    set (s := String "{" (inner ++ String "}" EmptyString)).
    change (criteria_text items) with s.
    assert (Hs : Str.strip s = s) by (by apply strip_by_wrapped_out).
    assert (Hstart : Str.startswith "{" s = true) by reflexivity.
    assert (Hend : Str.endswith "}" s = true)
      by apply (endswith_snoc (String "{" inner) "}").
    assert (Hslice : Monolith.slice_1_m1 s = inner) by apply drop_last_snoc.
    unfold Monolith.parse_screening_criteria.
    change (Py.truthy (PStr s)) with true. cbn [negb Py.str]. cbv zeta.
    rewrite Hs, Hstart, Hend, Hslice. cbn [andb].
    assert (Hfirm : firm inner).
    { apply firm_join; [by destruct items |]. apply Forall_fmap.
      eapply Forall_impl; [exact Hall |]. intros kv [Hkv Hk]. by apply firm_entry. }
    rewrite (firm_strip _ Hfirm), (firm_rstrip_comma _ Hfirm), (firm_strip _ Hfirm).
    rewrite (firm_nonempty _ Hfirm). cbn [negb]. subst inner.
    rewrite (raw_parts_entries items Hne Hall), mono_criteria_fold_entries by done.
    by apply fold_insert_list_to_map. }
  split; [exact Hmono |]. rewrite Hmono. symmetry.
  apply loader_reads_criteria_text; [done |].
  eapply Forall_impl; [exact Hall |]. by intros kv [? _].
Qed.

Lemma X27_monolith_criteria_read_back_witness :
  NoDup (map fst [("non-empirical", false); ("bias", true)])
  /\ Forall (fun kv : string * bool => plain_name kv.1 /\ kv.1 <> "")
            [("non-empirical", false); ("bias", true)]
  /\ Monolith.parse_screening_criteria
       (PStr (criteria_text [("non-empirical", false); ("bias", true)]))
     = criteria_map [("non-empirical", false); ("bias", true)].
Proof.
  assert (Hn : NoDup (map fst [("non-empirical", false); ("bias", true)])).
  { apply NoDup_cons. split; [| apply NoDup_singleton].
    intros Hin. apply list_elem_of_In in Hin. destruct Hin as [Hin | []]. discriminate Hin. }
  assert (Hp : Forall (fun kv : string * bool => plain_name kv.1 /\ kv.1 <> "")
                 [("non-empirical", false); ("bias", true)]).
  { repeat apply List.Forall_cons; try apply List.Forall_nil;
      (split; [split; [vm_compute; reflexivity | reflexivity] | discriminate]). }
  split; [exact Hn |]. split; [exact Hp |].
  exact (proj1 (X27_monolith_criteria_read_back _ Hn Hp)).
Defined.

(** ** The reasons of the monolithic aggregator *)

Section MonoTallies.
Variables exclusion_reason_key screening_criteria_key : string.

Lemma mono_status_step_tallies (st st' : Monolith.loop_state) (rec : record) :
  Monolith.status_step exclusion_reason_key screening_criteria_key st rec = Ok st' ->
  Monolith.criteria_reasons_count st'
  = mono_criteria_step screening_criteria_key (Monolith.criteria_reasons_count st) rec
  /\ Monolith.single_reasons_count st'
     = mono_single_step exclusion_reason_key screening_criteria_key
         (Monolith.single_reasons_count st) rec.
Proof.
  unfold Monolith.status_step, mono_criteria_step, mono_single_step.
  fold (mono_bucket_of rec).
  destruct (incr_item _ _) as [bs|e]; cbn [mbind result_bind]; [| done].
  destruct (String.eqb (mono_bucket_of rec) "excluded"); cbn [negb].
  - cbv zeta. case_decide.
    + destruct (Str.nonempty _); by intros [= <-].
    + by intros [= <-].
  - by intros [= <-].
Qed.

Lemma mono_status_loop_tallies (recs : list record) (st st' : Monolith.loop_state) :
  Monolith.status_loop exclusion_reason_key screening_criteria_key recs st = Ok st' ->
  Monolith.criteria_reasons_count st'
  = fold_left (mono_criteria_step screening_criteria_key) recs
      (Monolith.criteria_reasons_count st)
  /\ Monolith.single_reasons_count st'
     = fold_left (mono_single_step exclusion_reason_key screening_criteria_key) recs
         (Monolith.single_reasons_count st).
Proof.
  revert st. induction recs as [|rec recs IH]; intros st.
  - by intros [= <-].
  - cbn [Monolith.status_loop fold_left].
    destruct (Monolith.status_step _ _ st rec) as [st1|e] eqn:Hstep;
      cbn [mbind result_bind]; [| done].
    intros Hloop. destruct (mono_status_step_tallies st st1 rec Hstep) as [<- <-].
    by apply IH.
Qed.

Lemma mono_parse_nonneg (value : PyVal) :
  map_Forall (fun _ v => 0 <= v) (Monolith.parse_screening_criteria value).
Proof.
  unfold Monolith.parse_screening_criteria.
  destruct (negb (Py.truthy value)); [apply map_Forall_empty |]. cbv zeta.
  destruct (negb (Str.nonempty _)); [apply map_Forall_empty |].
  apply (mono_criteria_fold_keys (fun _ v => 0 <= v)); [| apply map_Forall_empty].
  apply Forall_forall. intros part _ k v _ _. lia.
Qed.

Lemma mono_criteria_fold_nonneg (recs : list record) (t : gmap string Z) :
  map_Forall (fun _ v => 0 <= v) t ->
  map_Forall (fun _ v => 0 <= v)
    (fold_left (mono_criteria_step screening_criteria_key) recs t).
Proof.
  revert t. induction recs as [|rec recs IH]; intros t Ht; [done |].
  cbn [fold_left]. apply IH. unfold mono_criteria_step.
  destruct (String.eqb _ _); [| done]. cbv zeta. case_decide; [done |].
  apply add_items_nonneg; [apply mono_parse_nonneg | done].
Qed.

Lemma add_item_nonneg (k : string) (t : gmap string Z) :
  map_Forall (fun _ v => 0 <= v) t -> map_Forall (fun _ v => 0 <= v) (add_item k 1 t).
Proof.
  intros Ht. unfold add_item. apply map_Forall_insert_2; [| done].
  destruct (t !! k) as [v|] eqn:Hv; simpl; [| lia].
  specialize (Ht k v Hv). cbn in Ht. lia.
Qed.

Lemma mono_single_fold_nonneg (recs : list record) (t : gmap string Z) :
  map_Forall (fun _ v => 0 <= v) t ->
  map_Forall (fun _ v => 0 <= v)
    (fold_left (mono_single_step exclusion_reason_key screening_criteria_key) recs t).
Proof.
  revert t. induction recs as [|rec recs IH]; intros t Ht; [done |].
  cbn [fold_left]. apply IH. unfold mono_single_step.
  destruct (String.eqb _ _); [| done]. cbv zeta. case_decide; [| done].
  destruct (Str.nonempty _); [| done]. by apply add_item_nonneg.
Qed.

(** Every name of the tally of criteria is a criterion of some excluded
    record. *)
Lemma mono_criteria_fold_names (recs : records) (t : gmap string Z) (k : string) :
  is_Some (fold_left (mono_criteria_step screening_criteria_key) (map snd recs) t !! k) ->
  is_Some (t !! k) \/ Exists (mono_names_criterion screening_criteria_key k) recs.
Proof.
  revert t. induction recs as [|[rid rec] recs IH]; intros t; [by left |].
  cbn [map fold_left snd]. intros Hk. apply IH in Hk as [Hk | Hk]; [| by right; right].
  unfold mono_criteria_step in Hk.
  destruct (String.eqb_spec (mono_bucket_of rec) "excluded") as [Hb | Hb]; [| by left].
  cbv zeta in Hk. case_decide; [by left |].
  rewrite add_items_lookup in Hk.
  destruct (Monolith.parse_screening_criteria (get rec screening_criteria_key) !! k)
    as [x|] eqn:Hx; [| by left].
  right. left. split; [done |]. cbn [snd]. by rewrite Hx.
Qed.

(** The tally of criteria is empty exactly when no excluded record has
    criteria that parse to an entry. *)
Lemma mono_criteria_fold_is_empty (recs : records) (t : gmap string Z) :
  fold_left (mono_criteria_step screening_criteria_key) (map snd recs) t = ∅
  <-> t = ∅ /\ ~ Exists (mono_has_criteria screening_criteria_key) recs.
Proof.
  revert t. induction recs as [|[rid rec] recs IH]; intros t.
  - cbn. rewrite Exists_nil. tauto.
  - cbn [map fold_left snd]. rewrite IH, Exists_cons. unfold mono_criteria_step at 1.
    unfold mono_has_criteria at 2. cbn [snd].
    destruct (String.eqb_spec (mono_bucket_of rec) "excluded") as [Hb | Hb]; [| tauto].
    cbv zeta. case_decide as Hp; [tauto |].
    rewrite add_items_is_empty. tauto.
Qed.
End MonoTallies.

Lemma mono_records_to_status_reasons (ek sk : string) (recs : records) :
  exists st,
    Monolith.records_to_status_with ek sk recs = Ok st
    /\ reports_excluded st
       = match or_none (fold_left (mono_criteria_step sk) (map snd recs) ∅) with
         | Some d => Some d
         | None => or_none (fold_left (mono_single_step ek sk) (map snd recs) ∅)
         end.
Proof.
  unfold Monolith.records_to_status_with.
  destruct (mono_status_loop_closed ek sk recs (Monolith.mkLoopState Monolith.buckets0 ∅ ∅))
    as [st' [Hloop Hb']].
  { intros tag Htag. unfold mono_bucket_tags in Htag. simpl in Htag.
    repeat (destruct Htag as [<- | Htag]; [by eexists |]). done. }
  rewrite Hloop. apply mono_status_loop_tallies in Hloop as [Hc Hs].
  cbn [Monolith.criteria_reasons_count Monolith.single_reasons_count] in Hc, Hs.
  cbn [mbind result_bind Monolith.buckets] in *.
  rewrite !(getitem_closed Monolith.buckets0 _ (fun tag => mono_count_bucket tag recs) _ 0 Hb')
    by reflexivity.
  cbn [mbind result_bind].
  destruct (Monolith.compute_origin_stats recs) as [[n_origin|] [dup|]];
    cbn [mbind result_bind];
    rewrite ?(getitem_closed Monolith.buckets0 _ (fun tag => mono_count_bucket tag recs) _ 0 Hb')
      by reflexivity;
    cbn [mbind result_bind];
    (eexists; split; [reflexivity |]; cbn [reports_excluded]; by rewrite Hc, Hs).
Qed.

(** X28. The reasons of the monolithic [records_to_status] are never an
    empty mapping and hold no negative count.  The criteria take the place
    of the fallback reasons altogether: as soon as one record of the
    excluded bucket has criteria that parse to an entry, every reason
    returned is a criterion of some excluded record, and the fallback
    reasons of the other records are left out. *)
Theorem X28_monolith_reasons (recs : records) :
  exists st,
    Monolith.records_to_status recs = Ok st
    /\ reports_excluded st <> Some ∅
    /\ map_Forall (fun _ v => 0 <= v) (tally_of st)
    /\ (Exists (mono_has_criteria "screening_criteria") recs ->
        forall k, is_Some (tally_of st !! k) ->
                  Exists (mono_names_criterion "screening_criteria" k) recs).
Proof.
  destruct (mono_records_to_status_reasons "exclusion_reason" "screening_criteria" recs)
    as (st & Hst & Hr).
  exists st. split; [exact Hst |]. unfold tally_of. rewrite Hr. clear Hr Hst.
  unfold or_none. case_decide as Hc.
  - case_decide as Hs.
    + split; [done |]. split; [apply map_Forall_empty |].
      intros Hex. apply mono_criteria_fold_is_empty in Hc as [_ Hc]. done.
    + split; [by intros [= ?] |]. split.
      * apply mono_single_fold_nonneg, map_Forall_empty.
      * intros Hex. apply mono_criteria_fold_is_empty in Hc as [_ Hc]. done.
  - split; [by intros [= ?] |]. split.
    + apply mono_criteria_fold_nonneg, map_Forall_empty.
    + intros _ k Hk. cbn [default from_option id] in Hk.
      apply mono_criteria_fold_names in Hk as [Hk | Hk]; [| done].
      rewrite lookup_empty in Hk. by destruct Hk.
Qed.

(** ** The origin field in the monolithic module *)



(** ** Reason counts given as a [ReasonCounts] *)

Lemma to_int_opt_int (o : option Z) : _to_int (opt_int o) = o.
Proof. by destruct o. Qed.

(** X30. On a [ReasonCounts] both normalizers raise nothing, and what they
    return is in normal form: its total is an integer or None, its breakdown
    is None or a non-empty mapping, and normalizing it again returns it
    unchanged. *)
Theorem X30_normalize_counts_idempotent (rc : ReasonCounts) :
  exists rc',
    Loader.normalize_reasons (RCounts rc) = Ok rc'
    /\ MonolithReasons.normalize_reasons (RCounts rc) = Ok rc'
    /\ Loader.normalize_reasons (RCounts rc') = Ok rc'
    /\ (total rc' = PNone \/ exists z, total rc' = PInt z)
    /\ by_reason rc' <> Some [].
Proof.
  eexists. split; [reflexivity |]. split; [reflexivity |].
  cbn [Loader.normalize_reasons total by_reason]. rewrite to_int_opt_int.
  split; [| split].
  - by destruct (by_reason rc) as [[|x d]|].
  - destruct (_to_int (total rc)) as [z|]; [right; by exists z | by left].
  - by destruct (by_reason rc) as [[|x d]|].
Qed.
